(** * Hawaii Today: the service layer (weather, surf, news, events)

    A shallow embedding of the four data services of the dashboard
    (weatherservice.ts, the surf service, the news service and
    eventsservice.ts) and the properties of their cache-then-fan-out-then-
    fallback behaviour.

    Conventions of the embedding.
    - [Date.now()] is never read implicitly: every function that reads the
      clock takes the reading as an argument. An async operation is cut at its
      [await]: [f_check] is the synchronous prefix, run at [t0]; [f_resume] is
      the continuation, run at [t1] with the settled outcome of the awaited
      promise; [f] composes the two with the fan-out. The readings of the
      clock within one of these segments are taken to be equal. Times are
      epoch milliseconds in [Z].
    - A JS [Map<string, _>] is a [gmap string _], a [Set<string>] a
      [gset string]; the store is passed in and returned.
    - A computation that may throw, and a settled promise, is an [outcome].
    - Real-valued JS numbers (relevance scores, temperatures, wave heights) are
      rationals in [Q]: each finite double stands for its exact value, so
      comparisons are exact; the rounding of binary64 arithmetic is not
      modelled, so the properties stated below are those that hold whatever
      that rounding does. A number that can be NaN (a missing or non-numeric
      JSON field once it is used as a number) is an [option], [None] for NaN.
    - Islands and categories are the strings they are at run time.
    - ISO date strings stay strings; [new Date(s).getTime()] and
      [toISOString] belong to the [Host] ([None] stands for NaN).
    - Upstream payloads enter at the point where the code has normalised
      them: a response carries the records its normaliser yields, or the
      exception the normaliser raises on it. *)

From Stdlib Require Import ZArith QArith Qround Qminmax Lia Lqa Sorted Permutation.
From stdpp Require Import base gmap strings list pretty.

Close Scope Q_scope.
Open Scope Z_scope.

(** ** JavaScript runtime notions shared by the services *)

Module Js.

(** The result of running code that may throw; also the state of a promise
    once it has settled ([Resolved] = fulfilled, [Raised] = rejected). *)
Inductive outcome (A : Type) : Type :=
| Resolved (a : A)
| Raised (e : string).
Arguments Resolved {A} a.
Arguments Raised {A} e.

Definition bind {A B : Type} (m : outcome A) (k : A -> outcome B) : outcome B :=
  match m with
  | Resolved a => k a
  | Raised e => Raised e
  end.

(** [try { body } catch (error) { handler }] *)
Definition try_catch {A : Type} (body : outcome A) (handler : string -> outcome A)
  : outcome A :=
  match body with
  | Resolved a => Resolved a
  | Raised e => handler e
  end.

Definition is_resolved {A : Type} (m : outcome A) : bool :=
  match m with Resolved _ => true | Raised _ => false end.

(** What the host gives the code besides its arguments: date parsing and
    formatting, the local time zone offset (milliseconds east of UTC, taken
    as fixed) and the process environment. [getTime s] is
    [new Date(s).getTime()], [None] for NaN. *)
Record Host : Type := mkHost
  { getTime : string -> option Z;
    toISOString : Z -> string;
    localTZA : Z;
    EVENTBRITE_API_KEY : option string;
    FACEBOOK_ACCESS_TOKEN : option string }.

(** Truthiness of an optional string ([undefined] and the empty string are
    falsy). *)
Definition truthy (s : option string) : bool :=
  match s with
  | Some s => negb (String.eqb s "")
  | None => false
  end.

(** [s || d] for an optional string. *)
Definition or_else (s : option string) (d : string) : string :=
  if truthy s then default d s else d.

(** [x || d] for a number: zero is falsy. *)
Definition num_or (x d : Q) : Q := if Qeq_bool x 0 then d else x.

(** [Math.max], [Math.min] and subtraction on numbers that may be NaN: the
    result is NaN as soon as an argument is. *)
Definition Math_max (a b : option Q) : option Q :=
  match a, b with
  | Some x, Some y => Some (Qmax x y)
  | _, _ => None
  end.

Definition Math_min (a b : option Q) : option Q :=
  match a, b with
  | Some x, Some y => Some (Qmin x y)
  | _, _ => None
  end.

(** [arr.map(f)] for an [f] that may throw: the first exception ends the
    loop. *)
Fixpoint traverse {A B : Type} (f : A -> outcome B) (l : list A) : outcome (list B) :=
  match l with
  | [] => Resolved []
  | x :: rest => bind (f x) (fun y => bind (traverse f rest) (fun ys => Resolved (y :: ys)))
  end.

(** [Math.round]: halves round towards positive infinity. *)
Definition round (x : Q) : Z := Qfloor (x + (1 # 2)).

(** [s.toLowerCase()] on the ASCII letters (other characters are kept). *)
Definition lower_ascii (a : Ascii.ascii) : Ascii.ascii :=
  let n := Ascii.nat_of_ascii a in
  if ((65 <=? n) && (n <=? 90))%nat then Ascii.ascii_of_nat (n + 32) else a.

Fixpoint toLowerCase (s : string) : string :=
  match s with
  | EmptyString => EmptyString
  | String a s' => String (lower_ascii a) (toLowerCase s')
  end.

(** [s.includes(kw)] *)
Fixpoint includes (s kw : string) : bool :=
  if String.prefix kw s then true
  else match s with
       | EmptyString => false
       | String _ s' => includes s' kw
       end.

(** [arr.slice(0, limit)] for an integer [limit]: a negative limit counts
    from the end of the array. *)
Definition slice0 {A : Type} (limit : Z) (l : list A) : list A :=
  if limit <? 0
  then take (Z.to_nat (Z.max 0 (Z.of_nat (length l) + limit))) l
  else take (Z.to_nat limit) l.

(** [Array.prototype.sort(cmp)]. The comparator's numeric result is
    represented by its sign ([Lt] negative: first argument first; [Gt]
    positive; [Eq] zero or NaN). The sort is stable (ES2019); for a consistent
    comparator every stable sort returns the same array, and insertion from
    the right is one. *)
Fixpoint insert_sorted {A : Type} (cmp : A -> A -> comparison) (x : A) (l : list A)
  : list A :=
  match l with
  | [] => [x]
  | y :: l' =>
      match cmp x y with
      | Gt => y :: insert_sorted cmp x l'
      | _ => x :: l
      end
  end.

Definition sort {A : Type} (cmp : A -> A -> comparison) (l : list A) : list A :=
  foldr (insert_sorted cmp) [] l.

(** Sign of [a - b] for two time values, NaN (sign [Eq]) when either is. *)
Definition cmp_time (a b : option Z) : comparison :=
  match a, b with
  | Some x, Some y => x ?= y
  | _, _ => Eq
  end.

(** The loop shared by the news and events fan-outs:
    [results.forEach(result => { if (result.status === 'fulfilled')
       result.value.forEach(x => { if (!seen.has(key)) { seen.add(key);
       all.push(x) } }) })]. *)
Definition push_unseen {A : Type} (key : A -> string)
    (acc : gset string * list A) (x : A) : gset string * list A :=
  if bool_decide (key x ∈ acc.1) then acc
  else ({[key x]} ∪ acc.1, acc.2 ++ [x]).

Definition push_result {A : Type} (key : A -> string)
    (acc : gset string * list A) (r : outcome (list A)) : gset string * list A :=
  match r with
  | Resolved v => foldl (push_unseen key) acc v
  | Raised _ => acc
  end.

Definition collect_unique {A : Type} (key : A -> string)
    (results : list (outcome (list A))) : list A :=
  (foldl (push_result key) (∅, []) results).2.

(** The records of the fulfilled results, in iteration order. *)
Definition fulfilled_values {A : Type} (results : list (outcome (list A))) : list A :=
  concat (map (fun r => match r with Resolved v => v | Raised _ => [] end) results).

(** *** HTTP exchanges and time

    One request as the network answers it. [latency] is the time, in
    milliseconds after the request, at which the whole response (headers and
    body) has arrived; [json] is what [await response.json()] gives. *)
Record Response (A : Type) : Type := mkResponse
  { ok : bool;
    status : Z;
    statusText : string;
    json : outcome A }.
Arguments mkResponse {A} _ _ _ _.
Arguments ok {A} _.
Arguments status {A} _.
Arguments statusText {A} _.
Arguments json {A} _.

Inductive exchange (A : Type) : Type :=
| Responds (latency : Z) (r : Response A)
| Fails (latency : Z)       (* connection error: the fetch promise rejects *)
| Silent.                   (* the peer never answers *)
Arguments Responds {A} latency r.
Arguments Fails {A} latency.
Arguments Silent {A}.

(** A promise observed over time: settled at some instant, or pending for
    ever. *)
Inductive timed (A : Type) : Type :=
| SettlesAt (t : Z) (o : outcome A)
| Pending.
Arguments SettlesAt {A} t o.
Arguments Pending {A}.

Definition timed_then {A B : Type} (p : timed A) (k : outcome A -> outcome B) : timed B :=
  match p with
  | SettlesAt t o => SettlesAt t (k o)
  | Pending => Pending
  end.

(** [fetch(url, options)] with no abort signal. *)
Definition fetch {A : Type} (x : exchange A) : timed (Response A) :=
  match x with
  | Responds d r => SettlesAt d (Resolved r)
  | Fails d => SettlesAt d (Raised "TypeError: fetch failed")
  | Silent => Pending
  end.

(** [fetch(url, { signal })] where [setTimeout(() => controller.abort(),
    timeoutMs)] is armed at the request: whatever has not arrived before the
    timer fires is aborted. *)
Definition fetch_with_signal {A : Type} (timeoutMs : Z) (x : exchange A)
  : timed (Response A) :=
  match x with
  | Responds d r =>
      if d <? timeoutMs then SettlesAt d (Resolved r)
      else SettlesAt timeoutMs (Raised "AbortError")
  | Fails d =>
      if d <? timeoutMs then SettlesAt d (Raised "TypeError: fetch failed")
      else SettlesAt timeoutMs (Raised "AbortError")
  | Silent => SettlesAt timeoutMs (Raised "AbortError")
  end.

(** [Promise.allSettled(ps)]: fulfilled, with the outcomes, at the instant
    the last of the promises settles; pending while one of them is. *)
Fixpoint allSettled {A : Type} (ps : list (timed A)) : timed (list (outcome A)) :=
  match ps with
  | [] => SettlesAt 0 (Resolved [])
  | p :: rest =>
      match p, allSettled rest with
      | SettlesAt t o, SettlesAt t' os =>
          SettlesAt (Z.max t t') (bind os (fun l => Resolved (o :: l)))
      | _, _ => Pending
      end
  end.

(** A promise watched for the instant it settles only. *)
Definition instant {A : Type} (p : timed A) : timed unit :=
  timed_then p (fun _ => Resolved tt).

(** The outcome a promise has settled with; for a pending promise (which
    nothing below reads) a rejection. *)
Definition settled_outcome {A : Type} (p : timed A) : outcome A :=
  match p with
  | SettlesAt _ o => o
  | Pending => Raised "pending"
  end.

(** How a call begins: served from the cache, or a fan-out has been started
    towards the listed upstream sources. *)
Inductive started (V : Type) : Type :=
| Hit (v : V)
| FanOut (sources : list string).
Arguments Hit {V} v.
Arguments FanOut {V} sources.

(** The upstream sources a call has invoked when it began. *)
Definition requests {V : Type} (r : started V) : list string :=
  match r with
  | Hit _ => []
  | FanOut sources => sources
  end.

End Js.

Import Js.

(** ** A concrete host

    [Date.prototype.toISOString] (proleptic Gregorian calendar, UTC), and the
    reading of exactly the strings it produces. A real engine reads other
    spellings of a date as well; the concrete runs below only use this one. *)

Module IsoDate.

Definition days_from_civil (y m d : Z) : Z :=
  let y := if m <=? 2 then y - 1 else y in
  let era := y / 400 in
  let yoe := y - era * 400 in
  let doy := (153 * (if 2 <? m then m - 3 else m + 9) + 2) / 5 + d - 1 in
  let doe := yoe * 365 + yoe / 4 - yoe / 100 + doy in
  era * 146097 + doe - 719468.

Definition civil_from_days (z : Z) : Z * Z * Z :=
  let z := z + 719468 in
  let era := z / 146097 in
  let doe := z - era * 146097 in
  let yoe := (doe - doe / 1460 + doe / 36524 - doe / 146096) / 365 in
  let y := yoe + era * 400 in
  let doy := doe - (365 * yoe + yoe / 4 - yoe / 100) in
  let mp := (5 * doy + 2) / 153 in
  let d := doy - (153 * mp + 2) / 5 + 1 in
  let m := if mp <? 10 then mp + 3 else mp - 9 in
  (if m <=? 2 then y + 1 else y, m, d).

Definition digit (n : Z) : Ascii.ascii := Ascii.ascii_of_nat (48 + Z.to_nat (n mod 10)).

Fixpoint digits (w : nat) (n : Z) : string :=
  match w with
  | O => ""
  | S w' => (digits w' (n / 10) ++ String (digit n) "")%string
  end.

Definition toISOString (t : Z) : string :=
  let day := t / 86400000 in
  let ms := t mod 86400000 in
  let '(y, m, d) := civil_from_days day in
  let year : string :=
    if ((0 <=? y) && (y <=? 9999))%Z then digits 4 y
    else ((if (y <? 0)%Z then "-" else "+") ++ digits 6 (Z.abs y))%string in
  (year ++ "-" ++ digits 2 m ++ "-" ++ digits 2 d ++ "T"
    ++ digits 2 (ms / 3600000) ++ ":" ++ digits 2 (ms / 60000 mod 60) ++ ":"
    ++ digits 2 (ms / 1000 mod 60) ++ "." ++ digits 3 (ms mod 1000) ++ "Z")%string.

Definition digit_val (a : Ascii.ascii) : option Z :=
  let n := Z.of_nat (Ascii.nat_of_ascii a) in
  if (48 <=? n) && (n <=? 57) then Some (n - 48) else None.

Fixpoint number (s : string) (acc : Z) : option Z :=
  match s with
  | EmptyString => Some acc
  | String a s' => d ← digit_val a; number s' (10 * acc + d)
  end.

Definition field (s : string) (start len : nat) : option Z :=
  number (String.substring start len s) 0.

Definition getTime (s : string) : option Z :=
  y ← field s 0 4; m ← field s 5 2; d ← field s 8 2;
  hh ← field s 11 2; mm ← field s 14 2; ss ← field s 17 2; ms ← field s 20 3;
  let t := days_from_civil y m d * 86400000 + hh * 3600000 + mm * 60000 + ss * 1000 + ms in
  if String.eqb (toISOString t) s then Some t else None.

(** A host in Honolulu (UTC-10:00, no daylight saving time). *)
Definition host (apiKey : option string) : Host :=
  {| Js.getTime := getTime;
     Js.toISOString := toISOString;
     localTZA := -10 * 60 * 60 * 1000;
     EVENTBRITE_API_KEY := apiKey;
     FACEBOOK_ACCESS_TOKEN := None |}.

End IsoDate.

(** ** The weather service's [Cache<T>] class (weatherservice.ts) *)

Module Cache.

Record CacheEntry (T : Type) : Type := mkEntry
  { data : T;
    timestamp : Z;
    ttl : Z }.
Arguments mkEntry {T} _ _ _.
Arguments data {T} _.
Arguments timestamp {T} _.
Arguments ttl {T} _.

(** [set(key, data, ttlMinutes = 15)] *)
Definition set {T : Type} (now : Z) (key : string) (d : T) (ttlMinutes : Z)
    (c : gmap string (CacheEntry T)) : gmap string (CacheEntry T) :=
  <[key := mkEntry d now (ttlMinutes * 60 * 1000)]> c.

(** [get(key)]: the store after the call and the value returned ([None]
    for [null]). An entry older than its ttl is deleted by the read. *)
Definition get {T : Type} (now : Z) (key : string) (c : gmap string (CacheEntry T))
  : gmap string (CacheEntry T) * option T :=
  match c !! key with
  | None => (c, None)
  | Some entry =>
      if now - timestamp entry >? ttl entry
      then (delete key c, None)
      else (c, Some (data entry))
  end.

Definition clear {T : Type} (c : gmap string (CacheEntry T))
  : gmap string (CacheEntry T) := ∅.

End Cache.

(** ** The weather service (weatherservice.ts) *)

Module Weather.

Record Current : Type := mkCurrent
  { temperature : Q;
    feelsLike : Q;
    humidity : Q;
    windSpeed : Q;
    windDirection : string;
    conditions : string;
    icon : string;
    uvIndex : Q;
    visibility : Q }.

(** [DailyForecast]. The fields [precipitationChance], [windSpeed] and
    [windDirection], which regular-expression helpers fill in and nothing
    below reads, are left out. [high] and [low] are numbers that may be NaN
    ([None]). *)
Record DailyForecast : Type := mkDaily
  { date : string;
    high : option Q;
    low : option Q;
    dayConditions : string;
    dayIcon : string }.

Record Forecast : Type := mkForecast
  { today : DailyForecast;
    tomorrow : DailyForecast;
    extended : list DailyForecast }.

Record WeatherAlert : Type := mkAlert
  { alertId : string;
    alertTitle : string;
    severity : string;
    areas : list string }.

Record WeatherData : Type := mkWeatherData
  { current : Current;
    forecast : Forecast;
    alerts : list WeatherAlert;
    lastUpdated : string }.

(** One forecast period of the NOAA payload, as [parseForecastPeriod] reads
    it. The payload is untyped: [periodTemperature] is the number the field
    [temperature] gives when it is used as one, [None] (NaN) when the field
    is missing or no number; [temperatureUnit] is only compared with ["F"]. *)
Record Period : Type := mkPeriod
  { periodTemperature : option Q;
    temperatureUnit : string;
    startTime : option string;
    shortForecast : option string }.

(** The [properties] of the [/points] answer. *)
Record GridPoint : Type := mkGridPoint
  { gridId : string;
    gridX : Z;
    gridY : Z;
    forecastUrl : string }.

(** The four NOAA requests of one refresh, each by the settled outcome of
    its [fetch]. A payload [None] is a falsy JSON value (for [points]: one
    without [properties]); the grid and alert payloads carry what
    [parseCurrentConditions] and [parseAlerts] make of them, an exception when
    the payload lacks the objects they dereference. *)
Record Noaa : Type := mkNoaa
  { points : outcome (Response (option GridPoint));
    gridpoints : outcome (Response (option (outcome Current)));
    forecastResp : outcome (Response (option (option (list (option Period)))));
    alertsResp : outcome (Response (option (outcome (list WeatherAlert)))) }.

Definition CACHE_TTL_MINUTES : Z := 15.

Definition ISLAND_COORDINATES : list (string * (Q * Q * string)) :=
  [ ("oahu", (21.4389, -158.0001, "O'ahu"));
    ("maui", (20.7984, -156.3319, "Maui"));
    ("hawaii", (19.5429, -155.6659, "Big Island"));
    ("kauai", (22.0964, -159.5261, "Kaua'i"));
    ("molokai", (21.1444, -157.0226, "Moloka'i"));
    ("lanai", (20.7984, -156.9292, "Lāna'i")) ]%Q.

Definition coordinates_of (island : string) : option (Q * Q * string) :=
  snd <$> List.find (fun p => String.eqb (fst p) island) ISLAND_COORDINATES.

(** The body of [fetchWithTimeout] once [await fetch(...)] has settled. *)
Definition fetchWithTimeout_settled {A : Type} (o : outcome (Response A)) : outcome A :=
  bind o (fun response =>
    if ok response then json response
    else Raised ("HTTP " ++ pretty (status response) ++ ": " ++ statusText response)).

(** [fetchWithTimeout(url, options, timeoutMs = 10000)] over time. *)
Definition fetchWithTimeout {A : Type} (timeoutMs : Z) (x : exchange A) : timed A :=
  timed_then (fetch_with_signal timeoutMs x) fetchWithTimeout_settled.

Definition DEFAULT_TIMEOUT_MS : Z := 10000.

Definition getIconFromForecast (forecast : option string) : string :=
  let lower := toLowerCase (default "" forecast) in
  if includes lower "sunny" || includes lower "clear" then "sunny"
  else if includes lower "rain" || includes lower "shower" then "rain"
  else if includes lower "cloud" then "partly-cloudy"
  else if includes lower "storm" then "rain"
  else "partly-cloudy".

(** [extractTemperature(temp, unit)]: a reading in F is returned as it is;
    anything else is converted, and NaN stays NaN. [Math.round] is applied
    here to the exact value of [temp * 9 / 5 + 32]; the code applies it to
    the binary64 value of that expression, which can fall on the other side
    of a half. *)
Definition extractTemperature (temp : option Q) (unit : string) : option Q :=
  if String.eqb unit "F" then temp
  else (fun temp => inject_Z (round (temp * 9 / 5 + 32)%Q)) <$> temp.

Definition getDefaultCurrent : Current :=
  {| temperature := 82; feelsLike := 86; humidity := 68; windSpeed := 12;
     windDirection := "NE"; conditions := "Partly Cloudy"; icon := "partly-cloudy";
     uvIndex := 8; visibility := 10 |}%Q.

Definition getDefaultForecastDay (h : Host) (now : Z) : DailyForecast :=
  {| date := toISOString h now;
     high := Some 84%Q;
     low := Some 74%Q;
     dayConditions := "Partly Cloudy";
     dayIcon := "partly-cloudy" |}.

Definition with_date_high_low (d : DailyForecast) (dt : string) (hi lo : Q) : DailyForecast :=
  {| date := dt; high := Some hi; low := Some lo;
     dayConditions := dayConditions d; dayIcon := dayIcon d |}.

Definition getDefaultForecast (h : Host) (now : Z) : Forecast :=
  let today := getDefaultForecastDay h now in
  {| today := today;
     tomorrow := with_date_high_low today (toISOString h (now + 24 * 60 * 60 * 1000)) 83 73;
     extended :=
       [ with_date_high_low today (toISOString h (now + 2 * 24 * 60 * 60 * 1000)) 85 75 ] |}%Q.

Definition parseForecastPeriod (h : Host) (now : Z)
    (dayPeriod nightPeriod : option Period) : DailyForecast :=
  match dayPeriod with
  | None => getDefaultForecastDay h now
  | Some day =>
      let high := extractTemperature (periodTemperature day) (temperatureUnit day) in
      let low :=
        match nightPeriod with
        | Some night => extractTemperature (periodTemperature night) (temperatureUnit night)
        | None => (fun high => high - 10)%Q <$> high
        end in
      {| date := or_else (startTime day) (toISOString h now);
         high := Math_max high low;
         low := Math_min high low;
         dayConditions := or_else (shortForecast day) "Partly Cloudy";
         dayIcon := getIconFromForecast (shortForecast day) |}
  end.

(** [periods[i]]: [undefined] out of range, and a [null] element is falsy
    as well. *)
Definition period_at (periods : list (option Period)) (i : nat) : option Period :=
  mjoin (periods !! i).

(** [parseForecast]. The loop [for (i = 4; i < Math.min(periods.length, 14);
    i += 2)] runs over at most the indices 4, 6, 8, 10, 12. *)
Definition parseForecast (h : Host) (now : Z)
    (forecastData : option (list (option Period))) : Forecast :=
  let periods := default [] forecastData in
  {| today := parseForecastPeriod h now (period_at periods 0) (period_at periods 1);
     tomorrow := parseForecastPeriod h now (period_at periods 2) (period_at periods 3);
     extended :=
       flat_map (fun i =>
         if (i <? Nat.min (length periods) 14)%nat then
           match period_at periods i with
           | Some day => [parseForecastPeriod h now (Some day) (period_at periods (i + 1))]
           | None => []
           end
         else []) [4; 6; 8; 10; 12]%nat |}.

Definition getFallbackWeatherData (h : Host) (now : Z) : WeatherData :=
  {| current := getDefaultCurrent;
     forecast := getDefaultForecast h now;
     alerts := [];
     lastUpdated := toISOString h now |}.

(** [status === 'fulfilled' ? value : null] *)
Definition fulfilled_or_null {A : Type} (o : outcome (option A)) : option A :=
  match o with
  | Resolved v => v
  | Raised _ => None
  end.

(** [fetchNOAAWeather]: the grid point first; then the three requests under
    [Promise.allSettled]; any exception is logged and thrown again. *)
Definition fetchNOAAWeather (h : Host) (now : Z) (noaa : Noaa) : outcome WeatherData :=
  try_catch
    (bind (fetchWithTimeout_settled (points noaa)) (fun gridData =>
     match gridData with
     | None => Raised "TypeError: Cannot destructure property of undefined"
     | Some _ =>
         let gridData_result := fulfilled_or_null (fetchWithTimeout_settled (gridpoints noaa)) in
         let forecastData := fulfilled_or_null (fetchWithTimeout_settled (forecastResp noaa)) in
         let alertsData := fulfilled_or_null (fetchWithTimeout_settled (alertsResp noaa)) in
         bind (match gridData_result with
               | Some parsed => parsed
               | None => Resolved getDefaultCurrent
               end) (fun current =>
         let forecast :=
           match forecastData with
           | Some fd => parseForecast h now fd
           | None => getDefaultForecast h now
           end in
         bind (match alertsData with
               | Some parsed => parsed
               | None => Resolved []
               end) (fun alerts =>
         Resolved {| current := current; forecast := forecast; alerts := alerts;
                     lastUpdated := toISOString h now |}))
     end))
    (fun error => Raised error).

Definition cacheKey (island : string) : string := "weather-" ++ island.

(** [getWeatherData] up to its first [await]: the cache read, the lookup of
    the coordinates, and the start of the [/points] request. *)
Definition getWeatherData_check (t0 : Z) (island : string)
    (c : gmap string (Cache.CacheEntry WeatherData))
  : gmap string (Cache.CacheEntry WeatherData) * started WeatherData :=
  let '(c1, cachedData) := Cache.get t0 (cacheKey island) c in
  match cachedData with
  | Some d => (c1, Hit d)
  | None =>
      (c1, FanOut (match coordinates_of island with
                   | Some _ => ["api.weather.gov/points"]
                   | None => []
                   end))
  end.

(** [getWeatherData] from the point where [await this.fetchNOAAWeather(...)]
    has settled with [fetched]. *)
Definition getWeatherData_resume (h : Host) (t1 : Z) (island : string)
    (fetched : outcome WeatherData) (c : gmap string (Cache.CacheEntry WeatherData))
  : gmap string (Cache.CacheEntry WeatherData) * outcome WeatherData :=
  match fetched with
  | Resolved weatherData =>
      (Cache.set t1 (cacheKey island) weatherData CACHE_TTL_MINUTES c, Resolved weatherData)
  | Raised _ => (c, Resolved (getFallbackWeatherData h t1))
  end.

(** [getWeatherData(island)], entered at [t0] and resumed at [t1]. *)
Definition getWeatherData (h : Host) (t0 t1 : Z) (island : string) (noaa : Noaa)
    (c : gmap string (Cache.CacheEntry WeatherData))
  : gmap string (Cache.CacheEntry WeatherData) * outcome WeatherData :=
  match getWeatherData_check t0 island c with
  | (c1, Hit d) => (c1, Resolved d)
  | (c1, FanOut _) =>
      match coordinates_of island with
      | None =>
          (* [throw new Error(`Invalid island: ...`)], caught by the [catch] below it *)
          (c1, Resolved (getFallbackWeatherData h t0))
      | Some _ => getWeatherData_resume h t1 island (fetchNOAAWeather h t1 noaa) c1
      end
  end.

(** The four NOAA requests of one refresh as the network answers them. *)
Record NoaaNetwork : Type := mkNoaaNetwork
  { pointsExchange : exchange (option GridPoint);
    gridpointsExchange : exchange (option (outcome Current));
    forecastExchange : exchange (option (option (list (option Period))));
    alertsExchange : exchange (option (outcome (list WeatherAlert))) }.

(** What each request settles with under the abort timer of
    [fetchWithTimeout]. *)
Definition settledNoaa (net : NoaaNetwork) : Noaa :=
  mkNoaa
    (settled_outcome (fetch_with_signal DEFAULT_TIMEOUT_MS (pointsExchange net)))
    (settled_outcome (fetch_with_signal DEFAULT_TIMEOUT_MS (gridpointsExchange net)))
    (settled_outcome (fetch_with_signal DEFAULT_TIMEOUT_MS (forecastExchange net)))
    (settled_outcome (fetch_with_signal DEFAULT_TIMEOUT_MS (alertsExchange net))).

(** [getWeatherData(island)] over time, entered at [t0]: the instant at
    which the promise it returns settles, and what it settles with. The grid
    point request comes first; when it has given a grid point the three
    others start together and are awaited with [Promise.allSettled]. The
    clock readings after the last [await] are taken at that instant. *)
Definition getWeatherData_timed (h : Host) (t0 : Z) (island : string)
    (net : NoaaNetwork) (c : gmap string (Cache.CacheEntry WeatherData))
  : timed WeatherData :=
  match getWeatherData_check t0 island c with
  | (_, Hit d) => SettlesAt t0 (Resolved d)
  | (c1, FanOut _) =>
      match coordinates_of island with
      | None => SettlesAt t0 (Resolved (getFallbackWeatherData h t0))
      | Some _ =>
          match fetch_with_signal DEFAULT_TIMEOUT_MS (pointsExchange net) with
          | Pending => Pending
          | SettlesAt d1 o1 =>
              match fetchWithTimeout_settled o1 with
              | Resolved (Some _) =>
                  match allSettled
                          [ instant (fetch_with_signal DEFAULT_TIMEOUT_MS (gridpointsExchange net));
                            instant (fetch_with_signal DEFAULT_TIMEOUT_MS (forecastExchange net));
                            instant (fetch_with_signal DEFAULT_TIMEOUT_MS (alertsExchange net)) ]
                  with
                  | Pending => Pending
                  | SettlesAt d2 _ =>
                      let t1 := t0 + d1 + d2 in
                      SettlesAt t1
                        (getWeatherData_resume h t1 island
                           (fetchNOAAWeather h t1 (settledNoaa net)) c1).2
                  end
              | _ =>
                  let t1 := t0 + d1 in
                  SettlesAt t1
                    (getWeatherData_resume h t1 island
                       (fetchNOAAWeather h t1 (settledNoaa net)) c1).2
              end
          end
      end
  end.

(** [degreesToCardinal(degrees)]: [directions[Math.round(degrees / 22.5) % 16]].
    The remainder [%] keeps the sign of the dividend, and an array read at a
    negative index is [undefined] ([None]). *)
Definition directions : list string :=
  [ "N"; "NNE"; "NE"; "ENE"; "E"; "ESE"; "SE"; "SSE";
    "S"; "SSW"; "SW"; "WSW"; "W"; "WNW"; "NW"; "NNW" ].

Definition degreesToCardinal (degrees : Q) : option string :=
  let index := Z.rem (round (degrees / 22.5)%Q) 16 in
  if index <? 0 then None else directions !! Z.to_nat index.

(** Calls interleave at their [await]s only: a schedule lists, in the order
    the event loop runs them, the synchronous prefixes of calls ([Call]) and
    the continuations of calls whose fetch has settled ([Settle]). [run] gives
    how each [Call] began, and the store at the end. *)
Inductive action : Type :=
| Call (t0 : Z) (island : string)
| Settle (t1 : Z) (island : string) (fetched : outcome WeatherData).

Fixpoint run (h : Host) (schedule : list action)
    (c : gmap string (Cache.CacheEntry WeatherData))
  : list (started WeatherData) * gmap string (Cache.CacheEntry WeatherData) :=
  match schedule with
  | [] => ([], c)
  | Call t0 island :: rest =>
      let '(c1, began) := getWeatherData_check t0 island c in
      let '(log, c2) := run h rest c1 in
      (began :: log, c2)
  | Settle t1 island fetched :: rest =>
      run h rest (getWeatherData_resume h t1 island fetched c).1
  end.

End Weather.

(** ** The news service *)

Module News.

Record NewsPublisher : Type := mkPublisher
  { name : string;
    logoUrl : string;
    domain : string }.

(** [relevanceScore] is [None] when the field is missing or NaN (the sort
    reads it as [a.relevanceScore || 0]). *)
Record NewsArticle : Type := mkArticle
  { id : string;
    title : string;
    summary : string;
    originalUrl : string;
    publisher : NewsPublisher;
    publishedAt : string;
    category : string;
    imageUrl : option string;
    relevanceScore : option Q }.

Record RSSFeed : Type := mkFeed
  { url : string;
    feedPublisher : NewsPublisher;
    feedCategory : string;
    enabled : bool }.

Record CacheEntry : Type := mkEntry
  { data : list NewsArticle;
    timestamp : Z }.

(** The service instance: its feed table (which [toggleFeed] and
    [addCustomFeed] change) and its cache. *)
Record NewsService : Type := mkService
  { RSS_FEEDS : list RSSFeed;
    cache : gmap string CacheEntry }.

Definition CACHE_TTL_MINUTES : Z := 15.

Definition initial_feeds : list RSSFeed :=
  [ mkFeed "https://www.hawaiinewsnow.com/content/news/?format=rss"
      (mkPublisher "Hawaii News Now" "/logos/hawaii-news-now.png" "hawaiinewsnow.com")
      "local" true;
    mkFeed "https://www.khon2.com/feed/"
      (mkPublisher "KHON2" "/logos/khon2.png" "khon2.com") "local" true;
    mkFeed "https://www.kitv.com/news/?format=rss"
      (mkPublisher "KITV4" "/logos/kitv.png" "kitv.com") "local" true;
    mkFeed "https://www.staradvertiser.com/feed/"
      (mkPublisher "Honolulu Star-Advertiser" "/logos/star-advertiser.png" "staradvertiser.com")
      "local" true;
    mkFeed "https://www.civilbeat.org/feed/"
      (mkPublisher "Honolulu Civil Beat" "/logos/civil-beat.png" "civilbeat.org")
      "local" true ].

(** The instance [getInstance()] creates. *)
Definition newsService : NewsService := mkService initial_feeds ∅.

Definition hawaiiKeywords : list string :=
  [ "hawaii"; "hawaiian"; "honolulu"; "oahu"; "maui"; "kauai"; "big island"; "molokai"; "lanai";
    "waikiki"; "pearl harbor"; "diamond head"; "haleakala"; "kilauea"; "volcano";
    "aloha"; "mahalo"; "ohana"; "poke"; "spam musubi"; "shave ice";
    "pipeline"; "north shore"; "south shore"; "windward"; "leeward";
    "heco"; "hawaiian electric"; "hart"; "honolulu rail"; "uh"; "university of hawaii" ].

(** [calculateRelevanceScore(title, content)] *)
Definition calculateRelevanceScore (title content : string) : Q :=
  let text := toLowerCase (title ++ " " ++ content) in
  let score := 0%Q in
  let score :=
    foldl (fun score keyword => if includes text keyword then (score + 0.1)%Q else score)
      score hawaiiKeywords in
  let score :=
    if includes text "local" || includes text "island" || includes text "state"
    then (score + 0.05)%Q else score in
  let score :=
    if includes text "resident" || includes text "community"
    then (score + 0.05)%Q else score in
  let score :=
    if includes text "today" || includes text "yesterday" || includes text "breaking"
    then (score + 0.1)%Q else score in
  Qmin score 1.0.

(** What one feed yields: the articles that parsing the feed and processing
    its items produce, or the exception raised on the way
    ([rssParser.parseURL] rejecting, for one). The table is indexed by the
    feed URL. *)
Definition Feeds : Type := string -> outcome (list NewsArticle).

(** [fetchFeed(feed)]: any exception is logged and replaced by [[]]. *)
Definition fetchFeed (up : Feeds) (feed : RSSFeed) : outcome (list NewsArticle) :=
  try_catch (up (url feed)) (fun error => Resolved []).

(** The second half of [fetchAllFeeds]: flatten the settled results and
    drop every article whose [originalUrl] has been seen. *)
Definition dedupArticles (results : list (outcome (list NewsArticle))) : list NewsArticle :=
  collect_unique originalUrl results.

Definition fetchAllFeeds (up : Feeds) (feeds : list RSSFeed) : outcome (list NewsArticle) :=
  Resolved (dedupArticles (map (fetchFeed up) (filter (fun feed => enabled feed = true) feeds))).

Definition getFallbackNews (h : Host) (now : Z) : list NewsArticle :=
  [ {| id := "fallback-1";
       title := "Hawaii Today News Service Temporarily Unavailable";
       summary := "We are currently experiencing technical difficulties with our news feeds. Please check back shortly for the latest Hawaii news updates.";
       originalUrl := "#";
       publisher := mkPublisher "Hawaii Today" "/logos/hawaii-today.png" "hawaiitoday.com";
       publishedAt := toISOString h now;
       category := "local";
       imageUrl := None;
       relevanceScore := Some 0.5%Q |} ].

Definition cacheKey (category : option string) (limit : Z) : string :=
  "news-" ++ or_else category "all" ++ "-" ++ pretty limit.

(** [a.relevanceScore || 0] *)
Definition score_of (a : NewsArticle) : Q := default 0%Q (relevanceScore a).

(** The comparator of [getLatestNews]: higher score first, then the later
    [publishedAt]. *)
Definition compareArticles (h : Host) (a b : NewsArticle) : comparison :=
  let scoreA := score_of a in
  let scoreB := score_of b in
  if negb (Qeq_bool scoreA scoreB) then (scoreB ?= scoreA)%Q
  else cmp_time (getTime h (publishedAt b)) (getTime h (publishedAt a)).

(** [getLatestNews] up to its first [await]. *)
Definition getLatestNews_check (t0 : Z) (category : option string) (limit : Z)
    (s : NewsService) : started (list NewsArticle) :=
  match cache s !! cacheKey category limit with
  | Some cached =>
      if t0 - timestamp cached <? CACHE_TTL_MINUTES * 60 * 1000
      then Hit (data cached)
      else FanOut (url <$> filter (fun feed => enabled feed = true) (RSS_FEEDS s))
  | None => FanOut (url <$> filter (fun feed => enabled feed = true) (RSS_FEEDS s))
  end.

(** [getLatestNews] from the point where [await this.fetchAllFeeds()] has
    settled with [fetched]: the rest of the [try] block, or the [catch]
    block. *)
Definition getLatestNews_resume (h : Host) (t1 : Z) (category : option string) (limit : Z)
    (fetched : outcome (list NewsArticle)) (s : NewsService)
  : NewsService * outcome (list NewsArticle) :=
  let key := cacheKey category limit in
  match fetched with
  | Resolved articles =>
      let filteredArticles :=
        if truthy category
        then filter (fun article => Some (News.category article) = category) articles
        else articles in
      let sorted := sort (compareArticles h) filteredArticles in
      let result := slice0 limit sorted in
      (mkService (RSS_FEEDS s) (<[key := mkEntry result t1]> (cache s)), Resolved result)
  | Raised _ =>
      (s, Resolved match cache s !! key with
                   | Some cached => data cached
                   | None => getFallbackNews h t1
                   end)
  end.

(** [getLatestNews(category, limit = 20)] *)
Definition getLatestNews (h : Host) (t0 t1 : Z) (category : option string) (limit : Z)
    (up : Feeds) (s : NewsService) : NewsService * outcome (list NewsArticle) :=
  match getLatestNews_check t0 category limit s with
  | Hit v => (s, Resolved v)
  | FanOut _ => getLatestNews_resume h t1 category limit (fetchAllFeeds up (RSS_FEEDS s)) s
  end.

Definition clearCache (s : NewsService) : NewsService := mkService (RSS_FEEDS s) ∅.

(** [toggleFeed(feedUrl, enabled)]: the first feed of that URL is switched,
    and the cache is cleared; nothing happens when no feed has the URL. *)
Fixpoint set_first_enabled (feedUrl : string) (on : bool) (feeds : list RSSFeed)
  : list RSSFeed :=
  match feeds with
  | [] => []
  | feed :: rest =>
      if String.eqb (url feed) feedUrl
      then mkFeed (url feed) (feedPublisher feed) (feedCategory feed) on :: rest
      else feed :: set_first_enabled feedUrl on rest
  end.

Definition toggleFeed (feedUrl : string) (on : bool) (s : NewsService) : NewsService :=
  if existsb (fun f => String.eqb (url f) feedUrl) (RSS_FEEDS s)
  then mkService (set_first_enabled feedUrl on (RSS_FEEDS s)) ∅
  else s.

(** [addCustomFeed(feedUrl, publisher, category)]; [validated] is the
    settled outcome of [rssParser.parseURL(feedUrl)]. *)
Definition addCustomFeed (feedUrl : string) (p : NewsPublisher) (c : string)
    (validated : outcome unit) (s : NewsService) : NewsService * bool :=
  match validated with
  | Resolved _ => (mkService (RSS_FEEDS s ++ [mkFeed feedUrl p c true]) ∅, true)
  | Raised _ => (s, false)
  end.

End News.

(** ** The events service (eventsservice.ts) *)

Module Events.

Record EventSource : Type := mkSource
  { name : string;
    type : string;
    url : string;
    enabled : bool;
    apiKey : option string;
    categories : list string }.

Record Location : Type := mkLocation
  { locationName : string;
    address : string;
    island : string }.

Record Price : Type := mkPrice
  { free : bool;
    min : option Q;
    currency : string }.

Record EventData : Type := mkEvent
  { id : string;
    title : string;
    description : string;
    startDate : string;
    endDate : option string;
    location : Location;
    category : string;
    price : Price;
    organizer : string;
    eventUrl : option string;
    imageUrl : option string;
    tags : list string }.

Record CacheEntry : Type := mkEntry
  { data : list EventData;
    timestamp : Z }.

Definition CACHE_TTL_MINUTES : Z := 60.

Definition EVENT_SOURCES (h : Host) : list EventSource :=
  [ mkSource "Eventbrite Hawaii" "api" "https://www.eventbriteapi.com/v3/events/search/"
      true (EVENTBRITE_API_KEY h)
      ["music"; "food"; "art"; "outdoor"; "family"; "business"; "education"];
    mkSource "Facebook Events" "api" "https://graph.facebook.com/v18.0/"
      false (FACEBOOK_ACCESS_TOKEN h)
      ["music"; "food"; "culture"; "nightlife"; "art"];
    mkSource "Hawaii Tourism Authority" "scraper" "https://www.gohawaii.com/events"
      true None
      ["culture"; "outdoor"; "family"; "music"];
    mkSource "Honolulu Magazine Events" "scraper" "https://www.honolulumagazine.com/events/"
      true None
      ["food"; "nightlife"; "art"; "culture"] ].

(** The Eventbrite request of one refresh, by the settled outcome of its
    [fetch]; the payload carries what [parseEventbriteEvents(data.events || [])]
    makes of it, an exception when an event lacks the objects it
    dereferences. *)
Definition Eventbrite : Type := outcome (Response (outcome (list EventData))).

Definition day_ms : Z := 24 * 60 * 60 * 1000.

(** The body of [fetchEventbriteEvents] once [await fetch(url)] has settled
    with [o]. *)
Definition fetchEventbriteEvents_settled (o : Eventbrite) : outcome (list EventData) :=
  try_catch
    (bind o (fun response =>
       if ok response then bind (json response) (fun parsed => parsed)
       else Raised ("Eventbrite API error: " ++ pretty (status response))))
    (fun error => Resolved []).

Definition fetchEventbriteEvents (source : EventSource) (up : Eventbrite)
  : outcome (list EventData) :=
  if negb (truthy (apiKey source)) then Resolved []
  else fetchEventbriteEvents_settled up.

(** [fetchEventbriteEvents] over time: the request carries no abort signal. *)
Definition fetchEventbriteEvents_timed (source : EventSource)
    (x : exchange (outcome (list EventData))) : timed (list EventData) :=
  if negb (truthy (apiKey source)) then SettlesAt 0 (Resolved [])
  else timed_then (fetch x) fetchEventbriteEvents_settled.

Definition fetchFacebookEvents : outcome (list EventData) := Resolved [].

Definition scrapeHTAEvents (h : Host) (now daysAhead : Z) : outcome (list EventData) :=
  let mockEvents :=
    [ {| id := "hta-1";
         title := "Honolulu Festival";
         description := "Annual celebration of Pacific Rim cultures featuring parades, performances, and cultural demonstrations.";
         startDate := toISOString h (now + 10 * day_ms);
         endDate := Some (toISOString h (now + 12 * day_ms));
         location := mkLocation "Waikiki Beach Walk" "Waikiki Beach Walk, Honolulu, HI" "oahu";
         category := "culture";
         price := mkPrice true None "USD";
         organizer := "Honolulu Festival Foundation";
         eventUrl := Some "https://www.honolulufestival.com";
         imageUrl := None;
         tags := ["culture"; "festival"; "free"; "family-friendly"] |} ] in
  Resolved
    (List.filter (fun event =>
       match getTime h (startDate event) with
       | Some eventDate => eventDate <=? now + daysAhead * day_ms
       | None => false
       end) mockEvents).

Definition scrapeHonoluluMagEvents : outcome (list EventData) := Resolved [].

Definition fetchRSSEvents : outcome (list EventData) := Resolved [].

Definition scrapeEvents (h : Host) (now : Z) (source : EventSource) (daysAhead : Z)
  : outcome (list EventData) :=
  try_catch
    (if String.eqb (name source) "Hawaii Tourism Authority" then scrapeHTAEvents h now daysAhead
     else if String.eqb (name source) "Honolulu Magazine Events" then scrapeHonoluluMagEvents
     else Resolved [])
    (fun error => Resolved []).

Definition fetchFromSource (h : Host) (now : Z) (up : Eventbrite) (daysAhead : Z)
    (source : EventSource) : outcome (list EventData) :=
  try_catch
    (if String.eqb (type source) "api" then
       if String.eqb (name source) "Eventbrite Hawaii" then fetchEventbriteEvents source up
       else if String.eqb (name source) "Facebook Events" then fetchFacebookEvents
       else Resolved []
     else if String.eqb (type source) "scraper" then scrapeEvents h now source daysAhead
     else if String.eqb (type source) "rss" then fetchRSSEvents
     else Resolved [])
    (fun error => Resolved []).

(** The identity key of the fan-out's duplicate filter. *)
Definition eventKey (event : EventData) : string :=
  title event ++ "-" ++ startDate event ++ "-" ++ locationName (location event).

(** The second half of [fetchFromAllSources]: flatten the settled results
    and drop every event whose key has been seen. *)
Definition dedupEvents (results : list (outcome (list EventData))) : list EventData :=
  collect_unique eventKey results.

Definition fetchFromAllSources (h : Host) (now : Z) (up : Eventbrite) (daysAhead : Z)
  : outcome (list EventData) :=
  Resolved (dedupEvents
              (map (fetchFromSource h now up daysAhead)
                   (filter (fun source => enabled source = true) (EVENT_SOURCES h)))).

(** [filterEvents]; [eventDate < new Date()] is false for an invalid date. *)
Definition keepEvent (h : Host) (now : Z) (island category : option string)
    (event : EventData) : bool :=
  if truthy island && negb (bool_decide (Some (Events.island (location event)) = island))
  then false
  else if truthy category && negb (bool_decide (Some (Events.category event) = category))
  then false
  else match getTime h (startDate event) with
       | Some eventDate => negb (eventDate <? now)
       | None => true
       end.

Definition filterEvents (h : Host) (now : Z) (events : list EventData)
    (island category : option string) : list EventData :=
  List.filter (keepEvent h now island category) events.

(** The comparator of [getEvents]: [dateA - dateB]. *)
Definition compareByDate (h : Host) (a b : EventData) : comparison :=
  cmp_time (getTime h (startDate a)) (getTime h (startDate b)).

(** [date.getDay()] in the host's time zone (1 January 1970 was a
    Thursday). *)
Definition getDay (h : Host) (t : Z) : Z :=
  ((t + localTZA h) / day_ms + 4) mod 7.

Definition getNextSaturday (h : Host) (now : Z) : Z :=
  let today := (now + localTZA h) / day_ms in
  let daysUntilSaturday := (6 - getDay h now + 7) mod 7 in
  let nextSaturday := today + (if daysUntilSaturday =? 0 then 7 else daysUntilSaturday) in
  nextSaturday * day_ms + 8 * 60 * 60 * 1000 - localTZA h.

Definition getFallbackEvents (h : Host) (now : Z) (island : option string)
  : list EventData :=
  let defaultEvents :=
    [ {| id := "default-1";
         title := "Weekly Farmers Market";
         description := "Fresh local produce, prepared foods, and artisan crafts from Hawaiian vendors.";
         startDate := toISOString h (getNextSaturday h now);
         endDate := None;
         location := mkLocation "KCC Farmers Market" "Kapiolani Community College, Honolulu" "oahu";
         category := "food";
         price := mkPrice true None "USD";
         organizer := "KCC";
         eventUrl := None;
         imageUrl := None;
         tags := ["food"; "market"; "local"; "weekly"] |} ] in
  if truthy island
  then filter (fun event => Some (Events.island (location event)) = island) defaultEvents
  else defaultEvents.

Definition cacheKey (island category : option string) (daysAhead limit : Z) : string :=
  "events-" ++ or_else island "all" ++ "-" ++ or_else category "all" ++ "-"
    ++ pretty daysAhead ++ "-" ++ pretty limit.

(** [getEvents] up to its first [await]. *)
Definition getEvents_check (h : Host) (t0 : Z) (island category : option string)
    (daysAhead limit : Z) (c : gmap string CacheEntry) : started (list EventData) :=
  match c !! cacheKey island category daysAhead limit with
  | Some cached =>
      if t0 - timestamp cached <? CACHE_TTL_MINUTES * 60 * 1000
      then Hit (data cached)
      else FanOut (name <$> filter (fun source => enabled source = true) (EVENT_SOURCES h))
  | None => FanOut (name <$> filter (fun source => enabled source = true) (EVENT_SOURCES h))
  end.

(** [getEvents] from the point where [await this.fetchFromAllSources(...)]
    has settled with [fetched]: the rest of the [try] block, or the [catch]
    block. *)
Definition getEvents_resume (h : Host) (t1 : Z) (island category : option string)
    (daysAhead limit : Z) (fetched : outcome (list EventData)) (c : gmap string CacheEntry)
  : gmap string CacheEntry * outcome (list EventData) :=
  let key := cacheKey island category daysAhead limit in
  match fetched with
  | Resolved allEvents =>
      let filteredEvents := filterEvents h t1 allEvents island category in
      let sorted := sort (compareByDate h) filteredEvents in
      let result := slice0 limit sorted in
      (<[key := mkEntry result t1]> c, Resolved result)
  | Raised _ =>
      (c, Resolved match c !! key with
                   | Some cached => data cached
                   | None => getFallbackEvents h t1 island
                   end)
  end.

(** [getEvents(island, category, daysAhead = 7, limit = 50)] *)
Definition getEvents (h : Host) (t0 t1 : Z) (island category : option string)
    (daysAhead limit : Z) (up : Eventbrite) (c : gmap string CacheEntry)
  : gmap string CacheEntry * outcome (list EventData) :=
  match getEvents_check h t0 island category daysAhead limit c with
  | Hit v => (c, Resolved v)
  | FanOut _ =>
      getEvents_resume h t1 island category daysAhead limit
        (fetchFromAllSources h t0 up daysAhead) c
  end.

(** [calculateEventScore(event)], with the reading [now] of [Date.now()]. *)
Definition calculateEventScore (h : Host) (now : Z) (event : EventData) : Z :=
  let score := 0 in
  let score := if free (price event) then score + 2 else score in
  let score :=
    if bool_decide (category event ∈ ["music"; "food"; "culture"]) then score + 1 else score in
  let score := if truthy (imageUrl event) then score + 1 else score in
  match getTime h (startDate event) with
  | None => score
  | Some eventDate =>
      let dayOfWeek := getDay h eventDate in
      let score := if (dayOfWeek =? 0) || (dayOfWeek =? 6) then score + 1 else score in
      let hoursFromNow := (inject_Z (eventDate - now) / inject_Z (1000 * 60 * 60))%Q in
      if Qle_bool hoursFromNow 72 then score + 2 else score
  end.

(** The comparator of [getFeaturedEvents]: [b.score - a.score]. *)
Definition compareByScore (a b : EventData * Z) : comparison := snd b ?= snd a.

(** [getFeaturedEvents(limit = 6)] *)
Definition getFeaturedEvents (h : Host) (t0 t1 : Z) (limit : Z) (up : Eventbrite)
    (c : gmap string CacheEntry) : gmap string CacheEntry * outcome (list EventData) :=
  let '(c1, r) := getEvents h t0 t1 None None 14 100 up c in
  (c1, try_catch
         (bind r (fun allEvents =>
            let scoredEvents := map (fun event => (event, calculateEventScore h t1 event)) allEvents in
            Resolved (map fst (slice0 limit (sort compareByScore scoredEvents)))))
         (fun error => Resolved [])).

Definition clearCache (c : gmap string CacheEntry) : gmap string CacheEntry := ∅.

(** [ISLAND_KEYWORDS], in the order [Object.entries] lists them. *)
Definition ISLAND_KEYWORDS : list (string * list string) :=
  [ ("oahu", ["honolulu"; "waikiki"; "pearl city"; "kaneohe"; "kailua"; "hawaii kai";
              "wahiawa"; "laie"; "haleiwa"; "oahu"]);
    ("maui", ["maui"; "lahaina"; "kihei"; "wailea"; "makawao"; "hana"; "kahului"; "paia";
              "upcountry"]);
    ("hawaii", ["big island"; "hilo"; "kona"; "waimea"; "volcano"; "pahoa"; "captain cook";
                "naalehu"; "hawaii"]);
    ("kauai", ["kauai"; "lihue"; "poipu"; "princeville"; "kapaa"; "hanapepe"; "waimea";
               "hanalei"]);
    ("molokai", ["molokai"; "kaunakakai"; "halawa"]);
    ("lanai", ["lanai"; "lanai city"]) ].

(** [detectIsland(venueName, address)] *)
Definition detectIsland (venueName address : string) : string :=
  let text := toLowerCase (venueName ++ " " ++ address) in
  match List.find (fun entry => existsb (fun keyword => includes text keyword) (snd entry))
                  ISLAND_KEYWORDS with
  | Some entry => fst entry
  | None => "oahu"
  end.

(** The filter of [searchEvents], on the lower-cased query. *)
Definition matchesQuery (lowerQuery : string) (event : EventData) : bool :=
  includes (toLowerCase (title event)) lowerQuery
  || includes (toLowerCase (description event)) lowerQuery
  || includes (toLowerCase (locationName (location event))) lowerQuery
  || existsb (fun tag => includes (toLowerCase tag) lowerQuery) (tags event).

(** [searchEvents(query, island)] *)
Definition searchEvents (h : Host) (t0 t1 : Z) (query : string) (island : option string)
    (up : Eventbrite) (c : gmap string CacheEntry)
  : gmap string CacheEntry * outcome (list EventData) :=
  let '(c1, r) := getEvents h t0 t1 island None 30 200 up c in
  (c1, try_catch
         (bind r (fun allEvents =>
            let lowerQuery := toLowerCase query in
            Resolved (List.filter (matchesQuery lowerQuery) allEvents)))
         (fun error => Resolved [])).

(** [getEvents] over time, entered at [t0]. Of the enabled sources only the
    Eventbrite adapter makes a request, and only with an API key; the other
    adapters settle at once. *)
Definition getEvents_timed (h : Host) (t0 : Z) (island category : option string)
    (daysAhead limit : Z) (x : exchange (outcome (list EventData)))
    (c : gmap string CacheEntry) : timed (list EventData) :=
  match getEvents_check h t0 island category daysAhead limit c with
  | Hit v => SettlesAt t0 (Resolved v)
  | FanOut _ =>
      if truthy (EVENTBRITE_API_KEY h)
      then match fetch x with
           | Pending => Pending
           | SettlesAt d o =>
               SettlesAt (t0 + d)
                 (getEvents h t0 (t0 + d) island category daysAhead limit o c).2
           end
      else SettlesAt t0
             (getEvents h t0 t0 island category daysAhead limit
                (settled_outcome (fetch x)) c).2
  end.

(** The query of one call. *)
Record Query : Type := mkQuery
  { qIsland : option string;
    qCategory : option string;
    qDaysAhead : Z;
    qLimit : Z }.

(** Calls interleave at their [await]s only: a schedule lists, in the order
    the event loop runs them, the synchronous prefixes of calls ([Call]) and
    the continuations of calls whose fan-out has settled ([Settle]). [run]
    gives how each [Call] began, and the store at the end. *)
Inductive action : Type :=
| Call (t0 : Z) (q : Query)
| Settle (t1 : Z) (q : Query) (fetched : outcome (list EventData)).

Fixpoint run (h : Host) (schedule : list action) (c : gmap string CacheEntry)
  : list (started (list EventData)) * gmap string CacheEntry :=
  match schedule with
  | [] => ([], c)
  | Call t0 q :: rest =>
      let began := getEvents_check h t0 (qIsland q) (qCategory q) (qDaysAhead q) (qLimit q) c in
      let '(log, c1) := run h rest c in
      (began :: log, c1)
  | Settle t1 q fetched :: rest =>
      run h rest
        (getEvents_resume h t1 (qIsland q) (qCategory q) (qDaysAhead q) (qLimit q) fetched c).1
  end.

End Events.

(** ** The surf service *)

Module Surf.

Record SurflineSpot : Type := mkSurflineSpot
  { spotId : string;
    spotName : string;
    lat : Q;
    lon : Q;
    spotIsland : string }.

Record Swell : Type := mkSwell
  { height : Q;
    swellPeriod : Q;
    swellDirection : Q }.

(** What the code reads of a wave that has a [surf] object: [surf.min],
    [surf.max] (0 for a missing one, which [||] treats alike) and [swells]. *)
Record Wave : Type := mkWave
  { surfMin : Q;
    surfMax : Q;
    swells : option (list Swell) }.

(** One element of [data.data.wave] as it arrives, the payload being untyped
    at run time. [jsonTimestamp] is the number of seconds, [None] when
    [timestamp] is missing or no number; [body] is [None] when the wave has
    no [surf] object. *)
Record WaveJson : Type := mkWaveJson
  { jsonTimestamp : option Z;
    body : option Wave }.

(** [waveHeight] is flattened into [waveMin], [waveMax] (the unit is always
    ['ft']). *)
Record Conditions : Type := mkConditions
  { waveMin : Q;
    waveMax : Q;
    period : Z;
    direction : Q;
    quality : string }.

Record SurfForecast : Type := mkSurfForecast
  { forecastDate : string;
    forecastConditions : Conditions }.

Record SurfSpot : Type := mkSurfSpot
  { id : string;
    name : string;
    island : string;
    coordinates : Q * Q;
    current : Conditions;
    forecast : list SurfForecast }.

(** [height] is [None] when [parseFloat] gave NaN. *)
Record TideEvent : Type := mkTideEvent
  { time : string;
    tideType : string;
    tideHeight : option Q }.

Record TideData : Type := mkTideData
  { tideIsland : string;
    tides : list TideEvent }.

Record SurfData : Type := mkSurfData
  { spots : list SurfSpot;
    tideData : list TideData;
    lastUpdated : string }.

Record CacheEntry : Type := mkEntry
  { data : SurfData;
    timestamp : Z }.

Definition CACHE_TTL_MINUTES : Z := 30.

Definition SURF_SPOTS : list SurflineSpot :=
  [ mkSurflineSpot "5842041f4e65fad6a7708876" "Pipeline" 21.6611 (-158.0525) "oahu";
    mkSurflineSpot "5842041f4e65fad6a7708884" "Sunset Beach" 21.6783 (-158.0408) "oahu";
    mkSurflineSpot "5842041f4e65fad6a7708888" "Waikiki" 21.2661 (-157.8222) "oahu";
    mkSurflineSpot "5842041f4e65fad6a770887c" "Ala Moana Bowls" 21.2905 (-157.8444) "oahu";
    mkSurflineSpot "5842041f4e65fad6a7708879" "Diamond Head" 21.2620 (-157.8151) "oahu";
    mkSurflineSpot "5842041f4e65fad6a770888b" "Makaha" 21.4692 (-158.2197) "oahu";
    mkSurflineSpot "5842041f4e65fad6a77088a2" "Ho'okipa" 20.9333 (-156.3500) "maui";
    mkSurflineSpot "5842041f4e65fad6a77088a5" "Honolua Bay" 21.0158 (-156.6394) "maui";
    mkSurflineSpot "5842041f4e65fad6a77088a8" "Lahaina" 20.8783 (-156.6825) "maui";
    mkSurflineSpot "5842041f4e65fad6a77088ab" "Kihei" 20.7614 (-156.4497) "maui";
    mkSurflineSpot "5842041f4e65fad6a77088ae" "Banyan's" 19.6197 (-155.9969) "hawaii";
    mkSurflineSpot "5842041f4e65fad6a77088b1" "Lyman's" 19.7297 (-155.0897) "hawaii";
    mkSurflineSpot "5842041f4e65fad6a77088b4" "Honoli'i" 19.7736 (-155.0931) "hawaii";
    mkSurflineSpot "5842041f4e65fad6a77088b7" "Hanalei Bay" 22.2097 (-159.4997) "kauai";
    mkSurflineSpot "5842041f4e65fad6a77088ba" "Poipu" 21.8744 (-159.4653) "kauai";
    mkSurflineSpot "5842041f4e65fad6a77088bd" "Pakala" 21.9189 (-159.6467) "kauai" ]%Q.

Definition TIDE_STATIONS : list (string * string) :=
  [ ("oahu", "1612340"); ("maui", "1615680"); ("hawaii", "1617760");
    ("kauai", "1611400"); ("molokai", "1612480"); ("lanai", "1615680") ].

Definition station_of (island : string) : option string :=
  snd <$> List.find (fun p => String.eqb (fst p) island) TIDE_STATIONS.

(** The Surfline payload of one spot: [None] when it has no [data] object
    (reading [data.data.wave] throws), else [data.data.wave] ([None] when
    missing). The tide payload: [data.predictions], already mapped to tide
    events, [None] when missing or not an array. *)
Definition WavePayload : Type := option (option (list WaveJson)).
Definition TidePayload : Type := option (list TideEvent).

(** The requests of one refresh, each by the settled outcome of its
    [fetch]; the wave requests are indexed by the spot id. *)
Record Upstream : Type := mkUpstream
  { waveResp : string -> outcome (Response WavePayload);
    tideResp : outcome (Response TidePayload) }.

Definition fallbackConditions : Conditions :=
  {| waveMin := 2; waveMax := 4; period := 10; direction := 315; quality := "fair" |}%Q.

Definition getFallbackSpotData (h : Host) (now : Z) (spot : SurflineSpot) : SurfSpot :=
  {| id := spotId spot;
     name := spotName spot;
     island := spotIsland spot;
     coordinates := (lat spot, lon spot);
     current := fallbackConditions;
     forecast := [ mkSurfForecast (toISOString h now) fallbackConditions ] |}.

Definition calculateAveragePeriod (swells : option (list Swell)) : Z :=
  match swells with
  | None | Some [] => 10
  | Some sw =>
      let totalPeriod := foldl (fun sum swell => (sum + num_or (swellPeriod swell) 10)%Q) 0%Q sw in
      round (totalPeriod / inject_Z (Z.of_nat (length sw)))%Q
  end.

Definition calculateDominantDirection (swells : option (list Swell)) : Q :=
  match swells with
  | None | Some [] => 315%Q
  | Some (first :: rest as sw) =>
      let dominantSwell :=
        foldl (fun max swell =>
                 if Qlt_le_dec (num_or (height max) 0) (num_or (height swell) 0)
                 then swell else max) first sw in
      num_or (swellDirection dominantSwell) 315
  end.

Definition assessWaveQuality (wave : Wave) : string :=
  let height := Qmax (num_or (surfMin wave) 0) (num_or (surfMax wave) 0) in
  let hasSwells := match swells wave with Some (_ :: _) => true | _ => false end in
  if negb hasSwells || negb (Qle_bool 1 height) then "poor"
  else if negb (Qle_bool 3 height) then "fair"
  else if negb (Qle_bool 6 height) then "good"
  else "excellent".

Definition conditionsOf (wave : Wave) : Conditions :=
  {| waveMin := num_or (surfMin wave) 2;
     waveMax := num_or (surfMax wave) 4;
     period := calculateAveragePeriod (swells wave);
     direction := calculateDominantDirection (swells wave);
     quality := assessWaveQuality wave |}.

(** [arr.filter((_, index) => index % 6 === 0)] *)
Definition every_sixth {A : Type} (l : list A) : list A :=
  map snd (List.filter (fun p => (fst p mod 6 =? 0)%nat) (combine (seq 0 (length l)) l)).

(** The largest time value of a [Date]; [toISOString] throws on a [Date]
    beyond it or made from NaN. *)
Definition MAX_TIME_VALUE : Z := 8640000000000000.

(** [new Date(wave.timestamp * 1000).toISOString()] *)
Definition waveDate (h : Host) (wave : WaveJson) : outcome string :=
  match jsonTimestamp wave with
  | Some seconds =>
      if Z.abs (seconds * 1000) <=? MAX_TIME_VALUE
      then Resolved (toISOString h (seconds * 1000))
      else Raised "RangeError: Invalid time value"
  | None => Raised "RangeError: Invalid time value"
  end.

(** [wave.surf.min]: the first read of the [surf] object. *)
Definition readWave (wave : WaveJson) : outcome Wave :=
  match body wave with
  | Some wave => Resolved wave
  | None => Raised "TypeError: Cannot read properties of undefined (reading 'min')"
  end.

(** The callback of the forecast [map]: the date first, then the heights. *)
Definition forecastOf (h : Host) (wave : WaveJson) : outcome SurfForecast :=
  bind (waveDate h wave) (fun date =>
  bind (readWave wave) (fun wave =>
  Resolved (mkSurfForecast date (conditionsOf wave)))).

Definition parseSurflineData (h : Host) (now : Z) (spot : SurflineSpot)
    (payload : WavePayload) : outcome SurfSpot :=
  match payload with
  | None => Raised "TypeError: Cannot read properties of undefined (reading 'wave')"
  | Some wave =>
      let waveData := default [] wave in
      match waveData with
      | [] => Resolved (getFallbackSpotData h now spot)
      | currentWave :: _ =>
          bind (readWave currentWave) (fun current =>
          bind (traverse (forecastOf h) (every_sixth (take 120 waveData))) (fun forecast =>
          Resolved
            {| id := spotId spot;
               name := spotName spot;
               island := spotIsland spot;
               coordinates := (lat spot, lon spot);
               current := conditionsOf current;
               forecast := forecast |}))
      end
  end.

(** The body of [fetchSpotData] once [await fetch(waveUrl, ...)] has settled
    with [o]. *)
Definition fetchSpotData_settled (h : Host) (now : Z) (spot : SurflineSpot)
    (o : outcome (Response WavePayload)) : outcome SurfSpot :=
  try_catch
    (bind o (fun response =>
       if ok response
       then bind (json response) (parseSurflineData h now spot)
       else Raised ("Surfline API error: " ++ pretty (status response))))
    (fun error => Resolved (getFallbackSpotData h now spot)).

(** [fetchSpotData(spot)] over time: the request carries no abort signal. *)
Definition fetchSpotData (h : Host) (now : Z) (spot : SurflineSpot)
    (x : exchange WavePayload) : timed SurfSpot :=
  timed_then (fetch x) (fetchSpotData_settled h now spot).

(** [getFallbackTideData]; [rnd i] is the value of the call of
    [Math.random()] in round [i] of the loop. The heights are the exact sums;
    the code's are their binary64 roundings. *)
Definition getFallbackTideData (h : Host) (now : Z) (rnd : nat -> Q) (island : string)
  : list TideData :=
  [ mkTideData island
      (map (fun i =>
              mkTideEvent (toISOString h (now + Z.of_nat i * 3 * 60 * 60 * 1000))
                (if (i mod 2 =? 0)%nat then "high" else "low")
                (Some (if (i mod 2 =? 0)%nat then 2.1 + rnd i * 0.5 else 0.3 + rnd i * 0.4)%Q))
           (seq 0 8)) ].

Definition parseTideData (h : Host) (now : Z) (rnd : nat -> Q) (island : string)
    (payload : TidePayload) : list TideData :=
  match payload with
  | None => getFallbackTideData h now rnd island
  | Some tides => [ mkTideData island tides ]
  end.

Definition fetchTideData (h : Host) (now : Z) (rnd : nat -> Q) (island : string)
    (o : outcome (Response TidePayload)) : outcome (list TideData) :=
  try_catch
    (match station_of island with
     | None => Resolved []
     | Some _ =>
         bind o (fun response =>
           if ok response
           then bind (json response) (fun data => Resolved (parseTideData h now rnd island data))
           else Raised ("NOAA API error: " ++ pretty (status response)))
     end)
    (fun error => Resolved (getFallbackTideData h now rnd island)).

Definition getFallbackSurfData (h : Host) (now : Z) (rnd : nat -> Q) (island : string)
  : SurfData :=
  {| spots := map (getFallbackSpotData h now)
                  (filter (fun spot => spotIsland spot = island) SURF_SPOTS);
     tideData := getFallbackTideData h now rnd island;
     lastUpdated := toISOString h now |}.

Definition cacheKey (island : string) : string := "surf-" ++ island.

(** [getSurfData] up to its first [await]. *)
Definition getSurfData_check (t0 : Z) (island : string) (c : gmap string CacheEntry)
  : started SurfData :=
  let fanout := spotName <$> filter (fun spot => spotIsland spot = island) SURF_SPOTS in
  match c !! cacheKey island with
  | Some cached =>
      if t0 - timestamp cached <? CACHE_TTL_MINUTES * 60 * 1000
      then Hit (data cached)
      else FanOut fanout
  | None => FanOut fanout
  end.

(** [getSurfData] from the point where [Promise.allSettled(spotPromises)]
    has given [spotResults] and [await this.fetchTideData(island)] has
    settled with [tides]. *)
Definition getSurfData_resume (h : Host) (t1 : Z) (rnd : nat -> Q) (island : string)
    (spotResults : list (outcome SurfSpot)) (tides : outcome (list TideData))
    (c : gmap string CacheEntry) : gmap string CacheEntry * outcome SurfData :=
  let spots :=
    omap (fun result => match result with Resolved v => Some v | Raised _ => None end)
         spotResults in
  match tides with
  | Resolved tides =>
      let surfData := {| spots := spots; tideData := tides; lastUpdated := toISOString h t1 |} in
      (<[cacheKey island := mkEntry surfData t1]> c, Resolved surfData)
  | Raised _ => (c, Resolved (getFallbackSurfData h t1 rnd island))
  end.

(** [getSurfData(island)] *)
Definition getSurfData (h : Host) (t0 t1 : Z) (rnd : nat -> Q) (island : string)
    (up : Upstream) (c : gmap string CacheEntry)
  : gmap string CacheEntry * outcome SurfData :=
  match getSurfData_check t0 island c with
  | Hit v => (c, Resolved v)
  | FanOut _ =>
      let islandSpots := filter (fun spot => spotIsland spot = island) SURF_SPOTS in
      getSurfData_resume h t1 rnd island
        (map (fun spot => fetchSpotData_settled h t1 spot (waveResp up (spotId spot))) islandSpots)
        (fetchTideData h t1 rnd island (tideResp up)) c
  end.

(** The requests of one refresh as the network answers them. *)
Record Network : Type := mkNetwork
  { waveExchange : string -> exchange WavePayload;
    tideExchange : exchange TidePayload }.

Definition settledUpstream (net : Network) : Upstream :=
  mkUpstream (fun spotId => settled_outcome (fetch (waveExchange net spotId)))
             (settled_outcome (fetch (tideExchange net))).

(** [getSurfData(island)] over time, entered at [t0]: the wave requests of
    the island's spots start together and are awaited with
    [Promise.allSettled]; the tide request, made only for an island with a
    station, starts when they have settled. None carries an abort signal. *)
Definition getSurfData_timed (h : Host) (t0 : Z) (rnd : nat -> Q) (island : string)
    (net : Network) (c : gmap string CacheEntry) : timed SurfData :=
  match getSurfData_check t0 island c with
  | Hit v => SettlesAt t0 (Resolved v)
  | FanOut _ =>
      let islandSpots := filter (fun spot => spotIsland spot = island) SURF_SPOTS in
      match allSettled (map (fun spot => fetch (waveExchange net (spotId spot))) islandSpots) with
      | Pending => Pending
      | SettlesAt d1 _ =>
          match (match station_of island with
                 | Some _ => instant (fetch (tideExchange net))
                 | None => SettlesAt 0 (Resolved tt)
                 end) with
          | Pending => Pending
          | SettlesAt d2 _ =>
              let t1 := t0 + d1 + d2 in
              SettlesAt t1 (getSurfData h t0 t1 rnd island (settledUpstream net) c).2
          end
      end
  end.

Definition qualityScore (quality : string) : Q :=
  if String.eqb quality "excellent" then 4
  else if String.eqb quality "good" then 3
  else if String.eqb quality "fair" then 2
  else 1.

Definition spotScore (s : SurfSpot) : Q :=
  (qualityScore (quality (current s)) + waveMax (current s))%Q.

(** The comparator of [getTopSurfSpots]: [scoreB - scoreA]. *)
Definition compareSpots (a b : SurfSpot) : comparison := (spotScore b ?= spotScore a)%Q.

(** The ranking of [getTopSurfSpots(island, limit = 5)]: what it does with
    the spots it has collected. *)
Definition rankSpots (limit : Z) (allSpots : list SurfSpot) : list SurfSpot :=
  slice0 limit (sort compareSpots allSpots).

Definition clearCache (c : gmap string CacheEntry) : gmap string CacheEntry := ∅.

(** [getNextTide(island)]; [now] is the reading of [new Date()] after the
    awaited [getSurfData]. *)
Definition isAfter (h : Host) (now : Z) (tide : TideEvent) : bool :=
  match getTime h (time tide) with
  | Some t => now <? t
  | None => false
  end.

Definition nextTideOf (h : Host) (now : Z) (island : string) (surfData : SurfData)
  : option TideEvent :=
  match List.find (fun t => String.eqb (tideIsland t) island) (tideData surfData) with
  | None => None
  | Some tideData => List.find (isAfter h now) (tides tideData)
  end.

Definition getNextTide (h : Host) (t0 t1 : Z) (rnd : nat -> Q) (island : string)
    (up : Upstream) (c : gmap string CacheEntry)
  : gmap string CacheEntry * outcome (option TideEvent) :=
  let '(c1, r) := getSurfData h t0 t1 rnd island up c in
  (c1, try_catch (bind r (fun surfData => Resolved (nextTideOf h t1 island surfData)))
                 (fun error => Resolved None)).

(** [getTopSurfSpots(island, limit = 5)] for a given island. [allSpots] is
    the array [surfData.spots] itself and [sort] sorts it in place;
    [surfData] is the object the cache holds under the island's key whenever
    [getSurfData] served it from the cache or has just stored it ([shared]),
    so the cached entry is reordered with it. *)
Definition getTopSurfSpots (h : Host) (t0 t1 : Z) (rnd : nat -> Q) (island : string)
    (limit : Z) (up : Upstream) (c : gmap string CacheEntry)
  : gmap string CacheEntry * outcome (list SurfSpot) :=
  let '(c1, r) := getSurfData h t0 t1 rnd island up c in
  let shared :=
    match getSurfData_check t0 island c with
    | Hit _ => true
    | FanOut _ => is_resolved (fetchTideData h t1 rnd island (tideResp up))
    end in
  match r with
  | Resolved surfData =>
      let sortedSpots := sort compareSpots (spots surfData) in
      (if shared
       then alter (fun entry =>
                     mkEntry (mkSurfData sortedSpots (tideData (data entry))
                                         (lastUpdated (data entry)))
                             (timestamp entry))
                  (cacheKey island) c1
       else c1,
       Resolved (slice0 limit sortedSpots))
  | Raised _ => (c1, Resolved [])
  end.

End Surf.

(** ** The daily briefing (emailservice.ts): its choice of the top surf spot *)

Module Email.

(** [calculateSurfScore(spot)]: [{excellent: 10, good: 7, fair: 4, poor: 1}
    [quality] || 1], plus the maximal wave height. *)
Definition calculateSurfScore (spot : Surf.SurfSpot) : Q :=
  let quality := Surf.quality (Surf.current spot) in
  let qualityScore : Q :=
    (if String.eqb quality "excellent" then 10
     else if String.eqb quality "good" then 7
     else if String.eqb quality "fair" then 4
     else 1)%Q in
  (qualityScore + Surf.waveMax (Surf.current spot))%Q.

(** [surfData.spots.reduce((best, spot) => score(spot) > score(best) ? spot :
    best, surfData.spots[0])], the top spot of [generateBriefingData]:
    [undefined] ([None]) for an empty array. *)
Definition topSurfSpot (spots : list Surf.SurfSpot) : option Surf.SurfSpot :=
  match spots with
  | [] => None
  | first :: _ =>
      Some (foldl (fun best spot =>
                     if Qlt_le_dec (calculateSurfScore best) (calculateSurfScore spot)
                     then spot else best) first spots)
  end.

End Email.

(** ** Concrete data for the runs below *)

Module Sample.

(** Saturday 4 January 2025, 08:00 in Honolulu. *)
Definition jan04 : Z := 1736013600000.

Definition host0 : Host := IsoDate.host None.
Definition hostKey : Host := IsoDate.host (Some "eventbrite-token").

Definition staleWeather : Weather.WeatherData :=
  {| Weather.current :=
       Weather.mkCurrent 70 70 90 25 "S" "Cloudy" "partly-cloudy" 8 10;
     Weather.forecast := Weather.getDefaultForecast host0 0;
     Weather.alerts := [];
     Weather.lastUpdated := IsoDate.toISOString 0 |}%Q.

Definition noaaDown : Weather.Noaa :=
  Weather.mkNoaa (Raised "ECONNREFUSED") (Raised "ECONNREFUSED")
                 (Raised "ECONNREFUSED") (Raised "ECONNREFUSED").

(** NOAA answers the grid point and the forecast; the first forecast period
    carries no [temperature]. *)
Definition noaaNoTemperature : Weather.Noaa :=
  Weather.mkNoaa
    (Resolved (mkResponse true 200 "OK"
       (Resolved (Some (Weather.mkGridPoint "HFO" 153 144
                          "https://api.weather.gov/gridpoints/HFO/153,144/forecast")))))
    (Raised "ECONNREFUSED")
    (Resolved (mkResponse true 200 "OK"
       (Resolved (Some (Some [ Some (Weather.mkPeriod None "F"
                                       (Some "2025-01-04T06:00:00-10:00") (Some "Sunny")) ])))))
    (Raised "ECONNREFUSED").

Definition feedsDown : News.Feeds := fun _ => Raised "ECONNREFUSED".

Definition surfDown : Surf.Upstream :=
  Surf.mkUpstream (fun _ => Raised "ECONNREFUSED") (Raised "ECONNREFUSED").

Definition breakfast : Events.EventData :=
  {| Events.id := "eventbrite-1";
     Events.title := "Business Breakfast";
     Events.description := "Networking over coffee.";
     Events.startDate := "2025-01-08T18:00:00.000Z";
     Events.endDate := None;
     Events.location := Events.mkLocation "Hawaii Convention Center" "1801 Kalakaua Ave, Honolulu" "oahu";
     Events.category := "business";
     Events.price := Events.mkPrice false (Some 25%Q) "USD";
     Events.organizer := "Chamber";
     Events.eventUrl := None;
     Events.imageUrl := None;
     Events.tags := ["business"; "oahu"] |}.

Definition concert : Events.EventData :=
  {| Events.id := "eventbrite-2";
     Events.title := "Slack Key Concert";
     Events.description := "An evening of slack key guitar.";
     Events.startDate := "2025-01-11T18:00:00.000Z";
     Events.endDate := None;
     Events.location := Events.mkLocation "Waikiki Shell" "2805 Monsarrat Ave, Honolulu" "oahu";
     Events.category := "music";
     Events.price := Events.mkPrice true None "USD";
     Events.organizer := "Ki Ho'alu Foundation";
     Events.eventUrl := None;
     Events.imageUrl := Some "https://img.example.org/slack-key.jpg";
     Events.tags := ["music"; "oahu"] |}.

Definition eventbriteOk (events : list Events.EventData) : Events.Eventbrite :=
  Resolved (mkResponse true 200 "OK" (Resolved (Resolved events))).

Definition article (u t : string) (at_ : string) (score : Q) : News.NewsArticle :=
  News.mkArticle u t "summary" u (News.mkPublisher "KHON2" "/logos/khon2.png" "khon2.com")
    at_ "local" None (Some score).

Definition staleNews : News.CacheEntry :=
  News.mkEntry [article "https://example.org/old" "Old story" "2025-01-03T18:00:00.000Z" 0.4%Q] 0.

Definition staleEvents : Events.CacheEntry := Events.mkEntry [breakfast] 0.

End Sample.

(** ** Vocabulary of the properties *)

(** The first record of [l] whose key is [k]. *)
Definition first_with_key {A : Type} (key : A -> string) (k : string) (l : list A)
  : option A :=
  List.find (fun x => String.eqb (key x) k) l.

(** The loop invariant: [seen] holds exactly the keys of the records pushed
    so far, and no two of those share a key. *)
Definition dedup_inv {A : Type} (key : A -> string) (acc : gset string * list A) : Prop :=
  (forall k, k ∈ acc.1 <-> k ∈ key <$> acc.2) /\ NoDup (key <$> acc.2).

(** The score without the clock: what [calculateEventScore] adds before it
    reads [Date.now()]. *)
Definition clockless_score (h : Host) (event : Events.EventData) : Z :=
  (if Events.free (Events.price event) then 2 else 0)
  + (if bool_decide (Events.category event ∈ ["music"; "food"; "culture"]) then 1 else 0)
  + (if truthy (Events.imageUrl event) then 1 else 0)
  + match getTime h (Events.startDate event) with
    | Some eventDate =>
        if (Events.getDay h eventDate =? 0) || (Events.getDay h eventDate =? 6) then 1 else 0
    | None => 0
    end.

(** The orders the services sort by. *)

(** Higher relevance first; among equal scores the later [publishedAt]. *)
Definition news_before (h : Host) (a b : News.NewsArticle) : Prop :=
  (News.score_of b < News.score_of a)%Q
  \/ ((News.score_of a == News.score_of b)%Q
      /\ exists ta tb, getTime h (News.publishedAt a) = Some ta
                       /\ getTime h (News.publishedAt b) = Some tb /\ tb <= ta).

(** The earlier [startDate] first. *)
Definition events_before (h : Host) (a b : Events.EventData) : Prop :=
  exists ta tb, getTime h (Events.startDate a) = Some ta
                /\ getTime h (Events.startDate b) = Some tb /\ ta <= tb.

(** The higher quality-plus-height score first. *)
Definition spots_before (a b : Surf.SurfSpot) : Prop :=
  (Surf.spotScore b <= Surf.spotScore a)%Q.

Definition dated (h : Host) (s : string) : Prop := is_Some (getTime h s).

(** The sources a fan-out of [getEvents] invokes, and the cache key of a
    query. *)
Definition enabled_event_sources (h : Host) : list string :=
  Events.name <$> filter (fun source => Events.enabled source = true) (Events.EVENT_SOURCES h).

Definition query_key (q : Events.Query) : string :=
  Events.cacheKey (Events.qIsland q) (Events.qCategory q) (Events.qDaysAhead q) (Events.qLimit q).

(** The request a call of [getWeatherData] starts when it misses the cache:
    none for an island without coordinates. *)
Definition noaa_requests (island : string) : list string :=
  match Weather.coordinates_of island with
  | Some _ => ["api.weather.gov/points"]
  | None => []
  end.

(** The invariant of a forecast day, [d.high >= d.low]: a comparison with
    NaN is false. *)
Definition high_above_low (d : Weather.DailyForecast) : Prop :=
  match Weather.high d, Weather.low d with
  | Some high, Some low => (low <= high)%Q
  | _, _ => False
  end.

(** A period (or the absence of one) whose temperature is a number. *)
Definition numeric (period : option Weather.Period) : Prop :=
  match period with
  | Some period => is_Some (Weather.periodTemperature period)
  | None => True
  end.

(** The periods of the forecast answer of one refresh, when it has any. *)
Definition forecast_periods (noaa : Weather.Noaa) : list (option Weather.Period) :=
  match Weather.forecastResp noaa with
  | Resolved response =>
      match json response with
      | Resolved (Some (Some periods)) => periods
      | _ => []
      end
  | Raised _ => []
  end.

Definition forecast_days (f : Weather.Forecast) : list Weather.DailyForecast :=
  Weather.today f :: Weather.tomorrow f :: Weather.extended f.

(** A refresh: the fan-out of a call that missed the cache, followed by the
    rest of the call. *)
Definition news_refresh (h : Host) (t1 : Z) (category : option string) (limit : Z)
    (up : News.Feeds) (s : News.NewsService)
  : News.NewsService * outcome (list News.NewsArticle) :=
  News.getLatestNews_resume h t1 category limit (News.fetchAllFeeds up (News.RSS_FEEDS s)) s.

Definition events_refresh (h : Host) (t0 t1 : Z) (island category : option string)
    (daysAhead limit : Z) (up : Events.Eventbrite) (c : gmap string Events.CacheEntry)
  : gmap string Events.CacheEntry * outcome (list Events.EventData) :=
  Events.getEvents_resume h t1 island category daysAhead limit
    (Events.fetchFromAllSources h t0 up daysAhead) c.

Definition surf_refresh (h : Host) (t1 : Z) (rnd : nat -> Q) (island : string)
    (up : Surf.Upstream) (c : gmap string Surf.CacheEntry)
  : gmap string Surf.CacheEntry * outcome Surf.SurfData :=
  Surf.getSurfData_resume h t1 rnd island
    (map (fun spot => Surf.fetchSpotData_settled h t1 spot (Surf.waveResp up (Surf.spotId spot)))
         (filter (fun spot => Surf.spotIsland spot = island) Surf.SURF_SPOTS))
    (Surf.fetchTideData h t1 rnd island (Surf.tideResp up)) c.

(** The feeds a fan-out of the news service reads. *)
Definition enabled_feed_urls (s : News.NewsService) : list string :=
  News.url <$> filter (fun feed => News.enabled feed = true) (News.RSS_FEEDS s).

(** The order of [getFeaturedEvents]: the higher score, at the time of the
    call, first. *)
Definition scored_before (h : Host) (now : Z) (a b : Events.EventData) : Prop :=
  Events.calculateEventScore h now b <= Events.calculateEventScore h now a.


(** The height [assessWaveQuality] grades: the larger of [surf.min || 0]
    and [surf.max || 0]. *)
Definition waveHeightOf (wave : Surf.Wave) : Q :=
  Qmax (num_or (Surf.surfMin wave) 0) (num_or (Surf.surfMax wave) 0).

(** * Properties *)

(** *** Properties of [Cache] *)

Section CacheFacts.
Context {T : Type}.
Implicit Types (c : gmap string (Cache.CacheEntry T)) (e : Cache.CacheEntry T).

Lemma cache_get_absent c now key :
  c !! key = None -> Cache.get now key c = (c, None).
Proof. intros H. unfold Cache.get. by rewrite H. Qed.

Lemma cache_get_live c now key e :
  c !! key = Some e -> now - Cache.timestamp e <= Cache.ttl e ->
  Cache.get now key c = (c, Some (Cache.data e)).
Proof.
  intros H Hle. unfold Cache.get. rewrite H.
  destruct (Z.gtb_spec (now - Cache.timestamp e) (Cache.ttl e)); [lia | done].
Qed.

Lemma cache_get_expired c now key e :
  c !! key = Some e -> Cache.ttl e < now - Cache.timestamp e ->
  Cache.get now key c = (delete key c, None).
Proof.
  intros H Hlt. unfold Cache.get. rewrite H.
  destruct (Z.gtb_spec (now - Cache.timestamp e) (Cache.ttl e)); [done | lia].
Qed.

Lemma cache_get_set c t now key (d : T) m :
  0 <= now - t <= m * 60 * 1000 ->
  (Cache.get now key (Cache.set t key d m c)).2 = Some d.
Proof.
  intros H. unfold Cache.set.
  rewrite (cache_get_live _ _ _ (Cache.mkEntry d t (m * 60 * 1000)));
    [done | apply lookup_insert_eq | simpl; lia].
Qed.
End CacheFacts.

(** C2 (as stated, refuted): at [now - insertedAt = ttl] the entry is not
    within [now - insertedAt < ttl], yet [Cache.get] still returns it. *)
Lemma C2_cache_get_at_ttl_counterexample :
  let c := Cache.set 0 "weather-oahu" Sample.staleWeather 15
             (∅ : gmap string (Cache.CacheEntry Weather.WeatherData)) in
  let now := 900000 in
  exists e, c !! "weather-oahu" = Some e
    /\ now - Cache.timestamp e = Cache.ttl e
    /\ (now - Cache.timestamp e <? Cache.ttl e) = false
    /\ (Cache.get now "weather-oahu" c).2 = Some (Cache.data e).
Proof.
  eexists. split; [apply lookup_insert_eq |]. simpl.
  split; [reflexivity |]. split; [reflexivity |].
  unfold Cache.get, Cache.set. rewrite lookup_insert_eq. reflexivity.
Qed.

(** C2 (amended): for an entry stored under [key], [Cache.get] returns the
    stored value exactly when [now - insertedAt <= ttl] and [null] exactly when
    [now - insertedAt > ttl]; in particular it returns the value at
    [now - insertedAt = ttl - 1] and [null] at [now - insertedAt = ttl + 1]. *)
Theorem C2_cache_get_ttl_boundary {T : Type}
    (c : gmap string (Cache.CacheEntry T)) (key : string) (now : Z)
    (e : Cache.CacheEntry T) (He : c !! key = Some e) :
  ((Cache.get now key c).2 = Some (Cache.data e)
     <-> now - Cache.timestamp e <= Cache.ttl e)
  /\ ((Cache.get now key c).2 = None
     <-> now - Cache.timestamp e > Cache.ttl e)
  /\ (now - Cache.timestamp e = Cache.ttl e - 1
        -> (Cache.get now key c).2 = Some (Cache.data e))
  /\ (now - Cache.timestamp e = Cache.ttl e + 1
        -> (Cache.get now key c).2 = None).
Proof.
  assert (Hlive : now - Cache.timestamp e <= Cache.ttl e ->
                  (Cache.get now key c).2 = Some (Cache.data e)).
  { intros Hle. by rewrite (cache_get_live _ _ _ _ He Hle). }
  assert (Hdead : Cache.ttl e < now - Cache.timestamp e ->
                  (Cache.get now key c).2 = None).
  { intros Hlt. by rewrite (cache_get_expired _ _ _ _ He Hlt). }
  repeat split.
  - intros Hget.
    destruct (Z.le_gt_cases (now - Cache.timestamp e) (Cache.ttl e)) as [|Hlt]; [done|].
    rewrite (Hdead Hlt) in Hget. discriminate.
  - exact Hlive.
  - intros Hget.
    destruct (Z.le_gt_cases (now - Cache.timestamp e) (Cache.ttl e)) as [Hle|Hlt]; [|lia].
    rewrite (Hlive Hle) in Hget. discriminate.
  - intros Hgt. apply Hdead. lia.
  - intros Heq. apply Hlive. lia.
  - intros Heq. apply Hdead. lia.
Qed.

(** A run of C2: an entry written at time 0 with the default 15 minutes, read
    one millisecond before and one after its ttl. *)
Lemma C2_cache_get_ttl_boundary_witness :
  let c := Cache.set 0 "weather-oahu" Sample.staleWeather 15
             (∅ : gmap string (Cache.CacheEntry Weather.WeatherData)) in
  (Cache.get 899999 "weather-oahu" c).2 = Some Sample.staleWeather
  /\ (Cache.get 900001 "weather-oahu" c).2 = None.
Proof.
  intros c.
  pose (e := Cache.mkEntry Sample.staleWeather 0 (15 * 60 * 1000)).
  assert (He : c !! "weather-oahu" = Some e) by (vm_compute; reflexivity).
  split.
  - apply (proj1 (proj2 (proj2 (C2_cache_get_ttl_boundary c "weather-oahu" 899999 e He)))).
    reflexivity.
  - apply (proj2 (proj2 (proj2 (C2_cache_get_ttl_boundary c "weather-oahu" 900001 e He)))).
    reflexivity.
Defined.

(** *** The duplicate filter of the fan-outs *)

Section Dedup.
Context {A : Type} (key : A -> string).

Lemma first_with_key_app k l1 l2 :
  first_with_key key k (l1 ++ l2) =
  match first_with_key key k l1 with
  | Some x => Some x
  | None => first_with_key key k l2
  end.
Proof.
  unfold first_with_key. induction l1 as [|x l1 IH]; simpl; [done|].
  destruct (String.eqb (key x) k); [done | apply IH].
Qed.

Lemma first_with_key_is_Some k l :
  k ∈ key <$> l -> is_Some (first_with_key key k l).
Proof.
  unfold first_with_key. induction l as [|x l IH]; simpl.
  - intros H. by apply elem_of_nil in H.
  - intros H. apply elem_of_cons in H as [-> | H].
    + rewrite String.eqb_refl. by eexists.
    + destruct (String.eqb (key x) k); [by eexists | by apply IH].
Qed.

Lemma dedup_inv_init : dedup_inv key (∅, []).
Proof.
  split; simpl; [| constructor].
  intros k. split; intros H; [by apply not_elem_of_empty in H | by apply elem_of_nil in H].
Qed.

Lemma push_unseen_inv acc x : dedup_inv key acc -> dedup_inv key (push_unseen key acc x).
Proof.
  intros [Hseen Hnd]. unfold push_unseen. case_bool_decide as Hin; [done|].
  split; simpl.
  - intros k. rewrite fmap_app, elem_of_app, elem_of_union, elem_of_singleton. simpl.
    rewrite list_elem_of_singleton, Hseen. tauto.
  - rewrite fmap_app. apply NoDup_app. split; [done|]. split.
    + intros k Hk Hk'. simpl in Hk'. apply list_elem_of_singleton in Hk'. subst k.
      apply Hin, Hseen, Hk.
    + simpl. apply NoDup_singleton.
Qed.

Lemma push_unseen_first acc x k :
  dedup_inv key acc ->
  first_with_key key k (push_unseen key acc x).2 = first_with_key key k (acc.2 ++ [x]).
Proof.
  intros [Hseen _]. unfold push_unseen. case_bool_decide as Hin; [|done].
  rewrite first_with_key_app. simpl.
  destruct (first_with_key key k acc.2) as [y|] eqn:Hy; [done|].
  destruct (String.eqb_spec (key x) k) as [<- |]; [|done].
  apply Hseen, first_with_key_is_Some in Hin. rewrite Hy in Hin. by destruct Hin.
Qed.

Lemma foldl_push_unseen_inv l acc :
  dedup_inv key acc -> dedup_inv key (foldl (push_unseen key) acc l).
Proof.
  revert acc. induction l as [|x l IH]; intros acc Hacc; simpl; [done|].
  apply IH, push_unseen_inv, Hacc.
Qed.

Lemma foldl_push_unseen_first l acc k :
  dedup_inv key acc ->
  first_with_key key k (foldl (push_unseen key) acc l).2 = first_with_key key k (acc.2 ++ l).
Proof.
  revert acc. induction l as [|x l IH]; intros acc Hacc; simpl.
  - by rewrite app_nil_r.
  - rewrite IH by (by apply push_unseen_inv).
    rewrite !first_with_key_app, (push_unseen_first _ _ _ Hacc), first_with_key_app.
    replace (x :: l) with ([x] ++ l) by done. rewrite first_with_key_app.
    by destruct (first_with_key key k acc.2), (first_with_key key k [x]).
Qed.

Lemma foldl_push_result_inv results acc :
  dedup_inv key acc -> dedup_inv key (foldl (push_result key) acc results).
Proof.
  revert acc. induction results as [|r results IH]; intros acc Hacc; simpl; [done|].
  apply IH. destruct r; simpl; [by apply foldl_push_unseen_inv | done].
Qed.

Lemma foldl_push_result_first results acc k :
  dedup_inv key acc ->
  first_with_key key k (foldl (push_result key) acc results).2
  = first_with_key key k (acc.2 ++ fulfilled_values results).
Proof.
  revert acc. induction results as [|r results IH]; intros acc Hacc; simpl.
  - unfold fulfilled_values. simpl. by rewrite app_nil_r.
  - destruct r as [v|e]; simpl.
    + rewrite IH by (by apply foldl_push_unseen_inv).
      unfold fulfilled_values. simpl. fold (fulfilled_values results).
      rewrite app_assoc, !(first_with_key_app _ _ (fulfilled_values results)).
      by rewrite foldl_push_unseen_first.
    + rewrite IH by done. done.
Qed.

(** No key occurs twice in the merged list. *)
Lemma collect_unique_NoDup results : NoDup (key <$> collect_unique key results).
Proof. apply (foldl_push_result_inv results _ dedup_inv_init). Qed.

(** For every key, the merged list holds the first record with that key in
    iteration order, if there is one, and none otherwise. *)
Lemma collect_unique_first results k :
  first_with_key key k (collect_unique key results)
  = first_with_key key k (fulfilled_values results).
Proof. apply (foldl_push_result_first results _ k dedup_inv_init). Qed.

(** The merged list has exactly one record of key [k] as soon as some
    fulfilled result has one. *)
Lemma collect_unique_count results k :
  k ∈ key <$> fulfilled_values results ->
  length (List.filter (fun x => String.eqb (key x) k) (collect_unique key results)) = 1%nat.
Proof.
  intros Hk. apply first_with_key_is_Some in Hk as [x Hx].
  rewrite <- collect_unique_first in Hx.
  pose proof (collect_unique_NoDup results) as Hnd.
  revert Hx Hnd. generalize (collect_unique key results) as l.
  unfold first_with_key. induction l as [|y l IH]; simpl; [done|].
  intros Hx Hnd. apply NoDup_cons in Hnd as [Hy Hnd].
  destruct (String.eqb_spec (key y) k) as [Heq|Hne].
  - simpl. f_equal. apply length_zero_iff_nil.
    destruct (List.filter _ l) as [|z l'] eqn:Hf; [done|].
    assert (Hz : In z (List.filter (fun x => String.eqb (key x) k) l))
      by (rewrite Hf; by left).
    apply filter_In in Hz as [Hz Hzk]. apply String.eqb_eq in Hzk.
    exfalso. apply Hy. rewrite Heq, <- Hzk. apply list_elem_of_fmap_2.
    by apply list_elem_of_In.
  - by apply IH.
Qed.

End Dedup.

(** C5: in both fan-outs ([fetchFromAllSources] and [fetchAllFeeds]) the
    merge keeps, for every identity key, exactly one record, and it is the
    first one in source iteration order: no key occurs twice in the merged
    list; looking a key up in the merged list finds what looking it up in the
    concatenated fulfilled results finds; and when two sources return records
    [a] and [b] of the same key, the higher-priority source's [a] alone
    survives. *)
Theorem C5_dedup_first_seen_wins :
  (forall results : list (outcome (list Events.EventData)),
      NoDup (Events.eventKey <$> Events.dedupEvents results)
      /\ (forall k, first_with_key Events.eventKey k (Events.dedupEvents results)
                    = first_with_key Events.eventKey k (fulfilled_values results))
      /\ (forall k, k ∈ Events.eventKey <$> fulfilled_values results ->
            length (List.filter (fun x => String.eqb (Events.eventKey x) k)
                                (Events.dedupEvents results)) = 1%nat))
  /\ (forall results : list (outcome (list News.NewsArticle)),
      NoDup (News.originalUrl <$> News.dedupArticles results)
      /\ (forall k, first_with_key News.originalUrl k (News.dedupArticles results)
                    = first_with_key News.originalUrl k (fulfilled_values results))
      /\ (forall k, k ∈ News.originalUrl <$> fulfilled_values results ->
            length (List.filter (fun x => String.eqb (News.originalUrl x) k)
                                (News.dedupArticles results)) = 1%nat))
  /\ (forall a b : Events.EventData, Events.eventKey a = Events.eventKey b ->
        Events.dedupEvents [Resolved [a]; Resolved [b]] = [a])
  /\ (forall a b : News.NewsArticle, News.originalUrl a = News.originalUrl b ->
        News.dedupArticles [Resolved [a]; Resolved [b]] = [a]).
Proof.
  repeat split.
  - apply collect_unique_NoDup.
  - intros k. apply collect_unique_first.
  - intros k. apply collect_unique_count.
  - apply collect_unique_NoDup.
  - intros k. apply collect_unique_first.
  - intros k. apply collect_unique_count.
  - intros a b Hab. unfold Events.dedupEvents, collect_unique. simpl.
    unfold push_unseen at 2. simpl.
    rewrite bool_decide_eq_false_2 by apply not_elem_of_empty.
    unfold push_unseen. simpl. rewrite bool_decide_eq_true_2; [done|].
    rewrite Hab. set_solver.
  - intros a b Hab. unfold News.dedupArticles, collect_unique. simpl.
    unfold push_unseen at 2. simpl.
    rewrite bool_decide_eq_false_2 by apply not_elem_of_empty.
    unfold push_unseen. simpl. rewrite bool_decide_eq_true_2; [done|].
    rewrite Hab. set_solver.
Qed.

(** A run of C5: two feeds report the same URL with different titles,
    summaries, dates and scores. *)
Lemma C5_dedup_first_seen_wins_witness :
  let a := News.mkArticle "a1" "Kilauea erupts" "summary from the first feed"
             "https://example.org/kilauea" (News.mkPublisher "KHON2" "/logos/khon2.png" "khon2.com")
             "2025-01-04T18:00:00.000Z" "breaking" None (Some 0.4%Q) in
  let b := News.mkArticle "b1" "Eruption at Kilauea" "summary from the second feed"
             "https://example.org/kilauea" (News.mkPublisher "KITV4" "/logos/kitv.png" "kitv.com")
             "2025-01-04T19:00:00.000Z" "local" None (Some 0.9%Q) in
  News.dedupArticles [Resolved [a]; Resolved [b]] = [a].
Proof.
  intros a b.
  apply (proj2 (proj2 (proj2 C5_dedup_first_seen_wins)) a b). reflexivity.
Defined.

(** *** The public operations never raise *)

Lemma weather_resume_resolves h t1 island fetched c :
  exists v, (Weather.getWeatherData_resume h t1 island fetched c).2 = Resolved v.
Proof. destruct fetched; simpl; eauto. Qed.

Lemma weather_get_resolves h t0 t1 island noaa c :
  exists v, (Weather.getWeatherData h t0 t1 island noaa c).2 = Resolved v.
Proof.
  unfold Weather.getWeatherData, Weather.getWeatherData_check.
  destruct (Cache.get t0 (Weather.cacheKey island) c) as [c1 [d|]]; simpl; [eauto|].
  destruct (Weather.coordinates_of island); [|simpl; eauto].
  apply weather_resume_resolves.
Qed.

Lemma surf_resume_resolves h t1 rnd island spotResults tides c :
  exists v, (Surf.getSurfData_resume h t1 rnd island spotResults tides c).2 = Resolved v.
Proof. destruct tides; simpl; eauto. Qed.

Lemma surf_get_resolves h t0 t1 rnd island up c :
  exists v, (Surf.getSurfData h t0 t1 rnd island up c).2 = Resolved v.
Proof.
  unfold Surf.getSurfData.
  destruct (Surf.getSurfData_check t0 island c); [simpl; eauto|].
  apply surf_resume_resolves.
Qed.

Lemma news_resume_resolves h t1 category limit fetched s :
  exists v, (News.getLatestNews_resume h t1 category limit fetched s).2 = Resolved v.
Proof. destruct fetched; simpl; eauto. Qed.

Lemma news_get_resolves h t0 t1 category limit up s :
  exists v, (News.getLatestNews h t0 t1 category limit up s).2 = Resolved v.
Proof.
  unfold News.getLatestNews.
  destruct (News.getLatestNews_check t0 category limit s); [simpl; eauto|].
  apply news_resume_resolves.
Qed.

Lemma events_resume_resolves h t1 island category daysAhead limit fetched c :
  exists v,
    (Events.getEvents_resume h t1 island category daysAhead limit fetched c).2 = Resolved v.
Proof. destruct fetched; simpl; eauto. Qed.

Lemma events_get_resolves h t0 t1 island category daysAhead limit up c :
  exists v, (Events.getEvents h t0 t1 island category daysAhead limit up c).2 = Resolved v.
Proof.
  unfold Events.getEvents.
  destruct (Events.getEvents_check h t0 island category daysAhead limit c); [simpl; eauto|].
  apply events_resume_resolves.
Qed.

(** A [try] whose [catch] returns a value: either way the block resolves. *)
Ltac absorbed :=
  match goal with
  | |- exists v, try_catch ?body _ = Resolved v => destruct body; simpl; eauto
  end.

(** The adapters absorb their own failures: whatever the upstream does,
    each settles with a value. *)
Lemma adapters_resolve :
  (forall up feed, exists v, News.fetchFeed up feed = Resolved v)
  /\ (forall h now up daysAhead source,
        exists v, Events.fetchFromSource h now up daysAhead source = Resolved v)
  /\ (forall h now spot o, exists v, Surf.fetchSpotData_settled h now spot o = Resolved v)
  /\ (forall h now rnd island o, exists v, Surf.fetchTideData h now rnd island o = Resolved v).
Proof.
  repeat split.
  - intros up feed. unfold News.fetchFeed. destruct (up _); simpl; eauto.
  - intros h now up daysAhead source. unfold Events.fetchFromSource.
    absorbed.
  - intros h now spot o. unfold Surf.fetchSpotData_settled.
    absorbed.
  - intros h now rnd island o. unfold Surf.fetchTideData.
    absorbed.
Qed.

Lemma fetch_with_signal_settles {A : Type} (timeoutMs : Z) (x : exchange A) :
  exists t o, fetch_with_signal timeoutMs x = SettlesAt t o /\ t <= timeoutMs.
Proof.
  destruct x as [d r|d|]; simpl.
  - destruct (Z.ltb_spec d timeoutMs); eexists _, _; split; try reflexivity; lia.
  - destruct (Z.ltb_spec d timeoutMs); eexists _, _; split; try reflexivity; lia.
  - eexists _, _; split; [reflexivity | lia].
Qed.

Lemma allSettled_pending {A : Type} (ps : list (timed A)) :
  allSettled ps = Pending <-> Pending ∈ ps.
Proof.
  induction ps as [|p ps IH]; cbn [allSettled].
  - split; [discriminate | intros H; by apply elem_of_nil in H].
  - rewrite elem_of_cons. destruct p as [t o|].
    + destruct (allSettled ps) as [t' os|].
      * split; [discriminate|]. intros [H|H]; [discriminate|]. by apply IH in H.
      * split; [intros _; right; by apply IH | done].
    + split; [intros _; by left | done].
Qed.

Lemma allSettled_bound {A : Type} (ps : list (timed A)) (bound t : Z)
    (os : outcome (list (outcome A))) :
  0 <= bound ->
  Forall (fun p => exists t o, p = SettlesAt t o /\ t <= bound) ps ->
  allSettled ps = SettlesAt t os -> t <= bound.
Proof.
  intros Hb Hall. revert t os. induction Hall as [|p ps (tp & op & -> & Hp) Hall IH];
    intros t os; cbn [allSettled].
  - intros [= <- _]. done.
  - destruct (allSettled ps) as [t' os'|]; [|discriminate].
    intros [= <- _]. specialize (IH t' os' eq_refl). lia.
Qed.

Lemma fetch_pending {A : Type} (x : exchange A) : fetch x = Pending <-> x = Silent.
Proof. destruct x; simpl; split; congruence. Qed.

Lemma weather_timed_settles h t0 island net c :
  exists t v,
    Weather.getWeatherData_timed h t0 island net c = SettlesAt t (Resolved v)
    /\ t <= t0 + 2 * Weather.DEFAULT_TIMEOUT_MS.
Proof.
  unfold Weather.getWeatherData_timed.
  destruct (Weather.getWeatherData_check t0 island c) as [c1 [d|sources]].
  { exists t0, d. split; [done | unfold Weather.DEFAULT_TIMEOUT_MS; lia]. }
  destruct (Weather.coordinates_of island).
  2: { eexists _, _. split; [done | unfold Weather.DEFAULT_TIMEOUT_MS; lia]. }
  destruct (fetch_with_signal_settles Weather.DEFAULT_TIMEOUT_MS (Weather.pointsExchange net))
    as (d1 & o1 & -> & Hd1).
  assert (Hrest : forall t1, t1 <= t0 + 2 * Weather.DEFAULT_TIMEOUT_MS ->
            exists t v,
              SettlesAt t1
                (Weather.getWeatherData_resume h t1 island
                   (Weather.fetchNOAAWeather h t1 (Weather.settledNoaa net)) c1).2
              = SettlesAt t (Resolved v)
              /\ t <= t0 + 2 * Weather.DEFAULT_TIMEOUT_MS).
  { intros t1 Ht1.
    destruct (weather_resume_resolves h t1 island
                (Weather.fetchNOAAWeather h t1 (Weather.settledNoaa net)) c1) as [v ->].
    by exists t1, v. }
  assert (Hpos : 0 <= Weather.DEFAULT_TIMEOUT_MS) by (unfold Weather.DEFAULT_TIMEOUT_MS; lia).
  destruct (Weather.fetchWithTimeout_settled o1) as [[gp|]|e];
    [|apply Hrest; lia | apply Hrest; lia].
  destruct (allSettled _) as [d2 os|] eqn:Hall.
  - apply Hrest. apply (allSettled_bound _ Weather.DEFAULT_TIMEOUT_MS) in Hall; [lia | done |].
    repeat constructor; unfold instant;
      match goal with
      | |- context [fetch_with_signal ?m ?x] =>
          destruct (fetch_with_signal_settles m x) as (t & o & -> & Ht); simpl; eauto
      end.
  - apply allSettled_pending in Hall. exfalso.
    repeat (apply elem_of_cons in Hall as [Hall|Hall]);
      [| | |by apply elem_of_nil in Hall]; unfold instant in Hall;
      match type of Hall with
      | context [fetch_with_signal ?m ?x] =>
          destruct (fetch_with_signal_settles m x) as (t & o & Hs & _); rewrite Hs in Hall
      end; discriminate Hall.
Qed.

Lemma surf_timed_pending h t0 rnd island net c :
  Surf.getSurfData_timed h t0 rnd island net c = Pending
  <-> (exists sources, Surf.getSurfData_check t0 island c = FanOut sources)
      /\ ((exists spot, spot ∈ Surf.SURF_SPOTS /\ Surf.spotIsland spot = island
                        /\ Surf.waveExchange net (Surf.spotId spot) = Silent)
          \/ (is_Some (Surf.station_of island) /\ Surf.tideExchange net = Silent)).
Proof.
  unfold Surf.getSurfData_timed.
  destruct (Surf.getSurfData_check t0 island c) as [v|sources].
  { split; [discriminate | intros [[sources Hs] _]; discriminate Hs]. }
  cbv zeta.
  destruct (allSettled _) as [d1 os|] eqn:Hwaves.
  - assert (Hnone : ~ exists spot, spot ∈ Surf.SURF_SPOTS /\ Surf.spotIsland spot = island
                        /\ Surf.waveExchange net (Surf.spotId spot) = Silent).
    { intros (spot & Hin & His & Hsilent).
      assert (Hp : allSettled
                (map (fun spot => fetch (Surf.waveExchange net (Surf.spotId spot)))
                   (filter (fun spot => Surf.spotIsland spot = island) Surf.SURF_SPOTS))
              = Pending).
      { apply allSettled_pending, list_elem_of_In, in_map_iff. exists spot.
        split; [by rewrite Hsilent|]. apply list_elem_of_In, list_elem_of_filter. done. }
      rewrite Hp in Hwaves. discriminate Hwaves. }
    destruct (Surf.station_of island) as [station|].
    + unfold instant. destruct (Surf.tideExchange net) as [d r|d|]; simpl.
      * split; [discriminate|]. intros [_ [H|[_ H]]]; [by apply Hnone in H | discriminate H].
      * split; [discriminate|]. intros [_ [H|[_ H]]]; [by apply Hnone in H | discriminate H].
      * split; [|done]. intros _. split; [by eexists|]. right. split; [by eexists | done].
    + split; [discriminate|].
      intros [_ [H|[[station Hs] _]]]; [by apply Hnone in H | discriminate Hs].
  - split; [|done]. intros _. split; [by eexists|]. left.
    apply allSettled_pending, list_elem_of_In, in_map_iff in Hwaves as (spot & Hp & Hin).
    apply fetch_pending in Hp. apply list_elem_of_In, list_elem_of_filter in Hin as [His Hin].
    by exists spot.
Qed.

Lemma surf_timed_resolves h t0 rnd island net c t o :
  Surf.getSurfData_timed h t0 rnd island net c = SettlesAt t o -> exists v, o = Resolved v.
Proof.
  unfold Surf.getSurfData_timed.
  destruct (Surf.getSurfData_check t0 island c) as [v|sources] eqn:Hcheck;
    [intros [= _ <-]; by eexists|].
  cbv zeta. destruct (allSettled _) as [d1 os|]; [|discriminate].
  destruct (match Surf.station_of island with Some _ => _ | None => _ end) as [d2 o2|];
    [|discriminate].
  intros [= _ <-]. apply surf_get_resolves.
Qed.

Lemma events_timed_pending h t0 island category daysAhead limit x c :
  Events.getEvents_timed h t0 island category daysAhead limit x c = Pending
  <-> (exists sources,
         Events.getEvents_check h t0 island category daysAhead limit c = FanOut sources)
      /\ truthy (EVENTBRITE_API_KEY h) = true /\ x = Silent.
Proof.
  unfold Events.getEvents_timed.
  destruct (Events.getEvents_check h t0 island category daysAhead limit c) as [v|sources].
  { split; [discriminate | intros [[sources Hs] _]; discriminate Hs]. }
  destruct (truthy (EVENTBRITE_API_KEY h)).
  - destruct x as [d r|d|]; simpl.
    + split; [discriminate | intros (_ & _ & H); discriminate H].
    + split; [discriminate | intros (_ & _ & H); discriminate H].
    + split; [|done]. intros _. split; [by eexists | done].
  - split; [discriminate | intros (_ & H & _); discriminate H].
Qed.

Lemma events_timed_resolves h t0 island category daysAhead limit x c t o :
  Events.getEvents_timed h t0 island category daysAhead limit x c = SettlesAt t o ->
  exists v, o = Resolved v.
Proof.
  unfold Events.getEvents_timed.
  destruct (Events.getEvents_check h t0 island category daysAhead limit c) as [v|sources];
    [intros [= _ <-]; by eexists|].
  destruct (truthy (EVENTBRITE_API_KEY h)).
  - destruct (fetch x) as [d o'|]; [|discriminate].
    intros [= _ <-]. apply events_get_resolves.
  - intros [= _ <-]. apply events_get_resolves.
Qed.

(** C1 (as stated, refuted): Surfline never answers the wave request of an
    Oahu spot, and [getSurfData("oahu")], called on an empty cache, never
    settles: it resolves to no value at all. So does [getEvents()] when an
    API key is configured and Eventbrite never answers. *)
Lemma C1_silent_upstream_never_resolves_counterexample :
  Surf.getSurfData_timed Sample.host0 Sample.jan04 (fun _ => 0%Q) "oahu"
    (Surf.mkNetwork (fun _ => Silent) (Fails 40)) ∅ = Pending
  /\ Events.getEvents_timed Sample.hostKey Sample.jan04 None None 7 50 Silent ∅ = Pending.
Proof. split; vm_compute; reflexivity. Qed.

(** C1 (amended): no public get operation throws or rejects. Once the
    upstream requests it awaits have settled, whatever their outcomes, each
    of [getWeatherData], [getSurfData], [getLatestNews] and [getEvents]
    resolves to a value of its domain type. [getWeatherData] always gets
    there, at most two timeouts after the call, because each of its requests
    is aborted after 10 seconds. [getSurfData] and [getEvents] have no such
    bound: they stay pending for ever exactly when they miss the cache and a
    request they make is never answered (a wave request of one of the
    island's spots or the tide request; the Eventbrite request when an API
    key is configured), and whenever they settle they resolve. *)
Theorem C1_get_operations_resolve_once_upstream_settles :
  (forall h t0 t1 island noaa c,
      exists v, (Weather.getWeatherData h t0 t1 island noaa c).2 = Resolved v)
  /\ (forall h t0 t1 rnd island up c,
      exists v, (Surf.getSurfData h t0 t1 rnd island up c).2 = Resolved v)
  /\ (forall h t0 t1 category limit up s,
      exists v, (News.getLatestNews h t0 t1 category limit up s).2 = Resolved v)
  /\ (forall h t0 t1 island category daysAhead limit up c,
      exists v, (Events.getEvents h t0 t1 island category daysAhead limit up c).2 = Resolved v)
  /\ (forall h t0 island net c,
      exists t v,
        Weather.getWeatherData_timed h t0 island net c = SettlesAt t (Resolved v)
        /\ t <= t0 + 2 * Weather.DEFAULT_TIMEOUT_MS)
  /\ (forall h t0 rnd island net c,
      (Surf.getSurfData_timed h t0 rnd island net c = Pending
       <-> (exists sources, Surf.getSurfData_check t0 island c = FanOut sources)
           /\ ((exists spot, spot ∈ Surf.SURF_SPOTS /\ Surf.spotIsland spot = island
                             /\ Surf.waveExchange net (Surf.spotId spot) = Silent)
               \/ (is_Some (Surf.station_of island) /\ Surf.tideExchange net = Silent)))
      /\ (forall t o, Surf.getSurfData_timed h t0 rnd island net c = SettlesAt t o ->
            exists v, o = Resolved v))
  /\ (forall h t0 island category daysAhead limit x c,
      (Events.getEvents_timed h t0 island category daysAhead limit x c = Pending
       <-> (exists sources,
              Events.getEvents_check h t0 island category daysAhead limit c = FanOut sources)
           /\ truthy (EVENTBRITE_API_KEY h) = true /\ x = Silent)
      /\ (forall t o,
            Events.getEvents_timed h t0 island category daysAhead limit x c = SettlesAt t o ->
            exists v, o = Resolved v)).
Proof.
  split; [intros; apply weather_get_resolves|].
  split; [intros; apply surf_get_resolves|].
  split; [intros; apply news_get_resolves|].
  split; [intros; apply events_get_resolves|].
  split; [intros; apply weather_timed_settles|].
  split.
  - intros. split; [apply surf_timed_pending | intros t o; apply surf_timed_resolves].
  - intros. split; [apply events_timed_pending | intros t o; apply events_timed_resolves].
Qed.

(** *** The fallback paths *)

(** Reads never remove an entry of the news or events store; a completed
    refresh overwrites the entry of its own key only. *)
Lemma news_get_keeps_entries h t0 t1 category limit up s k :
  is_Some (News.cache s !! k) ->
  is_Some (News.cache (News.getLatestNews h t0 t1 category limit up s).1 !! k).
Proof.
  intros Hk. unfold News.getLatestNews.
  destruct (News.getLatestNews_check t0 category limit s); [done|].
  unfold News.fetchAllFeeds, News.getLatestNews_resume. simpl.
  destruct (decide (News.cacheKey category limit = k)) as [<- |Hne].
  - rewrite lookup_insert_eq. by eexists.
  - by rewrite lookup_insert_ne.
Qed.

Lemma events_get_keeps_entries h t0 t1 island category daysAhead limit up c k :
  is_Some (c !! k) ->
  is_Some ((Events.getEvents h t0 t1 island category daysAhead limit up c).1 !! k).
Proof.
  intros Hk. unfold Events.getEvents.
  destruct (Events.getEvents_check h t0 island category daysAhead limit c); [done|].
  unfold Events.fetchFromAllSources, Events.getEvents_resume. simpl.
  destruct (decide (Events.cacheKey island category daysAhead limit = k)) as [<- |Hne].
  - rewrite lookup_insert_eq. by eexists.
  - by rewrite lookup_insert_ne.
Qed.

Lemma weather_check_expired t0 island (c : gmap string (Cache.CacheEntry Weather.WeatherData)) e :
  c !! Weather.cacheKey island = Some e ->
  Cache.ttl e < t0 - Cache.timestamp e ->
  exists sources,
    Weather.getWeatherData_check t0 island c
    = (delete (Weather.cacheKey island) c, FanOut sources).
Proof.
  intros He Hexp. unfold Weather.getWeatherData_check.
  rewrite (cache_get_expired _ _ _ _ He Hexp). eauto.
Qed.

(** C3 (as stated, refuted): the weather store holds an expired entry for
    ["weather-oahu"] and every NOAA request fails; [getWeatherData] answers
    with the static fallback, not with the cached value, and the read has
    deleted the entry. *)
Lemma C3_expired_weather_entry_counterexample :
  let h := Sample.host0 in
  let c := Cache.set 0 "weather-oahu" Sample.staleWeather 15
             (∅ : gmap string (Cache.CacheEntry Weather.WeatherData)) in
  let r := Weather.getWeatherData h 900001 900500 "oahu" Sample.noaaDown c in
  c !! "weather-oahu" = Some (Cache.mkEntry Sample.staleWeather 0 900000)
  /\ r.2 = Resolved (Weather.getFallbackWeatherData h 900500)
  /\ Weather.temperature (Weather.current (Weather.getFallbackWeatherData h 900500)) = 82%Q
  /\ Weather.temperature (Weather.current Sample.staleWeather) = 70%Q
  /\ r.1 !! "weather-oahu" = None.
Proof.
  intros h c r. split; [apply lookup_insert_eq |].
  assert (Hcheck : Weather.getWeatherData_check 900001 "oahu" c
                   = (delete "weather-oahu" c, FanOut ["api.weather.gov/points"])).
  { unfold Weather.getWeatherData_check.
    rewrite (cache_get_expired c 900001 (Weather.cacheKey "oahu")
               (Cache.mkEntry Sample.staleWeather 0 900000));
      [done | apply lookup_insert_eq | simpl; lia]. }
  subst r. unfold Weather.getWeatherData. rewrite Hcheck.
  split; [reflexivity |]. split; [reflexivity |]. split; [reflexivity |].
  apply lookup_delete_eq.
Qed.

Lemma news_get_keeps_other_keys h t0 t1 category limit up s k :
  k <> News.cacheKey category limit ->
  News.cache (News.getLatestNews h t0 t1 category limit up s).1 !! k = News.cache s !! k.
Proof.
  intros Hne. unfold News.getLatestNews.
  destruct (News.getLatestNews_check t0 category limit s); [done|].
  unfold News.fetchAllFeeds, News.getLatestNews_resume. simpl.
  by rewrite lookup_insert_ne.
Qed.

Lemma events_get_keeps_other_keys h t0 t1 island category daysAhead limit up c k :
  k <> Events.cacheKey island category daysAhead limit ->
  (Events.getEvents h t0 t1 island category daysAhead limit up c).1 !! k = c !! k.
Proof.
  intros Hne. unfold Events.getEvents.
  destruct (Events.getEvents_check h t0 island category daysAhead limit c); [done|].
  unfold Events.fetchFromAllSources, Events.getEvents_resume. simpl.
  by rewrite lookup_insert_ne.
Qed.

Lemma news_fresh_entry_served h t0 t1 category limit up s e :
  News.cache s !! News.cacheKey category limit = Some e ->
  t0 - News.timestamp e < 15 * 60 * 1000 ->
  News.getLatestNews h t0 t1 category limit up s = (s, Resolved (News.data e)).
Proof.
  intros He Hfresh. unfold News.getLatestNews, News.getLatestNews_check. rewrite He.
  destruct (Z.ltb_spec (t0 - News.timestamp e) (News.CACHE_TTL_MINUTES * 60 * 1000))
    as [|Hge]; [done|].
  unfold News.CACHE_TTL_MINUTES in Hge. lia.
Qed.

Lemma events_fresh_entry_served h t0 t1 island category daysAhead limit up c e :
  c !! Events.cacheKey island category daysAhead limit = Some e ->
  t0 - Events.timestamp e < 60 * 60 * 1000 ->
  Events.getEvents h t0 t1 island category daysAhead limit up c = (c, Resolved (Events.data e)).
Proof.
  intros He Hfresh. unfold Events.getEvents, Events.getEvents_check. rewrite He.
  destruct (Z.ltb_spec (t0 - Events.timestamp e) (Events.CACHE_TTL_MINUTES * 60 * 1000))
    as [|Hge]; [done|].
  unfold Events.CACHE_TTL_MINUTES in Hge. lia.
Qed.

(** C3 (amended). The weather service has no stale read: a call that finds
    an expired entry deletes it, and when the NOAA fetch then fails the call
    is answered with the static fallback. In the news and events services a
    read never removes an entry: whatever a call does, every entry, fresh or
    expired, is still in the store afterwards, unchanged unless it is the
    entry of the call's own key; only [clearCache] empties the store. A fresh
    entry is the value returned, and no fetch is made. *)
Theorem C3_weather_drops_expired_entries_news_events_keep_them :
  (forall h t0 t1 island noaa (c : gmap string (Cache.CacheEntry Weather.WeatherData)) e err,
      c !! Weather.cacheKey island = Some e ->
      Cache.ttl e < t0 - Cache.timestamp e ->
      Weather.fetchNOAAWeather h t1 noaa = Raised err ->
      exists t,
        Weather.getWeatherData h t0 t1 island noaa c
        = (delete (Weather.cacheKey island) c,
           Resolved (Weather.getFallbackWeatherData h t)))
  /\ (forall h t0 t1 category limit up s k e,
        News.cache s !! k = Some e ->
        is_Some (News.cache (News.getLatestNews h t0 t1 category limit up s).1 !! k)
        /\ (k <> News.cacheKey category limit ->
            News.cache (News.getLatestNews h t0 t1 category limit up s).1 !! k = Some e))
  /\ (forall h t0 t1 island category daysAhead limit up (c : gmap string Events.CacheEntry) k e,
        c !! k = Some e ->
        is_Some ((Events.getEvents h t0 t1 island category daysAhead limit up c).1 !! k)
        /\ (k <> Events.cacheKey island category daysAhead limit ->
            (Events.getEvents h t0 t1 island category daysAhead limit up c).1 !! k = Some e))
  /\ (forall h t0 t1 category limit up s e,
        News.cache s !! News.cacheKey category limit = Some e ->
        t0 - News.timestamp e < 15 * 60 * 1000 ->
        News.getLatestNews h t0 t1 category limit up s = (s, Resolved (News.data e)))
  /\ (forall h t0 t1 island category daysAhead limit up (c : gmap string Events.CacheEntry) e,
        c !! Events.cacheKey island category daysAhead limit = Some e ->
        t0 - Events.timestamp e < 60 * 60 * 1000 ->
        Events.getEvents h t0 t1 island category daysAhead limit up c
        = (c, Resolved (Events.data e)))
  /\ (forall s k, News.cache (News.clearCache s) !! k = None)
  /\ (forall (c : gmap string Events.CacheEntry) k, Events.clearCache c !! k = None).
Proof.
  split.
  { intros h t0 t1 island noaa c e err He Hexp Hfail.
    destruct (weather_check_expired t0 island c e He Hexp) as [sources Hcheck].
    unfold Weather.getWeatherData. rewrite Hcheck.
    destruct (Weather.coordinates_of island); [|by eexists].
    rewrite Hfail. by eexists. }
  split.
  { intros h t0 t1 category limit up s k e He.
    split; [apply news_get_keeps_entries; by rewrite He|].
    intros Hne. by rewrite news_get_keeps_other_keys. }
  split.
  { intros h t0 t1 island category daysAhead limit up c k e He.
    split; [apply events_get_keeps_entries; by rewrite He|].
    intros Hne. by rewrite events_get_keeps_other_keys. }
  split; [intros; by apply news_fresh_entry_served|].
  split; [intros; by apply events_fresh_entry_served|].
  split; intros; apply lookup_empty.
Qed.

Lemma collect_unique_all_empty {A : Type} (key : A -> string)
    (results : list (outcome (list A))) :
  Forall (fun r => match r with Resolved v => v = [] | Raised _ => True end) results ->
  collect_unique key results = [].
Proof.
  unfold collect_unique. generalize (∅ : gset string).
  induction results as [|r results IH]; intros seen Hall; simpl; [done|].
  apply Forall_cons in Hall as [Hr Hall].
  destruct r as [v|e]; simpl; [subst v; simpl |]; by apply IH.
Qed.

Lemma slice0_nil {A : Type} (limit : Z) : slice0 limit ([] : list A) = [].
Proof. unfold slice0. destruct (limit <? 0); apply take_nil. Qed.

(** When every enabled feed fails or has nothing, a call that misses the
    cache resolves to the empty list, whatever [getFallbackNews] holds. *)
Lemma news_all_feeds_fail h t0 t1 category limit up s :
  News.getLatestNews_check t0 category limit s
    = FanOut (News.url <$> filter (fun feed => News.enabled feed = true) (News.RSS_FEEDS s)) ->
  (forall feed, feed ∈ News.RSS_FEEDS s ->
     match up (News.url feed) with Resolved v => v = [] | Raised _ => True end) ->
  (News.getLatestNews h t0 t1 category limit up s).2 = Resolved [].
Proof.
  intros Hmiss Hdown. unfold News.getLatestNews. rewrite Hmiss.
  unfold News.fetchAllFeeds, News.dedupArticles.
  rewrite collect_unique_all_empty.
  - unfold News.getLatestNews_resume. destruct (truthy category); simpl;
      by rewrite slice0_nil.
  - apply Forall_forall. intros r Hr. apply list_elem_of_fmap in Hr as (feed & -> & Hfeed).
    apply list_elem_of_filter in Hfeed as [_ Hfeed]. specialize (Hdown feed Hfeed).
    unfold News.fetchFeed. by destruct (up (News.url feed)).
Qed.

(** C4 (the code at the failing input): with an empty cache and every news
    feed refusing the connection, [getLatestNews()] resolves to the empty
    list and caches it, although [getFallbackNews] holds one article; with
    an empty cache and the Eventbrite request failing, [getEvents()] (seven
    days ahead) resolves to the empty list, although [getFallbackEvents]
    holds one event. *)
Theorem C4_all_sources_fail_gives_empty_list :
  let t0 := Sample.jan04 in
  let t1 := Sample.jan04 + 1500 in
  let news := News.getLatestNews Sample.host0 t0 t1 None 20 Sample.feedsDown News.newsService in
  let events :=
    Events.getEvents Sample.hostKey t0 t1 None None 7 50 (Raised "ECONNREFUSED") ∅ in
  News.cache News.newsService !! "news-all-20" = None
  /\ news.2 = Resolved []
  /\ News.cache news.1 !! "news-all-20" = Some (News.mkEntry [] t1)
  /\ length (News.getFallbackNews Sample.host0 t1) = 1%nat
  /\ events.2 = Resolved []
  /\ events.1 !! "events-all-all-7-50" = Some (Events.mkEntry [] t1)
  /\ length (Events.getFallbackEvents Sample.hostKey t1 None) = 1%nat.
Proof.
  intros t0 t1 news events.
  repeat split; vm_compute; reflexivity.
Qed.

(** The same defect with an expired entry in the store: every feed fails,
    and [getLatestNews()] neither serves the entry nor the fallback, but
    resolves to the empty list and overwrites the entry with it. *)
Lemma news_expired_entry_overwritten_when_feeds_fail :
  let s := News.mkService News.initial_feeds {[ "news-all-20" := Sample.staleNews ]} in
  let r := News.getLatestNews Sample.host0 Sample.jan04 (Sample.jan04 + 1500) None 20
             Sample.feedsDown s in
  r.2 = Resolved []
  /\ News.cache r.1 !! "news-all-20" = Some (News.mkEntry [] (Sample.jan04 + 1500)).
Proof. split; vm_compute; reflexivity. Qed.

(** *** The event score and the clock *)

(** [hoursFromNow <= 72] in milliseconds. *)
Lemma within_72h_iff (d : Z) :
  Qle_bool (inject_Z d / inject_Z (1000 * 60 * 60))%Q 72 = (d <=? 259200000).
Proof.
  apply eq_true_iff_eq. rewrite Qle_bool_iff, Z.leb_le.
  unfold Qle, Qdiv, Qmult, Qinv, inject_Z. simpl. lia.
Qed.

Lemma calculateEventScore_split h now event :
  Events.calculateEventScore h now event
  = clockless_score h event
    + match getTime h (Events.startDate event) with
      | Some eventDate => if eventDate - now <=? 259200000 then 2 else 0
      | None => 0
      end.
Proof.
  unfold Events.calculateEventScore, clockless_score.
  destruct (getTime h (Events.startDate event)) as [t|].
  - rewrite within_72h_iff.
    destruct (Events.free _), (bool_decide _), (truthy _), (_ || _), (t - now <=? _); lia.
  - destruct (Events.free _), (bool_decide _), (truthy _); lia.
Qed.

(** C6 (as stated, refuted): one event record, scored at two readings of
    the clock, gets two different scores. *)
Lemma C6_event_score_reads_the_clock_counterexample :
  let h := Sample.host0 in
  let week_before := Sample.jan04 in
  let day_before := Sample.jan04 + 6 * 86400000 in
  Events.calculateEventScore h week_before Sample.concert = 5
  /\ Events.calculateEventScore h day_before Sample.concert = 7.
Proof. split; vm_compute; reflexivity. Qed.

(** C6 (amended): [calculateEventScore] is a function of the record's
    fields, of the host's date parsing and time zone, and of the clock, which
    it reads only to test whether the event starts within 72 hours: two clock
    readings that agree on [start - now <= 259200000] give the same score, and
    a reading within the 72 hours gives 2 more than one outside. *)
Theorem C6_event_score_clock_dependence (h : Host) (now1 now2 : Z)
    (event : Events.EventData) (start : Z)
    (Hstart : getTime h (Events.startDate event) = Some start) :
  ((start - now1 <= 259200000 <-> start - now2 <= 259200000) ->
     Events.calculateEventScore h now1 event = Events.calculateEventScore h now2 event)
  /\ (start - now1 <= 259200000 -> 259200000 < start - now2 ->
     Events.calculateEventScore h now1 event = Events.calculateEventScore h now2 event + 2).
Proof.
  rewrite !calculateEventScore_split, Hstart.
  split.
  - intros Hiff.
    destruct (Z.leb_spec (start - now1) 259200000), (Z.leb_spec (start - now2) 259200000); lia.
  - intros H1 H2.
    destruct (Z.leb_spec (start - now1) 259200000), (Z.leb_spec (start - now2) 259200000); lia.
Qed.

(** A run of C6: the concert of 11 January, scored the day before and a week
    before. *)
Lemma C6_event_score_clock_dependence_witness :
  Events.calculateEventScore Sample.host0 (Sample.jan04 + 6 * 86400000) Sample.concert
  = Events.calculateEventScore Sample.host0 Sample.jan04 Sample.concert + 2.
Proof.
  assert (Hstart : getTime Sample.host0 (Events.startDate Sample.concert)
                   = Some 1736618400000) by (vm_compute; reflexivity).
  apply (proj2 (C6_event_score_clock_dependence Sample.host0
                  (Sample.jan04 + 6 * 86400000) Sample.jan04 Sample.concert
                  1736618400000 Hstart)); vm_compute; [discriminate | reflexivity].
Defined.

(** *** Sorting *)

Section SortFacts.
Context {A : Type} (cmp : A -> A -> comparison).

Lemma insert_sorted_perm x l : insert_sorted cmp x l ≡ₚ x :: l.
Proof.
  induction l as [|y l IH]; simpl; [done|].
  destruct (cmp x y); try done.
  rewrite IH. apply perm_swap.
Qed.

Lemma sort_perm l : sort cmp l ≡ₚ l.
Proof.
  unfold sort. induction l as [|x l IH]; simpl; [done|].
  by rewrite insert_sorted_perm, IH.
Qed.

(** A comparator is consistent with the order [before] on the elements
    satisfying [P] when a result other than "greater" means [before], a result
    "greater" means the converse, and [before] is transitive. *)
Context (P : A -> Prop) (before : A -> A -> Prop).
Hypothesis cmp_before : forall a b, P a -> P b -> cmp a b <> Gt -> before a b.
Hypothesis cmp_after : forall a b, P a -> P b -> cmp a b = Gt -> before b a.
Hypothesis before_trans :
  forall a b c, P a -> P b -> P c -> before a b -> before b c -> before a c.

Lemma insert_sorted_sorted x l :
  P x -> Forall P l -> StronglySorted before l ->
  StronglySorted before (insert_sorted cmp x l).
Proof.
  intros Hx. induction l as [|y l IH]; intros HP Hs; simpl.
  - repeat constructor.
  - apply Forall_cons in HP as [Hy HP].
    apply StronglySorted_inv in Hs as [Hs Hall].
    destruct (cmp x y) eqn:Hc.
    + constructor; [by constructor|]. constructor.
      * apply cmp_before; [done..|]. by rewrite Hc.
      * rewrite Forall_forall in Hall, HP |- *. intros z Hz.
        apply (before_trans x y z); auto. apply cmp_before; [done..|]. by rewrite Hc.
    + constructor; [by constructor|]. constructor.
      * apply cmp_before; [done..|]. by rewrite Hc.
      * rewrite Forall_forall in Hall, HP |- *. intros z Hz.
        apply (before_trans x y z); auto. apply cmp_before; [done..|]. by rewrite Hc.
    + constructor; [by apply IH|].
      rewrite insert_sorted_perm. constructor; [by apply cmp_after | done].
Qed.

Lemma sort_sorted l : Forall P l -> StronglySorted before (sort cmp l).
Proof.
  unfold sort. induction l as [|x l IH]; intros HP; simpl; [constructor|].
  apply Forall_cons in HP as [Hx HP].
  apply insert_sorted_sorted; [done | | by apply IH].
  fold (sort cmp l). by rewrite sort_perm.
Qed.

End SortFacts.

Lemma StronglySorted_take {A : Type} (R : A -> A -> Prop) (n : nat) (l : list A) :
  StronglySorted R l -> StronglySorted R (take n l).
Proof.
  intros Hs. revert n. induction Hs as [|x l Hs IH Hall]; intros [|n]; simpl;
    try constructor; [apply IH | by apply Forall_take].
Qed.

Lemma slice0_sorted {A : Type} (R : A -> A -> Prop) (limit : Z) (l : list A) :
  StronglySorted R l -> StronglySorted R (slice0 limit l).
Proof. intros Hs. unfold slice0. destruct (limit <? 0); by apply StronglySorted_take. Qed.

Lemma news_sort_sorted h l :
  Forall (fun a => dated h (News.publishedAt a)) l ->
  StronglySorted (news_before h) (sort (News.compareArticles h) l).
Proof.
  apply sort_sorted.
  - intros a b [ta Ha] [tb Hb]. unfold News.compareArticles, news_before.
    rewrite Ha, Hb. simpl.
    destruct (Qeq_bool (News.score_of a) (News.score_of b)) eqn:He; simpl.
    + intros Hc. right. split; [by apply Qeq_bool_eq|].
      exists ta, tb. repeat split; try done.
    + intros Hc. left. apply Qeq_bool_neq in He.
      destruct (Qcompare_spec (News.score_of b) (News.score_of a)) as [Heq|Hlt|Hgt];
        [by symmetry in Heq | done | done].
  - intros a b [ta Ha] [tb Hb]. unfold News.compareArticles, news_before.
    rewrite Ha, Hb. simpl.
    destruct (Qeq_bool (News.score_of a) (News.score_of b)) eqn:He; simpl.
    + intros Hc. right. split; [symmetry; by apply Qeq_bool_eq|].
      apply Z.compare_gt_iff in Hc.
      exists tb, ta. repeat split; try done. lia.
    + intros Hc. left.
      destruct (Qcompare_spec (News.score_of b) (News.score_of a)); done.
  - intros a b c _ _ _. unfold news_before.
    intros [Hab | [Hab (ta & tb & Ha & Hb & Hle)]] [Hbc | [Hbc (tb' & tc & Hb' & Hc & Hle')]].
    + left. by etransitivity.
    + left. by rewrite <- Hbc.
    + left. by rewrite Hab.
    + right. split; [by etransitivity|]. exists ta, tc.
      rewrite Hb in Hb'. injection Hb' as <-. repeat split; try done. lia.
Qed.

Lemma events_sort_sorted h l :
  Forall (fun e => dated h (Events.startDate e)) l ->
  StronglySorted (events_before h) (sort (Events.compareByDate h) l).
Proof.
  apply sort_sorted.
  - intros a b [ta Ha] [tb Hb]. unfold Events.compareByDate, events_before.
    rewrite Ha, Hb. simpl. intros Hc. exists ta, tb. repeat split; try done.
  - intros a b [ta Ha] [tb Hb]. unfold Events.compareByDate, events_before.
    rewrite Ha, Hb. simpl. intros Hc. apply Z.compare_gt_iff in Hc.
    exists tb, ta. repeat split; try done. lia.
  - intros a b c _ _ _ (ta & tb & Ha & Hb & Hle) (tb' & tc & Hb' & Hc & Hle').
    exists ta, tc. rewrite Hb in Hb'. injection Hb' as <-. repeat split; try done. lia.
Qed.

Lemma spots_sort_sorted l :
  StronglySorted spots_before (sort Surf.compareSpots l).
Proof.
  apply (sort_sorted Surf.compareSpots (fun _ => True)).
  - intros a b _ _. unfold Surf.compareSpots, spots_before. intros Hc.
    destruct (Qcompare_spec (Surf.spotScore b) (Surf.spotScore a)) as [Heq|Hlt|Hgt];
      [rewrite Heq; apply Qle_refl | by apply Qlt_le_weak | done].
  - intros a b _ _. unfold Surf.compareSpots, spots_before. intros Hc.
    destruct (Qcompare_spec (Surf.spotScore b) (Surf.spotScore a)) as [Heq|Hlt|Hgt];
      [done | done | by apply Qlt_le_weak].
  - intros a b c _ _ _. unfold spots_before. intros Hab Hbc. by eapply Qle_trans.
  - by apply Forall_forall.
Qed.

Lemma news_resume_sorted h t1 category limit articles s :
  Forall (fun a => dated h (News.publishedAt a)) articles ->
  exists result,
    (News.getLatestNews_resume h t1 category limit (Resolved articles) s).2 = Resolved result
    /\ StronglySorted (news_before h) result.
Proof.
  intros Hd. eexists. split; [reflexivity|].
  apply slice0_sorted, news_sort_sorted.
  destruct (truthy category); [|done].
  rewrite Forall_forall in Hd |- *. intros a Ha.
  apply list_elem_of_filter in Ha as [_ Ha]. by apply Hd.
Qed.

Lemma events_resume_sorted h t1 island category daysAhead limit allEvents c :
  Forall (fun e => dated h (Events.startDate e)) allEvents ->
  exists result,
    (Events.getEvents_resume h t1 island category daysAhead limit (Resolved allEvents) c).2
      = Resolved result
    /\ StronglySorted (events_before h) result.
Proof.
  intros Hd. eexists. split; [reflexivity|].
  apply slice0_sorted, events_sort_sorted.
  unfold Events.filterEvents. rewrite Forall_forall in Hd |- *. intros e He.
  apply list_elem_of_In, filter_In in He as [He _]. by apply Hd, list_elem_of_In.
Qed.

(** C7 (as stated, refuted): Eventbrite returns a free concert on Saturday
    and a paid business breakfast on Wednesday; [getEvents] lists the
    breakfast (score 0) before the concert (score 5): the list is in start
    date order, not in descending score order. *)
Lemma C7_events_in_date_order_counterexample :
  let h := Sample.hostKey in
  let t0 := Sample.jan04 in
  let t1 := Sample.jan04 + 1500 in
  let up := Sample.eventbriteOk [Sample.concert; Sample.breakfast] in
  (Events.getEvents h t0 t1 None None 7 50 up ∅).2
    = Resolved [Sample.breakfast; Sample.concert]
  /\ Events.calculateEventScore h t1 Sample.breakfast = 0
  /\ Events.calculateEventScore h t1 Sample.concert = 5.
Proof. repeat split; vm_compute; reflexivity. Qed.

(** C7 (amended): the list [getLatestNews] builds from the fetched articles
    is sorted by relevance score descending, ties broken by the later
    [publishedAt] first; the list [getEvents] builds is sorted by start date
    ascending (no score is involved); the ranking of [getTopSurfSpots] is
    sorted by quality-plus-wave-height score descending (ties keep their
    order). The first two hold for records whose dates parse. *)
Theorem C7_results_are_sorted
    (h : Host) (t1 : Z)
    (category : option string) (limit : Z) (articles : list News.NewsArticle)
    (s : News.NewsService)
    (island evCategory : option string) (daysAhead evLimit : Z)
    (allEvents : list Events.EventData) (c : gmap string Events.CacheEntry)
    (HA : Forall (fun a => dated h (News.publishedAt a)) articles)
    (HE : Forall (fun e => dated h (Events.startDate e)) allEvents) :
  (exists result,
      (News.getLatestNews_resume h t1 category limit (Resolved articles) s).2 = Resolved result
      /\ StronglySorted (news_before h) result)
  /\ (exists result,
      (Events.getEvents_resume h t1 island evCategory daysAhead evLimit
         (Resolved allEvents) c).2 = Resolved result
      /\ StronglySorted (events_before h) result)
  /\ (forall spotLimit spots,
      StronglySorted spots_before (Surf.rankSpots spotLimit spots)).
Proof.
  split; [by apply news_resume_sorted |].
  split; [by apply events_resume_sorted |].
  intros spotLimit spots. apply slice0_sorted, spots_sort_sorted.
Qed.

(** A run of C7: three fetched articles, two of equal score. *)
Lemma C7_results_are_sorted_witness :
  let a1 := Sample.article "https://example.org/1" "Road work" "2025-01-03T18:00:00.000Z" 0.4%Q in
  let a2 := Sample.article "https://example.org/2" "Kilauea" "2025-01-04T17:00:00.000Z" 0.9%Q in
  let a3 := Sample.article "https://example.org/3" "Surf contest" "2025-01-04T17:30:00.000Z" 0.4%Q in
  (exists result,
      (News.getLatestNews_resume Sample.host0 Sample.jan04 None 20
         (Resolved [a1; a2; a3]) News.newsService).2 = Resolved result
      /\ StronglySorted (news_before Sample.host0) result)
  /\ (News.getLatestNews_resume Sample.host0 Sample.jan04 None 20
         (Resolved [a1; a2; a3]) News.newsService).2 = Resolved [a2; a3; a1].
Proof.
  intros a1 a2 a3. split; [|vm_compute; reflexivity].
  refine (proj1 (C7_results_are_sorted Sample.host0 Sample.jan04 None 20 [a1; a2; a3]
                   News.newsService None None 7 50 [Sample.breakfast; Sample.concert] ∅ _ _)).
  - repeat constructor; vm_compute; eauto.
  - repeat constructor; vm_compute; eauto.
Defined.

(** *** Time bounds of the upstream requests *)

Lemma fetchWithTimeout_settles {A : Type} (timeoutMs : Z) (x : exchange A) :
  exists t o, Weather.fetchWithTimeout timeoutMs x = SettlesAt t o /\ t <= timeoutMs.
Proof.
  unfold Weather.fetchWithTimeout.
  destruct (fetch_with_signal_settles timeoutMs x) as (t & o & -> & Ht).
  simpl. eauto.
Qed.

Lemma fetchSpotData_pending_iff h now spot x :
  Surf.fetchSpotData h now spot x = Pending <-> x = Silent.
Proof. unfold Surf.fetchSpotData. destruct x; simpl; split; congruence. Qed.

Lemma fetchEventbriteEvents_pending_iff source x :
  truthy (Events.apiKey source) = true ->
  (Events.fetchEventbriteEvents_timed source x = Pending <-> x = Silent).
Proof.
  intros Hkey. unfold Events.fetchEventbriteEvents_timed. rewrite Hkey.
  destruct x; simpl; split; congruence.
Qed.

(** C8 (as stated, refuted): when Surfline never answers,
    [fetchSpotData] never settles; neither does [fetchEventbriteEvents] when
    Eventbrite never answers. *)
Lemma C8_requests_without_timeout_counterexample :
  (exists spot, Surf.SURF_SPOTS !! 0%nat = Some spot
     /\ Surf.fetchSpotData Sample.host0 Sample.jan04 spot Silent = Pending)
  /\ (exists source, Events.EVENT_SOURCES Sample.hostKey !! 0%nat = Some source
     /\ Events.fetchEventbriteEvents_timed source Silent = Pending).
Proof. split; eexists; split; reflexivity. Qed.

(** C8 (amended): the requests of the weather service are bounded:
    [fetchWithTimeout] settles no later than [timeoutMs] (10 000 ms at every
    call), and with a rejection when the answer has not arrived by then. The
    requests of the surf and events adapters carry no timeout: they settle
    exactly when the upstream answers or the connection fails, then always
    with a value. *)
Theorem C8_only_weather_requests_are_bounded :
  (forall (A : Type) (x : exchange A),
      exists t o, Weather.fetchWithTimeout Weather.DEFAULT_TIMEOUT_MS x = SettlesAt t o
                  /\ t <= 10000)
  /\ (forall (A : Type) (timeoutMs : Z) (x : exchange A),
      exists t o, Weather.fetchWithTimeout timeoutMs x = SettlesAt t o /\ t <= timeoutMs)
  /\ (forall (A : Type) (timeoutMs : Z),
      Weather.fetchWithTimeout timeoutMs (@Silent A)
      = SettlesAt timeoutMs (Raised "AbortError"))
  /\ (forall (A : Type) (timeoutMs d : Z) (r : Response A),
      timeoutMs <= d ->
      Weather.fetchWithTimeout timeoutMs (Responds d r)
      = SettlesAt timeoutMs (Raised "AbortError"))
  /\ (forall h now spot x,
      (Surf.fetchSpotData h now spot x = Pending <-> x = Silent)
      /\ (forall t o, Surf.fetchSpotData h now spot x = SettlesAt t o ->
            exists v, o = Resolved v))
  /\ (forall source x,
      truthy (Events.apiKey source) = true ->
      (Events.fetchEventbriteEvents_timed source x = Pending <-> x = Silent)
      /\ (forall t o, Events.fetchEventbriteEvents_timed source x = SettlesAt t o ->
            exists v, o = Resolved v)).
Proof.
  split; [intros; apply fetchWithTimeout_settles |].
  split; [intros; apply fetchWithTimeout_settles |].
  split; [done |].
  split.
  { intros A timeoutMs d r Hd. unfold Weather.fetchWithTimeout. simpl.
    destruct (Z.ltb_spec d timeoutMs); [lia | done]. }
  split.
  - intros h now spot x. split; [apply fetchSpotData_pending_iff |].
    intros t o. unfold Surf.fetchSpotData. destruct x; simpl; [| |done];
      intros [= <- <-]; apply (proj1 (proj2 (proj2 adapters_resolve))).
  - intros source x Hkey. split; [by apply fetchEventbriteEvents_pending_iff |].
    intros t o. unfold Events.fetchEventbriteEvents_timed. rewrite Hkey.
    destruct x; simpl; [| |done]; intros [= <- <-];
      unfold Events.fetchEventbriteEvents_settled;
      absorbed.
Qed.

(** A run of C8: NOAA answers after 15 seconds. *)
Lemma C8_only_weather_requests_are_bounded_witness :
  Weather.fetchWithTimeout 10000
    (Responds 15000 (mkResponse true 200 "OK" (Resolved (Some (Weather.mkGridPoint "HFO" 153 144 "")))))
  = SettlesAt 10000 (Raised "AbortError").
Proof.
  apply (proj1 (proj2 (proj2 (proj2 C8_only_weather_requests_are_bounded)))). lia.
Defined.

(** *** Calls in flight *)

Lemma events_check_miss h t0 q (c : gmap string Events.CacheEntry) :
  c !! query_key q = None ->
  Events.getEvents_check h t0 (Events.qIsland q) (Events.qCategory q)
    (Events.qDaysAhead q) (Events.qLimit q) c = FanOut (enabled_event_sources h).
Proof. intros H. unfold Events.getEvents_check. fold (query_key q). by rewrite H. Qed.

Lemma events_check_after_settle h t1 t0 q evs (c : gmap string Events.CacheEntry) :
  t0 - t1 < 3600000 ->
  exists result,
    Events.getEvents_check h t0 (Events.qIsland q) (Events.qCategory q)
      (Events.qDaysAhead q) (Events.qLimit q)
      (Events.getEvents_resume h t1 (Events.qIsland q) (Events.qCategory q)
         (Events.qDaysAhead q) (Events.qLimit q) (Resolved evs) c).1 = Hit result.
Proof.
  intros Ht. unfold Events.getEvents_check, Events.getEvents_resume. simpl.
  rewrite lookup_insert_eq. simpl.
  destruct (Z.ltb_spec (t0 - t1) (Events.CACHE_TTL_MINUTES * 60 * 1000)) as [|Hge]; [eauto|].
  unfold Events.CACHE_TTL_MINUTES in Hge. lia.
Qed.

Lemma weather_check_miss t0 island (c : gmap string (Cache.CacheEntry Weather.WeatherData)) :
  c !! Weather.cacheKey island = None ->
  Weather.getWeatherData_check t0 island c = (c, FanOut (noaa_requests island)).
Proof.
  intros H. unfold Weather.getWeatherData_check. by rewrite (cache_get_absent _ _ _ H).
Qed.

(** C9 (as stated, refuted): two calls of [getEvents()] begin one after the
    other on an empty store, before either has completed: each starts its
    own fan-out, so every enabled source is invoked twice. The same for two
    calls of [getWeatherData("oahu")] and the NOAA grid-point request. *)
Lemma C9_two_calls_two_fanouts_counterexample :
  let q := Events.mkQuery None None 7 50 in
  let began :=
    (Events.run Sample.hostKey [Events.Call Sample.jan04 q; Events.Call (Sample.jan04 + 1) q] ∅).1 in
  let wbegan :=
    (Weather.run Sample.host0
       [Weather.Call Sample.jan04 "oahu"; Weather.Call (Sample.jan04 + 1) "oahu"] ∅).1 in
  concat (requests <$> began)
    = [ "Eventbrite Hawaii"; "Hawaii Tourism Authority"; "Honolulu Magazine Events";
        "Eventbrite Hawaii"; "Hawaii Tourism Authority"; "Honolulu Magazine Events" ]
  /\ concat (requests <$> wbegan) = [ "api.weather.gov/points"; "api.weather.gov/points" ].
Proof. split; vm_compute; reflexivity. Qed.

(** C9 (amended): the services do not coalesce calls. A call of [getEvents]
    or [getWeatherData] that finds no entry for its key starts its own
    fan-out, also when another call for the same key is still in flight: two
    calls begun before either completes make two fan-outs. Work is shared
    through the cache only: once a call of [getEvents] has completed and
    written its entry, a call for the same key begun less than an hour later
    is served from the cache and invokes no source. *)
Theorem C9_no_coalescing_of_calls_in_flight
    (h : Host) (t0 t0' t1 : Z) (q : Events.Query) (c : gmap string Events.CacheEntry)
    (island : string) (wc : gmap string (Cache.CacheEntry Weather.WeatherData))
    (Hc : c !! query_key q = None)
    (Hwc : wc !! Weather.cacheKey island = None) :
  (Events.run h [Events.Call t0 q; Events.Call t0' q] c).1
    = [FanOut (enabled_event_sources h); FanOut (enabled_event_sources h)]
  /\ (Weather.run h [Weather.Call t0 island; Weather.Call t0' island] wc).1
      = [FanOut (noaa_requests island); FanOut (noaa_requests island)]
  /\ (forall evs, t0' - t1 < 3600000 ->
        exists result,
          (Events.run h [Events.Call t0 q; Events.Settle t1 q (Resolved evs); Events.Call t0' q] c).1
          = [FanOut (enabled_event_sources h); Hit result]).
Proof.
  split; [|split].
  - simpl. by rewrite (events_check_miss h t0 q c Hc), (events_check_miss h t0' q c Hc).
  - simpl. by rewrite !(weather_check_miss _ island wc Hwc).
  - intros evs Ht.
    destruct (events_check_after_settle h t1 t0' q evs c Ht) as [result Hr].
    exists result. cbn [Events.run fst]. rewrite (events_check_miss h t0 q c Hc).
    cbn [Events.run fst]. by rewrite Hr.
Qed.

(** A run of C9: two calls on empty stores, one millisecond apart. *)
Lemma C9_no_coalescing_of_calls_in_flight_witness :
  let q := Events.mkQuery None None 7 50 in
  (Events.run Sample.hostKey [Events.Call Sample.jan04 q; Events.Call (Sample.jan04 + 1) q] ∅).1
  = [FanOut (enabled_event_sources Sample.hostKey); FanOut (enabled_event_sources Sample.hostKey)].
Proof.
  intros q.
  assert (Hc : (∅ : gmap string Events.CacheEntry) !! query_key q = None)
    by (vm_compute; reflexivity).
  assert (Hwc : (∅ : gmap string (Cache.CacheEntry Weather.WeatherData))
                  !! Weather.cacheKey "oahu" = None)
    by (vm_compute; reflexivity).
  apply (proj1 (C9_no_coalescing_of_calls_in_flight Sample.hostKey Sample.jan04
                  (Sample.jan04 + 1) (Sample.jan04 + 2) q ∅ "oahu" ∅ Hc Hwc)).
Defined.

(** *** Forecast days *)

Lemma parseForecastPeriod_high_above_low h now dayPeriod nightPeriod :
  numeric dayPeriod -> numeric nightPeriod ->
  high_above_low (Weather.parseForecastPeriod h now dayPeriod nightPeriod).
Proof.
  unfold high_above_low, Weather.parseForecastPeriod, Weather.extractTemperature.
  destruct dayPeriod as [day|]; cbn [numeric]; [|intros _ _; cbn; discriminate].
  intros [high ->] Hnight.
  assert (Hpair : forall a b : option Q, is_Some a -> is_Some b ->
            match Math_max a b, Math_min a b with
            | Some high, Some low => (low <= high)%Q
            | _, _ => False
            end).
  { intros a b [x ->] [y ->]. cbn. eapply Qle_trans; [apply Q.le_min_l | apply Q.le_max_l]. }
  cbn [Weather.high Weather.low]. apply Hpair.
  - destruct (String.eqb _ "F"); cbn; eauto.
  - destruct nightPeriod as [night|]; cbn [numeric] in Hnight.
    + destruct Hnight as [low ->]. destruct (String.eqb _ "F"); cbn; eauto.
    + destruct (String.eqb _ "F"); cbn; eauto.
Qed.

Lemma period_at_numeric periods i :
  Forall numeric periods -> numeric (Weather.period_at periods i).
Proof.
  intros Hall. unfold Weather.period_at.
  destruct (periods !! i) as [period|] eqn:Hi; [|done].
  rewrite Forall_forall in Hall. apply Hall. by eapply list_elem_of_lookup_2.
Qed.

Lemma parseForecast_high_above_low h now periods :
  Forall numeric periods ->
  Forall high_above_low (forecast_days (Weather.parseForecast h now (Some periods))).
Proof.
  intros Hall. unfold forecast_days, Weather.parseForecast.
  cbn [Weather.today Weather.tomorrow Weather.extended default id].
  do 2 (apply Forall_cons; split;
        [apply parseForecastPeriod_high_above_low; by apply period_at_numeric |]).
  apply Forall_flat_map, Forall_forall. intros i _.
  destruct (i <? _)%nat; [|constructor].
  destruct (Weather.period_at _ i) eqn:Hi; [|constructor].
  apply Forall_singleton, parseForecastPeriod_high_above_low;
    [rewrite <- Hi|]; by apply period_at_numeric.
Qed.

Lemma getDefaultForecast_high_above_low h now :
  Forall high_above_low (forecast_days (Weather.getDefaultForecast h now)).
Proof. repeat constructor; unfold high_above_low; simpl; discriminate. Qed.

Lemma fetchNOAAWeather_high_above_low h now noaa w :
  Forall numeric (forecast_periods noaa) ->
  Weather.fetchNOAAWeather h now noaa = Resolved w ->
  Forall high_above_low (forecast_days (Weather.forecast w)).
Proof.
  unfold Weather.fetchNOAAWeather, forecast_periods. intros Hnum.
  destruct (Weather.fetchWithTimeout_settled (Weather.points noaa)) as [[gp|]|]; simpl;
    try discriminate.
  destruct (match Weather.fulfilled_or_null (Weather.fetchWithTimeout_settled (Weather.gridpoints noaa))
            with Some parsed => parsed | None => Resolved Weather.getDefaultCurrent end);
    simpl; try discriminate.
  destruct (match Weather.fulfilled_or_null (Weather.fetchWithTimeout_settled (Weather.alertsResp noaa))
            with Some parsed => parsed | None => Resolved [] end);
    simpl; try discriminate.
  intros [= <-]. cbn [Weather.forecast].
  unfold Weather.fetchWithTimeout_settled.
  destruct (Weather.forecastResp noaa) as [response|e]; cbn [bind Weather.fulfilled_or_null];
    [|apply getDefaultForecast_high_above_low].
  destruct (ok response); cbn [Weather.fulfilled_or_null];
    [|apply getDefaultForecast_high_above_low].
  destruct (json response) as [[[periods|]|]|e]; cbn [Weather.fulfilled_or_null];
    [by apply parseForecast_high_above_low | | apply getDefaultForecast_high_above_low
     | apply getDefaultForecast_high_above_low].
  apply (parseForecast_high_above_low h now []). constructor.
Qed.

(** C10 (the code at the failing input): a forecast period without a
    [temperature] (unit F, no night period) is parsed into a day whose [high]
    and [low] are both NaN, so that [high >= low] is false; [getWeatherData]
    returns and caches such a day when NOAA's forecast answer has one. The
    code does keep [high >= low] wherever the temperatures are numbers: for
    every day [parseForecastPeriod] builds from numeric periods (inverted or
    not, with or without a night period), for every day of [parseForecast]
    and of what [fetchNOAAWeather] resolves to on such periods, and for the
    static default days. *)
Theorem C10_period_without_temperature_gives_NaN :
  (let d := Weather.parseForecastPeriod Sample.host0 Sample.jan04
              (Some (Weather.mkPeriod None "F" (Some "2025-01-04T06:00:00-10:00")
                       (Some "Sunny")))
              None in
   Weather.high d = None /\ Weather.low d = None /\ ~ high_above_low d)
  /\ (exists w,
        Weather.getWeatherData Sample.host0 Sample.jan04 (Sample.jan04 + 800) "oahu"
          Sample.noaaNoTemperature ∅
        = (Cache.set (Sample.jan04 + 800) "weather-oahu" w 15 ∅, Resolved w)
        /\ Weather.high (Weather.today (Weather.forecast w)) = None
        /\ ~ high_above_low (Weather.today (Weather.forecast w)))
  /\ (forall h now dayPeriod nightPeriod,
        numeric dayPeriod -> numeric nightPeriod ->
        high_above_low (Weather.parseForecastPeriod h now dayPeriod nightPeriod))
  /\ (forall h now periods,
        Forall numeric periods ->
        Forall high_above_low (forecast_days (Weather.parseForecast h now (Some periods))))
  /\ (forall h now,
        high_above_low (Weather.getDefaultForecastDay h now)
        /\ Forall high_above_low (forecast_days (Weather.getDefaultForecast h now))
        /\ Forall high_above_low
             (forecast_days (Weather.forecast (Weather.getFallbackWeatherData h now))))
  /\ (forall h now noaa,
        Forall numeric (forecast_periods noaa) ->
        match Weather.fetchNOAAWeather h now noaa with
        | Resolved w => Forall high_above_low (forecast_days (Weather.forecast w))
        | Raised _ => True
        end)
  /\ (forall h now,
        let d := Weather.parseForecastPeriod h now
                   (Some (Weather.mkPeriod (Some 70%Q) "F" None None))
                   (Some (Weather.mkPeriod (Some 80%Q) "F" None None)) in
        Weather.high d = Some 80%Q /\ Weather.low d = Some 70%Q).
Proof.
  split; [cbv zeta; split; [reflexivity | split; [reflexivity | intros []]] |].
  split.
  { eexists. split; [vm_compute; reflexivity |]. split; [reflexivity | intros []]. }
  split; [apply parseForecastPeriod_high_above_low |].
  split; [apply parseForecast_high_above_low |].
  split.
  { intros h now. split; [unfold high_above_low; simpl; discriminate |].
    split; apply getDefaultForecast_high_above_low. }
  split.
  - intros h now noaa Hnum.
    destruct (Weather.fetchNOAAWeather h now noaa) eqn:Hw; [|done].
    by eapply fetchNOAAWeather_high_above_low.
  - intros h now. split; reflexivity.
Qed.

(** * Further properties of the services *)

(** ** The [Cache] class *)

Lemma cache_get_store_lookup {T : Type} (c : gmap string (Cache.CacheEntry T)) now key key' :
  key' <> key -> (Cache.get now key c).1 !! key' = c !! key'.
Proof.
  intros Hne. unfold Cache.get. destruct (c !! key) as [e|]; [|done].
  destruct (_ >? _); simpl; [by rewrite lookup_delete_ne | done].
Qed.

Lemma cache_get_none_absent {T : Type} (c : gmap string (Cache.CacheEntry T)) now key :
  (Cache.get now key c).2 = None -> (Cache.get now key c).1 !! key = None.
Proof.
  unfold Cache.get. destruct (c !! key) as [e|] eqn:He; [|done].
  destruct (_ >? _); simpl; [intros _; apply lookup_delete_eq | discriminate].
Qed.

(** X1: a value written with [set] is read back by [get] under the same key
    for as long as [now - written <= ttlMinutes * 60000], and the read leaves
    the store as it is; a write never changes what [get] returns for another
    key; and a second write under the same key replaces the first. *)
Theorem X1_cache_set_then_get {T : Type} (c : gmap string (Cache.CacheEntry T))
    (t now : Z) (key : string) (d : T) (ttlMinutes : Z)
    (Hfresh : now - t <= ttlMinutes * 60 * 1000) :
  Cache.get now key (Cache.set t key d ttlMinutes c)
    = (Cache.set t key d ttlMinutes c, Some d)
  /\ (forall key', key' <> key ->
        (Cache.get now key' (Cache.set t key d ttlMinutes c)).2 = (Cache.get now key' c).2)
  /\ (forall t' d' m', Cache.set t key d ttlMinutes (Cache.set t' key d' m' c)
                       = Cache.set t key d ttlMinutes c).
Proof.
  split; [|split].
  - apply (cache_get_live _ _ _ (Cache.mkEntry d t (ttlMinutes * 60 * 1000)));
      [apply lookup_insert_eq | done].
  - intros key' Hne. unfold Cache.get, Cache.set. rewrite lookup_insert_ne by done.
    destruct (c !! key'); [|done]. by destruct (_ >? _).
  - intros t' d' m'. unfold Cache.set. apply insert_insert_eq.
Qed.

(** A run of X1: a report written at time 0 and read ten minutes later. *)
Lemma X1_cache_set_then_get_witness :
  (Cache.get 600000 "weather-maui"
     (Cache.set 0 "weather-maui" Sample.staleWeather 15
        (∅ : gmap string (Cache.CacheEntry Weather.WeatherData)))).2
  = Some Sample.staleWeather.
Proof.
  assert (H : 600000 - 0 <= 15 * 60 * 1000) by lia.
  exact (f_equal snd (proj1 (X1_cache_set_then_get ∅ 0 600000 "weather-maui"
                               Sample.staleWeather 15 H))).
Defined.

(** X2: a read touches no other key: after [get(key)] every other key holds
    what it held before; whenever [get] returns [null] for a key, the key has
    no entry afterwards; reading twice at the same instant gives the same
    answer and the same store as reading once; and after [clear] every read
    returns [null]. *)
Theorem X2_cache_get_is_local_and_idempotent {T : Type}
    (c : gmap string (Cache.CacheEntry T)) (now : Z) (key : string) :
  (forall key', key' <> key -> (Cache.get now key c).1 !! key' = c !! key')
  /\ ((Cache.get now key c).2 = None -> (Cache.get now key c).1 !! key = None)
  /\ Cache.get now key (Cache.get now key c).1 = Cache.get now key c
  /\ Cache.get now key (Cache.clear c) = (∅, None).
Proof.
  split; [intros; by apply cache_get_store_lookup |].
  split; [apply cache_get_none_absent |].
  split; [|done].
  unfold Cache.get at 2 3. destruct (c !! key) as [e|] eqn:He.
  - destruct (Z.gtb_spec (now - Cache.timestamp e) (Cache.ttl e)) as [Hgt|Hle]; simpl.
    + apply cache_get_absent, lookup_delete_eq.
    + by apply cache_get_live.
  - by apply cache_get_absent.
Qed.

(** ** The weather service *)

Lemma weather_get_hit t h t1 island noaa (c : gmap string (Cache.CacheEntry Weather.WeatherData)) e :
  c !! Weather.cacheKey island = Some e ->
  t - Cache.timestamp e <= Cache.ttl e ->
  Weather.getWeatherData h t t1 island noaa c = (c, Resolved (Cache.data e)).
Proof.
  intros He Hle. unfold Weather.getWeatherData, Weather.getWeatherData_check.
  by rewrite (cache_get_live _ _ _ _ He Hle).
Qed.

(** X3: when a call of [getWeatherData] misses the cache and its refresh
    succeeds, the report is returned and cached, and every call for the same
    island begun at most 15 minutes after the refresh returns the same
    report and changes nothing, whatever NOAA would answer then. *)
Theorem X3_weather_refresh_is_cached (h : Host) (t0 t1 : Z) (island : string)
    (noaa : Weather.Noaa) (c : gmap string (Cache.CacheEntry Weather.WeatherData))
    (w : Weather.WeatherData)
    (Hmiss : (Cache.get t0 (Weather.cacheKey island) c).2 = None)
    (Hisland : is_Some (Weather.coordinates_of island))
    (Hfetch : Weather.fetchNOAAWeather h t1 noaa = Resolved w) :
  let r := Weather.getWeatherData h t0 t1 island noaa c in
  r.2 = Resolved w
  /\ forall t t1' noaa', t - t1 <= 15 * 60 * 1000 ->
       Weather.getWeatherData h t t1' island noaa' r.1 = (r.1, Resolved w).
Proof.
  destruct Hisland as [xy Hxy].
  assert (Hr : Weather.getWeatherData h t0 t1 island noaa c
               = (Cache.set t1 (Weather.cacheKey island) w Weather.CACHE_TTL_MINUTES
                    (Cache.get t0 (Weather.cacheKey island) c).1, Resolved w)).
  { unfold Weather.getWeatherData, Weather.getWeatherData_check.
    destruct (Cache.get t0 (Weather.cacheKey island) c) as [c1 [d|]]; [discriminate Hmiss|].
    rewrite Hxy, Hfetch. reflexivity. }
  intros r. subst r. rewrite Hr. split; [done|].
  intros t t1' noaa' Ht.
  apply (weather_get_hit t h t1' island noaa' _
           (Cache.mkEntry w t1 (Weather.CACHE_TTL_MINUTES * 60 * 1000)));
    [apply lookup_insert_eq | exact Ht].
Qed.

(** X4: the weather fallback is never cached. When a call misses the cache
    and its refresh fails, the static fallback is returned and the store has
    no entry for the island afterwards, so the next call, whenever it comes,
    starts a new refresh. *)
Theorem X4_weather_fallback_is_not_cached (h : Host) (t0 t1 : Z) (island : string)
    (noaa : Weather.Noaa) (c : gmap string (Cache.CacheEntry Weather.WeatherData))
    (e : string)
    (Hmiss : (Cache.get t0 (Weather.cacheKey island) c).2 = None)
    (Hisland : is_Some (Weather.coordinates_of island))
    (Hfetch : Weather.fetchNOAAWeather h t1 noaa = Raised e) :
  let r := Weather.getWeatherData h t0 t1 island noaa c in
  r.2 = Resolved (Weather.getFallbackWeatherData h t1)
  /\ r.1 !! Weather.cacheKey island = None
  /\ forall t, Weather.getWeatherData_check t island r.1 = (r.1, FanOut (noaa_requests island)).
Proof.
  destruct Hisland as [xy Hxy].
  pose proof (cache_get_none_absent c t0 (Weather.cacheKey island) Hmiss) as Habs.
  assert (Hr : Weather.getWeatherData h t0 t1 island noaa c
               = ((Cache.get t0 (Weather.cacheKey island) c).1,
                  Resolved (Weather.getFallbackWeatherData h t1))).
  { unfold Weather.getWeatherData, Weather.getWeatherData_check.
    destruct (Cache.get t0 (Weather.cacheKey island) c) as [c1 [d|]]; [discriminate Hmiss|].
    rewrite Hxy, Hfetch. reflexivity. }
  intros r. subst r. rewrite Hr. split; [done|]. split; [done|].
  intros t. by apply weather_check_miss.
Qed.


(** A run of X3: only the grid-point request succeeds; the report built from
    the defaults is cached and served a minute later. *)
Lemma X3_weather_refresh_is_cached_witness :
  let noaa := Weather.mkNoaa
                (Resolved (mkResponse true 200 "OK"
                             (Resolved (Some (Weather.mkGridPoint "HFO" 153 144 "")))))
                (Raised "AbortError") (Raised "AbortError") (Raised "AbortError") in
  let r := Weather.getWeatherData Sample.host0 Sample.jan04 (Sample.jan04 + 800) "oahu" noaa ∅ in
  exists w, r.2 = Resolved w
    /\ Weather.getWeatherData Sample.host0 (Sample.jan04 + 60000) (Sample.jan04 + 60800)
         "oahu" Sample.noaaDown r.1 = (r.1, Resolved w).
Proof.
  intros noaa r. eexists.
  assert (Hmiss : (Cache.get Sample.jan04 (Weather.cacheKey "oahu")
                     (∅ : gmap string (Cache.CacheEntry Weather.WeatherData))).2 = None)
    by reflexivity.
  assert (Hisland : is_Some (Weather.coordinates_of "oahu")) by (vm_compute; eauto).
  assert (Hfetch : Weather.fetchNOAAWeather Sample.host0 (Sample.jan04 + 800) noaa
                   = Resolved _) by reflexivity.
  pose proof (X3_weather_refresh_is_cached Sample.host0 Sample.jan04 (Sample.jan04 + 800)
                "oahu" noaa ∅ _ Hmiss Hisland Hfetch) as [H1 H2].
  split; [exact H1 |]. apply H2. lia.
Defined.

(** A run of X4: NOAA is down. *)
Lemma X4_weather_fallback_is_not_cached_witness :
  (Weather.getWeatherData Sample.host0 Sample.jan04 (Sample.jan04 + 800) "oahu"
     Sample.noaaDown ∅).1 !! Weather.cacheKey "oahu" = None.
Proof.
  assert (Hmiss : (Cache.get Sample.jan04 (Weather.cacheKey "oahu")
                     (∅ : gmap string (Cache.CacheEntry Weather.WeatherData))).2 = None)
    by reflexivity.
  assert (Hisland : is_Some (Weather.coordinates_of "oahu")) by (vm_compute; eauto).
  assert (Hfetch : Weather.fetchNOAAWeather Sample.host0 (Sample.jan04 + 800) Sample.noaaDown
                   = Raised "ECONNREFUSED") by reflexivity.
  exact (proj1 (proj2 (X4_weather_fallback_is_not_cached Sample.host0 Sample.jan04
                         (Sample.jan04 + 800) "oahu" Sample.noaaDown ∅ "ECONNREFUSED"
                         Hmiss Hisland Hfetch))).
Defined.

Lemma period_at_take periods i :
  (i < 14)%nat -> Weather.period_at (take 14 periods) i = Weather.period_at periods i.
Proof. intros Hi. unfold Weather.period_at. by rewrite lookup_take_lt. Qed.

(** X6: [parseForecast] reads the first fourteen periods only, and the
    extended forecast never has more than five days: dropping every period
    after the fourteenth changes nothing. *)
Theorem X6_parseForecast_reads_fourteen_periods (h : Host) (now : Z)
    (periods : list (option Weather.Period)) :
  Weather.parseForecast h now (Some periods)
    = Weather.parseForecast h now (Some (take 14 periods))
  /\ (length (Weather.extended (Weather.parseForecast h now (Some periods))) <= 5)%nat.
Proof.
  split.
  - unfold Weather.parseForecast. cbn [default from_option id flat_map].
    rewrite length_take.
    replace ((14 `min` length periods) `min` 14)%nat with (length periods `min` 14)%nat by lia.
    rewrite !period_at_take by lia. reflexivity.
  - unfold Weather.parseForecast. cbn [default from_option id Weather.extended flat_map].
    rewrite !length_app.
    repeat match goal with
           | |- context [if ?b then _ else _] => destruct b
           | |- context [match Weather.period_at ?l ?i with _ => _ end] =>
               destruct (Weather.period_at l i)
           end; simpl; lia.
Qed.

Lemma round_add_Z (x : Q) (n : Z) : round (x + inject_Z n)%Q = round x + n.
Proof.
  unfold round.
  assert (Hx : (x + inject_Z n + (1 # 2) == (x + (1 # 2)) + inject_Z n)%Q) by ring.
  rewrite Hx. clear Hx. set (y := (x + (1 # 2))%Q).
  pose proof (Qfloor_le y) as Hlo. pose proof (Qlt_floor y) as Hhi.
  pose proof (Qfloor_le (y + inject_Z n)) as Hlo'.
  pose proof (Qlt_floor (y + inject_Z n)) as Hhi'.
  rewrite inject_Z_plus in Hhi, Hhi'.
  assert (H1 : (inject_Z (Qfloor (y + inject_Z n)) < inject_Z (Qfloor y + n + 1))%Q).
  { rewrite !inject_Z_plus. lra. }
  assert (H2 : (inject_Z (Qfloor y + n) < inject_Z (Qfloor (y + inject_Z n) + 1))%Q).
  { rewrite !inject_Z_plus. lra. }
  rewrite <- Zlt_Qlt in H1, H2. lia.
Qed.

Lemma round_nonneg (x : Q) : (0 <= x)%Q -> 0 <= round x.
Proof.
  intros Hx. unfold round.
  change 0 with (Qfloor 0). apply Qfloor_resp_le. lra.
Qed.

(** X7: for every direction of zero degrees or more [degreesToCardinal]
    names one of the sixteen compass points, and a full turn more names the
    same one: 360 degrees is N again. Below zero it can fail: -45 degrees
    reads [directions[-2]], which is [undefined]. *)
Theorem X7_degreesToCardinal_on_the_compass (degrees : Q) (Hpos : (0 <= degrees)%Q) :
  (exists direction, Weather.degreesToCardinal degrees = Some direction
                     /\ direction ∈ Weather.directions)
  /\ Weather.degreesToCardinal (degrees + 360) = Weather.degreesToCardinal degrees
  /\ Weather.degreesToCardinal 360 = Some "N"
  /\ Weather.degreesToCardinal (-45) = None.
Proof.
  assert (Hr : 0 <= round (degrees / 22.5)%Q).
  { apply round_nonneg. apply Qle_shift_div_l; [reflexivity | lra]. }
  split; [|split; [|split; reflexivity]].
  - unfold Weather.degreesToCardinal.
    pose proof (Z.rem_bound_pos _ 16 Hr ltac:(lia)) as Hb.
    destruct (Z.ltb_spec (Z.rem (round (degrees / 22.5)%Q) 16) 0) as [|_]; [lia|].
    destruct (Weather.directions !! Z.to_nat (Z.rem (round (degrees / 22.5)%Q) 16))
      as [d|] eqn:Hd.
    + exists d. split; [done|]. by eapply list_elem_of_lookup_2.
    + apply lookup_ge_None in Hd. simpl in Hd. lia.
  - unfold Weather.degreesToCardinal.
    assert (Hq : ((degrees + 360) / 22.5 == degrees / 22.5 + inject_Z 16)%Q).
    { field. }
    assert (Hround : round ((degrees + 360) / 22.5)%Q = round (degrees / 22.5)%Q + 16).
    { unfold round at 1. rewrite (Qfloor_comp _ (degrees / 22.5 + inject_Z 16 + (1 # 2))%Q)
        by (rewrite Hq; reflexivity).
      apply round_add_Z. }
    rewrite Hround.
    replace (round (degrees / 22.5)%Q + 16) with (round (degrees / 22.5)%Q + 1 * 16) by lia.
    rewrite Z.rem_add; [done | lia | nia].
Qed.

(** A run of X7: a trade wind from 45 degrees, and from 405. *)
Lemma X7_degreesToCardinal_on_the_compass_witness :
  Weather.degreesToCardinal (45 + 360) = Weather.degreesToCardinal 45.
Proof.
  assert (H : (0 <= 45)%Q) by (vm_compute; discriminate).
  exact (proj1 (proj2 (X7_degreesToCardinal_on_the_compass 45 H))).
Defined.

(** ** Lists through filter, sort and slice *)

Lemma List_filter_sublist {A : Type} (p : A -> bool) (l : list A) :
  List.filter p l `sublist_of` l.
Proof.
  induction l as [|x l IH]; simpl; [done|].
  destruct (p x); [by apply sublist_skip | by apply sublist_cons].
Qed.

Lemma slice0_sublist {A : Type} (limit : Z) (l : list A) : slice0 limit l `sublist_of` l.
Proof. unfold slice0. destruct (limit <? 0); apply sublist_take. Qed.

Lemma slice0_length {A : Type} (limit : Z) (l : list A) :
  0 <= limit -> Z.of_nat (length (slice0 limit l)) <= limit.
Proof.
  intros Hl. unfold slice0. destruct (Z.ltb_spec limit 0); [lia|].
  rewrite length_take. lia.
Qed.

Lemma slice0_elem_of {A : Type} (limit : Z) (l : list A) (x : A) :
  x ∈ slice0 limit l -> x ∈ l.
Proof. intros Hx. eapply elem_of_sublist; [exact Hx | apply slice0_sublist]. Qed.

Lemma sort_elem_of {A : Type} (cmp : A -> A -> comparison) (l : list A) (x : A) :
  x ∈ sort cmp l <-> x ∈ l.
Proof. by rewrite (sort_perm cmp l). Qed.

Lemma sort_NoDup_keys {A : Type} (cmp : A -> A -> comparison) (key : A -> string) (l : list A) :
  NoDup (key <$> l) -> NoDup (key <$> sort cmp l).
Proof. by rewrite (sort_perm cmp l). Qed.

Lemma sublist_NoDup_keys {A : Type} (key : A -> string) (l1 l2 : list A) :
  l1 `sublist_of` l2 -> NoDup (key <$> l2) -> NoDup (key <$> l1).
Proof. intros Hs Hnd. eapply sublist_NoDup; [exact Hnd | by apply fmap_sublist]. Qed.

Lemma foldl_push_unseen_elem {A : Type} (key : A -> string) (l : list A) acc x :
  x ∈ (foldl (push_unseen key) acc l).2 -> x ∈ acc.2 \/ x ∈ l.
Proof.
  revert acc. induction l as [|y l IH]; intros acc Hx; simpl in Hx; [by left|].
  apply IH in Hx as [Hx|Hx]; [|right; by apply elem_of_cons; right].
  unfold push_unseen in Hx. case_bool_decide; [by left|].
  simpl in Hx. apply elem_of_app in Hx as [Hx|Hx]; [by left|].
  apply list_elem_of_singleton in Hx as ->. right. by apply elem_of_cons; left.
Qed.

Lemma foldl_push_result_elem {A : Type} (key : A -> string)
    (results : list (outcome (list A))) acc x :
  x ∈ (foldl (push_result key) acc results).2 ->
  x ∈ acc.2 \/ exists v, Resolved v ∈ results /\ x ∈ v.
Proof.
  revert acc. induction results as [|r results IH]; intros acc Hx; simpl in Hx; [by left|].
  apply IH in Hx as [Hx|(v & Hv & Hx)].
  - destruct r as [v|e]; simpl in Hx; [|by left].
    apply foldl_push_unseen_elem in Hx as [Hx|Hx]; [by left|].
    right. exists v. split; [by apply elem_of_cons; left | done].
  - right. exists v. split; [by apply elem_of_cons; right | done].
Qed.

(** Every record of the merged list comes from a fulfilled result. *)
Lemma collect_unique_elem {A : Type} (key : A -> string)
    (results : list (outcome (list A))) x :
  x ∈ collect_unique key results -> exists v, Resolved v ∈ results /\ x ∈ v.
Proof.
  intros Hx. apply foldl_push_result_elem in Hx as [Hx|Hx]; [|done].
  by apply elem_of_nil in Hx.
Qed.

(** ** The news service *)

Lemma Qle_0_cond_add (b : bool) (s d : Q) :
  (0 <= s)%Q -> (0 <= d)%Q -> (0 <= (if b then s + d else s))%Q.
Proof.
  intros Hs Hd. destruct b; [|done].
  change 0%Q with (0 + 0)%Q. by apply Qplus_le_compat.
Qed.

Lemma Qmin_cap_bounds (s : Q) : (0 <= s)%Q -> (0 <= Qmin s 1.0 <= 1)%Q.
Proof.
  intros Hs. split.
  - apply Q.min_glb; [done | discriminate].
  - eapply Qle_trans; [apply Q.le_min_r | discriminate].
Qed.

Lemma relevance_fold_bounds (text : string) (keywords : list string) (score : Q) :
  (0 <= score)%Q ->
  (0 <= foldl (fun score keyword => if includes text keyword then (score + 0.1)%Q else score)
          score keywords)%Q.
Proof.
  revert score. induction keywords as [|k keywords IH]; intros score Hs; [done|].
  cbn [foldl]. apply IH. apply Qle_0_cond_add; [done | discriminate].
Qed.

(** X8: the relevance score of an article lies between 0 and 1, however many
    keywords its title and content hold. *)
Theorem X8_relevance_score_bounds (title content : string) :
  (0 <= News.calculateRelevanceScore title content <= 1)%Q.
Proof.
  unfold News.calculateRelevanceScore. cbv zeta.
  apply Qmin_cap_bounds.
  apply Qle_0_cond_add; [|discriminate].
  apply Qle_0_cond_add; [|discriminate].
  apply Qle_0_cond_add; [|discriminate].
  apply relevance_fold_bounds. discriminate.
Qed.

Lemma news_fetched_from_enabled_feed up feeds (a : News.NewsArticle) articles :
  News.fetchAllFeeds up feeds = Resolved articles -> a ∈ articles ->
  exists feed v, feed ∈ feeds /\ News.enabled feed = true
                 /\ up (News.url feed) = Resolved v /\ a ∈ v.
Proof.
  unfold News.fetchAllFeeds, News.dedupArticles. intros [= <-] Ha.
  apply collect_unique_elem in Ha as (v & Hv & Ha).
  apply list_elem_of_fmap in Hv as (feed & Hv & Hfeed).
  apply list_elem_of_filter in Hfeed as [Hen Hfeed].
  exists feed. unfold News.fetchFeed in Hv.
  destruct (up (News.url feed)) as [v'|e] eqn:Hup; simpl in Hv.
  - injection Hv as ->. by exists v'.
  - injection Hv as ->. by apply elem_of_nil in Ha.
Qed.

(** X9: the list a refresh of [getLatestNews] returns and caches has at
    most [limit] articles (for a limit of zero or more), no two with the same
    [originalUrl]; each has the requested category when one is given, and each
    was delivered by an enabled feed whose fetch succeeded. *)
Theorem X9_latest_news_result (h : Host) (t1 : Z) (category : option string) (limit : Z)
    (up : News.Feeds) (s : News.NewsService) (Hlimit : 0 <= limit) :
  exists result,
    (news_refresh h t1 category limit up s).2 = Resolved result
    /\ News.cache (news_refresh h t1 category limit up s).1 !! News.cacheKey category limit
       = Some (News.mkEntry result t1)
    /\ Z.of_nat (length result) <= limit
    /\ NoDup (News.originalUrl <$> result)
    /\ forall a, a ∈ result ->
         (truthy category = true -> Some (News.category a) = category)
         /\ exists feed v, feed ∈ News.RSS_FEEDS s /\ News.enabled feed = true
                           /\ up (News.url feed) = Resolved v /\ a ∈ v.
Proof.
  unfold news_refresh.
  destruct (News.fetchAllFeeds up (News.RSS_FEEDS s)) as [articles|e] eqn:Hf;
    [|discriminate Hf].
  assert (Hnd : NoDup (News.originalUrl <$> articles)).
  { unfold News.fetchAllFeeds in Hf. injection Hf as <-. apply collect_unique_NoDup. }
  unfold News.getLatestNews_resume. eexists. split; [reflexivity|].
  split; [simpl; apply lookup_insert_eq |].
  split; [by apply slice0_length |]. split.
  - eapply sublist_NoDup_keys; [apply slice0_sublist|]. apply sort_NoDup_keys.
    destruct (truthy category); [|done].
    eapply sublist_NoDup_keys; [apply sublist_filter | done].
  - intros a Ha. apply slice0_elem_of, sort_elem_of in Ha as Ha'.
    destruct (truthy category) eqn:Hc.
    + apply list_elem_of_filter in Ha' as [Hcat Ha']. split; [done|].
      by eapply news_fetched_from_enabled_feed.
    + split; [discriminate|]. by eapply news_fetched_from_enabled_feed.
Qed.

Lemma X9_latest_news_result_witness :
  0 <= 20
  /\ exists result,
       (news_refresh Sample.host0 Sample.jan04 None 20 Sample.feedsDown News.newsService).2
       = Resolved result
       /\ Z.of_nat (length result) <= 20.
Proof.
  assert (H : 0 <= 20) by lia.
  split; [exact H|].
  destruct (X9_latest_news_result Sample.host0 Sample.jan04 None 20 Sample.feedsDown
              News.newsService H) as (result & Hr & _ & Hlen & _).
  exists result. split; [exact Hr | exact Hlen].
Defined.

(** ** The feed table *)

Lemma enabled_urls_cons (feed : News.RSSFeed) (feeds : list News.RSSFeed) :
  News.url <$> filter (fun feed => News.enabled feed = true) (feed :: feeds)
  = if News.enabled feed
    then News.url feed :: (News.url <$> filter (fun feed => News.enabled feed = true) feeds)
    else News.url <$> filter (fun feed => News.enabled feed = true) feeds.
Proof.
  destruct (News.enabled feed) eqn:He.
  - by rewrite filter_cons_True.
  - rewrite filter_cons_False; [done|]. by rewrite He.
Qed.

Lemma enabled_urls_sub (feeds : list News.RSSFeed) (u : string) :
  u ∈ News.url <$> filter (fun feed => News.enabled feed = true) feeds ->
  u ∈ News.url <$> feeds.
Proof.
  intros Hu. apply list_elem_of_fmap in Hu as (feed & -> & Hfeed).
  apply list_elem_of_filter in Hfeed as [_ Hfeed].
  apply list_elem_of_fmap. by exists feed.
Qed.

Lemma existsb_url (feedUrl : string) (feeds : list News.RSSFeed) :
  existsb (fun f => String.eqb (News.url f) feedUrl) feeds = true
  <-> feedUrl ∈ News.url <$> feeds.
Proof.
  rewrite existsb_exists, list_elem_of_fmap. split.
  - intros (f & Hf & He). apply String.eqb_eq in He. exists f.
    split; [done | by apply list_elem_of_In].
  - intros (f & -> & Hf). exists f. split; [by apply list_elem_of_In | apply String.eqb_refl].
Qed.

Lemma set_first_enabled_urls (feedUrl : string) (on : bool) (feeds : list News.RSSFeed) :
  News.url <$> News.set_first_enabled feedUrl on feeds = News.url <$> feeds.
Proof.
  induction feeds as [|feed feeds IH]; [done|]. cbn [News.set_first_enabled].
  destruct (String.eqb (News.url feed) feedUrl); [done|].
  rewrite !fmap_cons. by rewrite IH.
Qed.

Lemma set_first_enabled_other (feedUrl : string) (on : bool) (feeds : list News.RSSFeed)
    (u : string) :
  u <> feedUrl ->
  u ∈ News.url <$> filter (fun feed => News.enabled feed = true)
                     (News.set_first_enabled feedUrl on feeds)
  <-> u ∈ News.url <$> filter (fun feed => News.enabled feed = true) feeds.
Proof.
  intros Hu. induction feeds as [|feed feeds IH]; [done|]. cbn [News.set_first_enabled].
  destruct (String.eqb_spec (News.url feed) feedUrl) as [He|He].
  - rewrite !enabled_urls_cons. cbn [News.enabled News.url].
    destruct on; destruct (News.enabled feed); rewrite ?elem_of_cons; intuition congruence.
  - rewrite !enabled_urls_cons.
    destruct (News.enabled feed); rewrite ?elem_of_cons; intuition congruence.
Qed.

Lemma set_first_enabled_on (feedUrl : string) (feeds : list News.RSSFeed) :
  feedUrl ∈ News.url <$> feeds ->
  feedUrl ∈ News.url <$> filter (fun feed => News.enabled feed = true)
                           (News.set_first_enabled feedUrl true feeds).
Proof.
  induction feeds as [|feed feeds IH]; intros Hin; [by apply elem_of_nil in Hin|].
  cbn [News.set_first_enabled].
  destruct (String.eqb_spec (News.url feed) feedUrl) as [He|He].
  - rewrite enabled_urls_cons. cbn [News.enabled News.url]. rewrite He. apply elem_of_cons. by left.
  - rewrite enabled_urls_cons. rewrite fmap_cons in Hin.
    apply elem_of_cons in Hin as [Hin|Hin]; [by symmetry in Hin|].
    destruct (News.enabled feed); [apply elem_of_cons; right|]; by apply IH.
Qed.

Lemma set_first_enabled_off (feedUrl : string) (feeds : list News.RSSFeed) :
  NoDup (News.url <$> feeds) ->
  feedUrl ∉ News.url <$> filter (fun feed => News.enabled feed = true)
                           (News.set_first_enabled feedUrl false feeds).
Proof.
  induction feeds as [|feed feeds IH]; intros Hnd; [apply not_elem_of_nil|].
  rewrite fmap_cons in Hnd. apply NoDup_cons in Hnd as [Hhd Hnd].
  cbn [News.set_first_enabled].
  destruct (String.eqb_spec (News.url feed) feedUrl) as [He|He].
  - rewrite enabled_urls_cons. cbn [News.enabled]. rewrite <- He.
    intros Hin. by apply enabled_urls_sub in Hin.
  - rewrite enabled_urls_cons.
    destruct (News.enabled feed); [|by apply IH].
    rewrite elem_of_cons. intros [Hin|Hin]; [by symmetry in Hin | by apply IH in Hin].
Qed.

Lemma set_first_enabled_app (feedUrl : string) (on : bool) (feeds more : list News.RSSFeed) :
  feedUrl ∈ News.url <$> feeds ->
  News.set_first_enabled feedUrl on (feeds ++ more)
  = News.set_first_enabled feedUrl on feeds ++ more.
Proof.
  induction feeds as [|feed feeds IH]; intros Hin; [by apply elem_of_nil in Hin|].
  cbn [News.set_first_enabled app].
  destruct (String.eqb_spec (News.url feed) feedUrl) as [He|He]; [done|].
  rewrite fmap_cons in Hin. apply elem_of_cons in Hin as [Hin|Hin]; [by symmetry in Hin|].
  by rewrite IH.
Qed.

(** X12: [toggleFeed] does nothing, not even clear the cache, for a URL no
    feed has. Otherwise it clears the cache, keeps the table's URLs and their
    order and leaves feeds of other URLs as they were; switching on makes the
    URL one the fan-out reads, and switching off removes it from the fan-out
    when no two feeds share a URL. *)
Theorem X12_toggleFeed_switches_the_first_match (feedUrl : string) (on : bool)
    (s : News.NewsService) :
  (feedUrl ∉ News.url <$> News.RSS_FEEDS s -> News.toggleFeed feedUrl on s = s)
  /\ (feedUrl ∈ News.url <$> News.RSS_FEEDS s ->
        News.cache (News.toggleFeed feedUrl on s) = ∅
        /\ News.url <$> News.RSS_FEEDS (News.toggleFeed feedUrl on s)
           = News.url <$> News.RSS_FEEDS s
        /\ (forall u, u <> feedUrl ->
              u ∈ enabled_feed_urls (News.toggleFeed feedUrl on s) <-> u ∈ enabled_feed_urls s)
        /\ (on = true -> feedUrl ∈ enabled_feed_urls (News.toggleFeed feedUrl on s))
        /\ (on = false -> NoDup (News.url <$> News.RSS_FEEDS s) ->
              feedUrl ∉ enabled_feed_urls (News.toggleFeed feedUrl on s))).
Proof.
  unfold News.toggleFeed, enabled_feed_urls. split.
  - intros Hout.
    destruct (existsb _ (News.RSS_FEEDS s)) eqn:He; [|done].
    by apply existsb_url in He.
  - intros Hin. apply existsb_url in Hin as He. rewrite He. cbn [News.cache News.RSS_FEEDS].
    split; [done|]. split; [apply set_first_enabled_urls|].
    split; [intros u Hu; by apply set_first_enabled_other|].
    split; [intros ->; by apply set_first_enabled_on|].
    intros -> Hnd. by apply set_first_enabled_off.
Qed.

(** X13: [addCustomFeed] leaves the service as it was and returns [false]
    when the validation request fails. When it succeeds it returns [true],
    clears the cache, and every later call fans out to the feeds enabled
    before followed by the new URL. It does not look for the URL in the
    table: after adding a URL the table already holds, [toggleFeed] with
    [false] switches the older feed only and the URL is still requested. *)
Theorem X13_addCustomFeed_appends_unchecked (feedUrl : string) (p : News.NewsPublisher)
    (category : string) (s : News.NewsService) :
  (forall e, News.addCustomFeed feedUrl p category (Raised e) s = (s, false))
  /\ (News.addCustomFeed feedUrl p category (Resolved ()) s).2 = true
  /\ (forall t0 cat limit,
        News.getLatestNews_check t0 cat limit
          (News.addCustomFeed feedUrl p category (Resolved ()) s).1
        = FanOut (enabled_feed_urls s ++ [feedUrl]))
  /\ (feedUrl ∈ News.url <$> News.RSS_FEEDS s ->
        feedUrl ∈ enabled_feed_urls
                    (News.toggleFeed feedUrl false
                       (News.addCustomFeed feedUrl p category (Resolved ()) s).1)).
Proof.
  unfold enabled_feed_urls. cbn [News.addCustomFeed fst snd].
  split; [done|]. split; [done|]. split.
  - intros t0 cat limit. unfold News.getLatestNews_check. cbn [News.cache News.RSS_FEEDS].
    rewrite lookup_empty. rewrite filter_app, fmap_app. f_equal.
  - intros Hin. unfold News.toggleFeed. cbn [News.RSS_FEEDS].
    assert (He : existsb (fun f => String.eqb (News.url f) feedUrl)
                   (News.RSS_FEEDS s ++ [News.mkFeed feedUrl p category true]) = true).
    { apply existsb_url. rewrite fmap_app. apply elem_of_app. by left. }
    rewrite He. cbn [News.RSS_FEEDS].
    rewrite set_first_enabled_app by done.
    rewrite filter_app, fmap_app. apply elem_of_app. right.
    rewrite enabled_urls_cons. cbn [News.enabled News.url]. apply elem_of_cons. by left.
Qed.

(** X11: a refresh of [getLatestNews] always resolves and writes its entry;
    a later call with the same category and limit is served that list
    exactly while fewer than 15 minutes have passed since the refresh, and at
    15 minutes or more it fans out again to the same feeds. *)
Theorem X11_news_entry_lives_less_than_ttl (h : Host) (t1 : Z) (category : option string)
    (limit : Z) (up : News.Feeds) (s : News.NewsService) :
  exists result,
    (news_refresh h t1 category limit up s).2 = Resolved result
    /\ enabled_feed_urls (news_refresh h t1 category limit up s).1 = enabled_feed_urls s
    /\ forall t,
         News.getLatestNews_check t category limit (news_refresh h t1 category limit up s).1
         = if t - t1 <? 15 * 60 * 1000 then Hit result else FanOut (enabled_feed_urls s).
Proof.
  unfold news_refresh, News.fetchAllFeeds, News.getLatestNews_resume. cbv zeta.
  eexists. split; [reflexivity|]. split; [reflexivity|].
  intros t. unfold News.getLatestNews_check. cbn [News.cache News.RSS_FEEDS fst].
  rewrite lookup_insert_eq. cbn [News.timestamp News.data]. reflexivity.
Qed.

(** ** The events service *)

Lemma keepEvent_true h now island category (e : Events.EventData) :
  Events.keepEvent h now island category e = true ->
  (truthy island = true -> Some (Events.island (Events.location e)) = island)
  /\ (truthy category = true -> Some (Events.category e) = category)
  /\ (forall t, getTime h (Events.startDate e) = Some t -> now <= t).
Proof.
  unfold Events.keepEvent. intros H.
  destruct (truthy island); destruct (truthy category);
    repeat case_bool_decide; simpl in H; try discriminate;
    (split; [done|]); (split; [done|]);
    intros t Ht; rewrite Ht in H; apply negb_true_iff, Z.ltb_ge in H; lia.
Qed.

(** X10: the list a refresh of [getEvents] returns is the list it caches
    under the query's key; for a limit of zero or more it has at most
    [limit] events, no two with the same title, start date and venue; every
    event is on the requested island and of the requested category when
    these are given, and none whose start date parses has started before the
    refresh. *)
Theorem X10_events_refresh_result (h : Host) (t0 t1 : Z) (island category : option string)
    (daysAhead limit : Z) (up : Events.Eventbrite) (c : gmap string Events.CacheEntry)
    (Hlimit : 0 <= limit) :
  exists result,
    events_refresh h t0 t1 island category daysAhead limit up c
    = (<[Events.cacheKey island category daysAhead limit := Events.mkEntry result t1]> c,
       Resolved result)
    /\ Z.of_nat (length result) <= limit
    /\ NoDup (Events.eventKey <$> result)
    /\ forall e, e ∈ result ->
         (truthy island = true -> Some (Events.island (Events.location e)) = island)
         /\ (truthy category = true -> Some (Events.category e) = category)
         /\ (forall t, getTime h (Events.startDate e) = Some t -> t1 <= t).
Proof.
  unfold events_refresh, Events.fetchFromAllSources, Events.getEvents_resume, Events.dedupEvents.
  cbv zeta. eexists. split; [reflexivity|].
  split; [by apply slice0_length|]. split.
  - eapply sublist_NoDup_keys; [apply slice0_sublist|]. apply sort_NoDup_keys.
    eapply sublist_NoDup_keys; [apply List_filter_sublist|]. apply collect_unique_NoDup.
  - intros e He. apply slice0_elem_of, sort_elem_of in He.
    apply list_elem_of_In, filter_In in He as [_ He].
    by apply keepEvent_true in He.
Qed.

Lemma X10_events_refresh_result_witness :
  0 <= 50
  /\ exists result,
       (events_refresh Sample.hostKey Sample.jan04 Sample.jan04 (Some "oahu") None 7 50
          (Sample.eventbriteOk [Sample.breakfast; Sample.concert]) ∅).2 = Resolved result
       /\ Z.of_nat (length result) <= 50.
Proof.
  assert (H : 0 <= 50) by lia.
  split; [exact H|].
  destruct (X10_events_refresh_result Sample.hostKey Sample.jan04 Sample.jan04 (Some "oahu")
              None 7 50 (Sample.eventbriteOk [Sample.breakfast; Sample.concert]) ∅ H)
    as (result & Hr & Hlen & _).
  exists result. split; [by rewrite Hr | exact Hlen].
Defined.

(** X15: [getNextSaturday] gives a Saturday, 08:00 local time, more than
    eight hours and at most seven days and eight hours after now: on a
    Saturday, even before 08:00, it is the Saturday of the week after. *)
Theorem X15_getNextSaturday (h : Host) (now : Z) :
  Events.getDay h (Events.getNextSaturday h now) = 6
  /\ (Events.getNextSaturday h now + localTZA h) mod Events.day_ms = 8 * 60 * 60 * 1000
  /\ now + 8 * 60 * 60 * 1000 < Events.getNextSaturday h now
     <= now + 7 * Events.day_ms + 8 * 60 * 60 * 1000.
Proof.
  unfold Events.getNextSaturday, Events.getDay, Events.day_ms. cbv zeta.
  generalize (localTZA h). intros tza.
  change (24 * 60 * 60 * 1000) with 86400000. change (8 * 60 * 60 * 1000) with 28800000.
  set (today := (now + tza) / 86400000).
  set (d := (6 - (today + 4) mod 7 + 7) mod 7).
  set (k := if d =? 0 then 7 else d).
  assert (Hk : 1 <= k <= 7 /\ (today + k + 4) mod 7 = 6).
  { subst k d. destruct (Z.eqb_spec ((6 - (today + 4) mod 7 + 7) mod 7) 0) as [E|E];
      revert E; generalize today; intros n E; Z.div_mod_to_equations; lia. }
  destruct Hk as [Hk Hsat].
  replace ((today + k) * 86400000 + 28800000 - tza + tza)
    with (28800000 + (today + k) * 86400000) by lia.
  assert (Htoday : today * 86400000 <= now + tza < (today + 1) * 86400000).
  { subst today. Z.div_mod_to_equations. lia. }
  rewrite Z.div_add by lia. rewrite Z.mod_add by lia.
  change (28800000 / 86400000) with 0. change (28800000 mod 86400000) with 28800000.
  split; [rewrite Z.add_0_l; exact Hsat|]. split; [reflexivity|]. nia.
Qed.

(** X14: [detectIsland] returns one of the six islands, and the first
    table entry with a matching keyword wins: a venue text that holds
    hawaii (as every address naming the state does) or waimea is never
    assigned to Kauai, Molokai or Lanai. *)
Theorem X14_detectIsland_first_table_entry_wins (venueName address : string) :
  Events.detectIsland venueName address
    ∈ ["oahu"; "maui"; "hawaii"; "kauai"; "molokai"; "lanai"]
  /\ (includes (toLowerCase (venueName ++ " " ++ address)) "hawaii" = true
      \/ includes (toLowerCase (venueName ++ " " ++ address)) "waimea" = true ->
      Events.detectIsland venueName address ∈ ["oahu"; "maui"; "hawaii"]).
Proof.
  unfold Events.detectIsland. cbv zeta.
  generalize (toLowerCase (venueName ++ " " ++ address)). intros text.
  unfold Events.ISLAND_KEYWORDS. split.
  - repeat (cbn [List.find snd]; destruct (existsb _ _));
      cbn [List.find fst]; rewrite !elem_of_cons; tauto.
  - intros Hkw.
    cbn [List.find snd]. destruct (existsb _ _); [cbn [fst]; rewrite !elem_of_cons; tauto|].
    cbn [List.find snd]. destruct (existsb _ _); [cbn [fst]; rewrite !elem_of_cons; tauto|].
    cbn [List.find snd].
    match goal with
    | |- context [existsb ?f ?l] =>
        assert (H3 : existsb f l = true)
          by (apply existsb_exists; destruct Hkw as [Hkw|Hkw];
              [exists "hawaii" | exists "waimea"]; (split; [cbn; tauto | exact Hkw]))
    end.
    rewrite H3. cbn [fst]. rewrite !elem_of_cons; tauto.
Qed.

Lemma scrapeHTAEvents_threshold (h : Host) (now daysAhead : Z) :
  getTime h (toISOString h (now + 10 * Events.day_ms)) = Some (now + 10 * Events.day_ms) ->
  exists festival,
    Events.title festival = "Honolulu Festival"
    /\ Events.startDate festival = toISOString h (now + 10 * Events.day_ms)
    /\ Events.scrapeHTAEvents h now daysAhead
       = Resolved (if 10 <=? daysAhead then [festival] else []).
Proof.
  intros Hdate. unfold Events.scrapeHTAEvents. cbv zeta.
  eexists. split; [|split]; [| |cbn [List.filter Events.startDate]; rewrite Hdate].
  3: { assert (Heq : (now + 10 * Events.day_ms <=? now + daysAhead * Events.day_ms)
                     = (10 <=? daysAhead)).
       { unfold Events.day_ms. destruct (Z.leb_spec 10 daysAhead);
           [apply Z.leb_le | apply Z.leb_gt]; lia. }
       rewrite Heq. destruct (10 <=? daysAhead); reflexivity. }
  all: reflexivity.
Qed.

Lemma collect_unique_one {A : Type} (key : A -> string) (x : A) :
  collect_unique key [Resolved []; Resolved [x]; Resolved []] = [x].
Proof.
  unfold collect_unique. cbn [foldl push_result]. unfold push_unseen. cbn [fst snd].
  case_bool_decide as Hin; [by apply elem_of_empty in Hin | reflexivity].
Qed.

(** X16: without an Eventbrite key the fan-out of [getEvents] yields
    nothing but the mock festival of [scrapeHTAEvents], dated ten days after
    the call, and that only when [daysAhead] is ten or more: with the default
    of seven days the merged list is empty whatever the upstream answers.
    (The host parses the date it formats.) *)
Theorem X16_events_without_key_are_the_mock (h : Host) (t0 : Z) (up : Events.Eventbrite)
    (daysAhead : Z)
    (Hkey : truthy (EVENTBRITE_API_KEY h) = false)
    (Hdate : getTime h (toISOString h (t0 + 10 * Events.day_ms))
             = Some (t0 + 10 * Events.day_ms)) :
  exists festival,
    Events.title festival = "Honolulu Festival"
    /\ Events.startDate festival = toISOString h (t0 + 10 * Events.day_ms)
    /\ Events.fetchFromAllSources h t0 up daysAhead
       = Resolved (if 10 <=? daysAhead then [festival] else []).
Proof.
  destruct (scrapeHTAEvents_threshold h t0 daysAhead Hdate) as (festival & Ht & Hs & Hscrape).
  exists festival. split; [done|]. split; [done|].
  unfold Events.fetchFromAllSources, Events.EVENT_SOURCES.
  rewrite filter_cons_True by done. rewrite filter_cons_False by done.
  rewrite !filter_cons_True by done. rewrite filter_nil.
  cbn [map]. unfold Events.fetchFromSource, Events.scrapeEvents, Events.fetchEventbriteEvents.
  cbn [Events.type Events.name Events.apiKey]. rewrite Hkey, Hscrape.
  simpl. f_equal. unfold Events.dedupEvents.
  destruct (10 <=? daysAhead); [apply collect_unique_one | reflexivity].
Qed.

Lemma X16_events_without_key_are_the_mock_witness :
  exists festival,
    Events.fetchFromAllSources Sample.host0 Sample.jan04 (Sample.eventbriteOk [Sample.concert]) 14
    = Resolved [festival].
Proof.
  assert (Hkey : truthy (EVENTBRITE_API_KEY Sample.host0) = false) by reflexivity.
  assert (Hdate : getTime Sample.host0
                    (toISOString Sample.host0 (Sample.jan04 + 10 * Events.day_ms))
                  = Some (Sample.jan04 + 10 * Events.day_ms)) by (vm_compute; reflexivity).
  destruct (X16_events_without_key_are_the_mock Sample.host0 Sample.jan04
              (Sample.eventbriteOk [Sample.concert]) 14 Hkey Hdate)
    as (festival & _ & _ & Hf).
  exists festival. exact Hf.
Defined.

(** ** The first places of a sorted list *)

Lemma StronglySorted_take_drop {A : Type} (R : A -> A -> Prop) (n : nat) (l : list A) x y :
  StronglySorted R l -> x ∈ take n l -> y ∈ drop n l -> R x y.
Proof.
  intros Hs. revert n. induction Hs as [|a l Hs IH Hall]; intros [|n] Hx Hy; simpl in *;
    try (by apply elem_of_nil in Hx).
  apply elem_of_cons in Hx as [->|Hx]; [|by eapply IH].
  rewrite Forall_forall in Hall. apply Hall.
  eapply elem_of_sublist; [exact Hy | apply sublist_drop].
Qed.

Lemma slice0_is_take {A : Type} (limit : Z) (l : list A) : exists n, slice0 limit l = take n l.
Proof. unfold slice0. destruct (limit <? 0); eauto. Qed.

(** Whatever a sorted list leaves behind when it is cut comes after
    everything that is kept. *)
Lemma slice0_top {A : Type} (R : A -> A -> Prop) (limit : Z) (l : list A) x y :
  StronglySorted R l -> x ∈ slice0 limit l -> y ∈ l -> y ∉ slice0 limit l -> R x y.
Proof.
  intros Hs Hx Hy Hny. destruct (slice0_is_take limit l) as [n Hn]. rewrite Hn in Hx, Hny.
  rewrite <- (take_drop n l) in Hy. apply elem_of_app in Hy as [Hy|Hy]; [done|].
  by eapply StronglySorted_take_drop.
Qed.

Lemma StronglySorted_map_fst {A : Type} (f : A -> Z) (l : list (A * Z)) :
  Forall (fun p => snd p = f (fst p)) l ->
  StronglySorted (fun a b => snd b <= snd a) l ->
  StronglySorted (fun a b => f b <= f a) (map fst l).
Proof.
  intros Hf Hs. induction Hs as [|p l Hs IH Hall]; simpl; [constructor|].
  apply Forall_cons in Hf as [Hp Hf]. constructor; [by apply IH|].
  rewrite Forall_forall in Hall. rewrite Forall_forall in Hf. apply Forall_forall. intros y Hy.
  apply list_elem_of_In, in_map_iff in Hy as (q & <- & Hq).
  apply (proj2 (list_elem_of_In _ _)) in Hq.
  rewrite <- Hp, <- (Hf q Hq). by apply Hall.
Qed.

Lemma scored_sort_sorted (l : list (Events.EventData * Z)) :
  StronglySorted (fun a b => snd b <= snd a) (sort Events.compareByScore l).
Proof.
  apply (sort_sorted Events.compareByScore (fun _ => True)).
  - intros a b _ _. unfold Events.compareByScore. intros Hc.
    destruct (Z.compare_spec (snd b) (snd a)); [lia | lia | done].
  - intros a b _ _. unfold Events.compareByScore. intros Hc.
    apply Z.compare_gt_iff in Hc. lia.
  - intros a b c _ _ _ Hab Hbc. lia.
  - by apply Forall_forall.
Qed.

(** X17: [getFeaturedEvents] passes on the store [getEvents] leaves and
    resolves to events of that listing, at most [limit] of them (for a limit
    of zero or more), in descending order of their score at the time of the
    call; no event of the listing that is left out scores higher than one
    that is featured. *)
Theorem X17_featured_events_are_the_top_scores (h : Host) (t0 t1 limit : Z)
    (up : Events.Eventbrite) (c : gmap string Events.CacheEntry) (Hlimit : 0 <= limit) :
  exists all featured,
    Events.getEvents h t0 t1 None None 14 100 up c
    = ((Events.getFeaturedEvents h t0 t1 limit up c).1, Resolved all)
    /\ (Events.getFeaturedEvents h t0 t1 limit up c).2 = Resolved featured
    /\ Z.of_nat (length featured) <= limit
    /\ (forall e, e ∈ featured -> e ∈ all)
    /\ StronglySorted (scored_before h t1) featured
    /\ forall e e', e ∈ featured -> e' ∈ all -> e' ∉ featured -> scored_before h t1 e e'.
Proof.
  unfold Events.getFeaturedEvents.
  destruct (events_get_resolves h t0 t1 None None 14 100 up c) as [all Hall].
  destruct (Events.getEvents h t0 t1 None None 14 100 up c) as [c1 r].
  cbn [snd] in Hall. subst r. cbn [fst snd bind try_catch].
  set (score := Events.calculateEventScore h t1).
  set (scored := map (fun event => (event, score event)) all).
  assert (Hscored : forall p, p ∈ sort Events.compareByScore scored ->
                      snd p = score (fst p) /\ fst p ∈ all).
  { intros p Hp. apply sort_elem_of, list_elem_of_In, in_map_iff in Hp as (e & <- & He).
    split; [done | by apply list_elem_of_In]. }
  assert (Hsorted := scored_sort_sorted scored).
  exists all, (map fst (slice0 limit (sort Events.compareByScore scored))).
  split; [done|]. split; [done|].
  split; [rewrite length_map; by apply slice0_length|]. split; [|split].
  - intros e He. apply list_elem_of_In, in_map_iff in He as (p & <- & Hp).
    apply (proj2 (list_elem_of_In _ _)), slice0_elem_of in Hp. by apply Hscored.
  - apply StronglySorted_map_fst; [|by apply slice0_sorted].
    apply Forall_forall. intros p Hp. apply slice0_elem_of in Hp.
    by apply Hscored.
  - intros e e' He He' Hout. unfold scored_before. fold score.
    apply list_elem_of_In, in_map_iff in He as (p & <- & Hp).
    apply (proj2 (list_elem_of_In _ _)) in Hp.
    assert (Hp' : (e', score e') ∈ sort Events.compareByScore scored).
    { apply sort_elem_of, list_elem_of_In, in_map_iff. exists e'.
      split; [done | by apply list_elem_of_In]. }
    assert (Hnp' : (e', score e') ∉ slice0 limit (sort Events.compareByScore scored)).
    { intros Hin. apply Hout, list_elem_of_In, in_map_iff. exists (e', score e').
      split; [done | by apply list_elem_of_In]. }
    pose proof (slice0_top _ limit _ p (e', score e') Hsorted Hp Hp' Hnp') as Hle.
    cbn [snd] in Hle. destruct (Hscored p (slice0_elem_of _ _ _ Hp)) as [<- _]. exact Hle.
Qed.

Lemma X17_featured_events_are_the_top_scores_witness :
  exists featured,
    (Events.getFeaturedEvents Sample.hostKey Sample.jan04 Sample.jan04 6
       (Sample.eventbriteOk [Sample.breakfast; Sample.concert]) ∅).2 = Resolved featured
    /\ Z.of_nat (length featured) <= 6.
Proof.
  assert (H : 0 <= 6) by lia.
  destruct (X17_featured_events_are_the_top_scores Sample.hostKey Sample.jan04 Sample.jan04 6
              (Sample.eventbriteOk [Sample.breakfast; Sample.concert]) ∅ H)
    as (all & featured & _ & Hf & Hlen & _).
  exists featured. split; [exact Hf | exact Hlen].
Defined.

(** ** Searching *)

Lemma lower_ascii_idemp (a : Ascii.ascii) : lower_ascii (lower_ascii a) = lower_ascii a.
Proof. destruct a as [[] [] [] [] [] [] [] []]; reflexivity. Qed.

Lemma toLowerCase_idemp (s : string) : toLowerCase (toLowerCase s) = toLowerCase s.
Proof.
  induction s as [|a s IH]; [done|]. cbn [toLowerCase]. by rewrite lower_ascii_idemp, IH.
Qed.

Lemma includes_empty (s : string) : includes s "" = true.
Proof. destruct s; reflexivity. Qed.

Lemma List_filter_all {A : Type} (p : A -> bool) (l : list A) :
  (forall x, p x = true) -> List.filter p l = l.
Proof.
  intros Hp. induction l as [|x l IH]; [done|]. cbn [List.filter]. by rewrite Hp, IH.
Qed.

(** X18: [searchEvents] resolves to a sublist of the listing [getEvents]
    gives (order kept) and passes on its store; the empty query selects every
    event, and the query is matched without regard to its case. *)
Theorem X18_searchEvents_filters_the_listing (h : Host) (t0 t1 : Z) (query : string)
    (island : option string) (up : Events.Eventbrite) (c : gmap string Events.CacheEntry) :
  exists all found,
    Events.getEvents h t0 t1 island None 30 200 up c
    = ((Events.searchEvents h t0 t1 query island up c).1, Resolved all)
    /\ (Events.searchEvents h t0 t1 query island up c).2 = Resolved found
    /\ found `sublist_of` all
    /\ (query = "" -> found = all)
    /\ Events.searchEvents h t0 t1 (toLowerCase query) island up c
       = Events.searchEvents h t0 t1 query island up c.
Proof.
  unfold Events.searchEvents.
  destruct (events_get_resolves h t0 t1 island None 30 200 up c) as [all Hall].
  destruct (Events.getEvents h t0 t1 island None 30 200 up c) as [c1 r].
  cbn [snd] in Hall. subst r. cbn [fst snd bind try_catch].
  eexists _, _. split; [reflexivity|]. split; [reflexivity|].
  split; [apply List_filter_sublist|]. split.
  - intros ->. apply List_filter_all. intros e. unfold Events.matchesQuery.
    cbn [toLowerCase]. by rewrite includes_empty.
  - by rewrite toLowerCase_idemp.
Qed.

(** ** The surf service *)

Lemma indexed_filter_length {A : Type} (l : list A) (s : nat) :
  length (List.filter (fun p : nat * A => (fst p mod 6 =? 0)%nat) (combine (seq s (length l)) l))
  = length (List.filter (fun i => (i mod 6 =? 0)%nat) (seq s (length l))).
Proof.
  revert s. induction l as [|x l IH]; intros s; [done|].
  cbn [length seq combine List.filter fst].
  destruct (s mod 6 =? 0)%nat; cbn [length]; by rewrite IH.
Qed.

Lemma every_sixth_length {A : Type} (l : list A) :
  length (Surf.every_sixth l)
  = length (List.filter (fun i => (i mod 6 =? 0)%nat) (seq 0 (length l))).
Proof. unfold Surf.every_sixth. rewrite length_map. apply indexed_filter_length. Qed.

Lemma sampled_hours (n : nat) :
  (1 <= n <= 120)%nat ->
  (1 <= length (List.filter (fun i => (i mod 6 =? 0)%nat) (seq 0 n)) <= 20)%nat.
Proof.
  intros Hn.
  assert (Hall : forallb (fun n =>
                   let k := length (List.filter (fun i => (i mod 6 =? 0)%nat) (seq 0 n)) in
                   (1 <=? k)%nat && (k <=? 20)%nat) (seq 1 120) = true)
    by (vm_compute; reflexivity).
  rewrite forallb_forall in Hall. specialize (Hall n). cbv zeta in Hall.
  assert (Hin : In n (seq 1 120)) by (apply in_seq; lia).
  apply Hall, andb_true_iff in Hin as [H1 H2].
  apply Nat.leb_le in H1, H2. lia.
Qed.


Lemma traverse_length {A B : Type} (f : A -> outcome B) (l : list A) (ys : list B) :
  traverse f l = Resolved ys -> length ys = length l.
Proof.
  revert ys. induction l as [|x l IH]; intros ys; cbn [traverse].
  - by intros [= <-].
  - destruct (f x) as [y|e]; cbn [bind]; [|discriminate].
    destruct (traverse f l) as [ys'|e]; cbn [bind]; [|discriminate].
    intros [= <-]. cbn [length]. by rewrite (IH ys').
Qed.

(** What [parseSurflineData] returns, when it returns. *)
Lemma parseSurflineData_spot (h : Host) (now : Z) (spot : Surf.SurflineSpot)
    (payload : Surf.WavePayload) (v : Surf.SurfSpot) :
  Surf.parseSurflineData h now spot payload = Resolved v ->
  Surf.id v = Surf.spotId spot /\ Surf.name v = Surf.spotName spot
  /\ Surf.island v = Surf.spotIsland spot
  /\ (1 <= length (Surf.forecast v) <= 20)%nat.
Proof.
  destruct payload as [[[|wave waves]|]|]; cbn [Surf.parseSurflineData default id];
    [intros [= <-]; cbn; repeat split; lia | | intros [= <-]; cbn; repeat split; lia
     | discriminate].
  destruct (Surf.readWave wave) as [current|e]; cbn [bind]; [|discriminate].
  destruct (traverse _ _) as [forecast|e] eqn:Hf; cbn [bind]; [|discriminate].
  intros [= <-]. cbn [Surf.id Surf.name Surf.island Surf.forecast].
  split; [done|]. split; [done|]. split; [done|].
  apply traverse_length in Hf. rewrite Hf, every_sixth_length. apply sampled_hours.
  rewrite length_take. cbn [length]. lia.
Qed.

Lemma fetchSpotData_settled_spot (h : Host) (now : Z) (spot : Surf.SurflineSpot)
    (o : outcome (Response Surf.WavePayload)) :
  exists v,
    Surf.fetchSpotData_settled h now spot o = Resolved v
    /\ Surf.id v = Surf.spotId spot
    /\ Surf.island v = Surf.spotIsland spot
    /\ (is_resolved o = false -> v = Surf.getFallbackSpotData h now spot).
Proof.
  unfold Surf.fetchSpotData_settled.
  destruct o as [response|e]; cbn [bind try_catch is_resolved]; [|eauto 6].
  destruct (ok response); [|cbn [try_catch]; eexists; repeat split; discriminate].
  destruct (json response) as [payload|e]; cbn [bind try_catch];
    [|eexists; repeat split; discriminate].
  destruct (Surf.parseSurflineData h now spot payload) as [v|e] eqn:Hparse; cbn [try_catch].
  - apply parseSurflineData_spot in Hparse as (Hid & _ & His & _).
    exists v. repeat split; [done | done | discriminate].
  - eexists; repeat split; discriminate.
Qed.

Lemma refreshed_spots (h : Host) (t1 : Z) (up : Surf.Upstream) (l : list Surf.SurflineSpot) :
  exists spots,
    omap (fun result => match result with Resolved v => Some v | Raised _ => None end)
         (map (fun spot => Surf.fetchSpotData_settled h t1 spot
                             (Surf.waveResp up (Surf.spotId spot))) l) = spots
    /\ Surf.id <$> spots = Surf.spotId <$> l
    /\ Surf.island <$> spots = Surf.spotIsland <$> l
    /\ ((forall id, is_resolved (Surf.waveResp up id) = false) ->
        spots = map (Surf.getFallbackSpotData h t1) l).
Proof.
  induction l as [|spot l (spots & Hs & Hid & His & Hdown)]; [by exists []|].
  destruct (fetchSpotData_settled_spot h t1 spot (Surf.waveResp up (Surf.spotId spot)))
    as (v & Hv & Hvid & Hvis & Hvdown).
  exists (v :: spots). cbn [map omap list_omap]. rewrite Hv, Hs. split; [done|].
  rewrite !fmap_cons, Hid, His, Hvid, Hvis. split; [done|]. split; [done|].
  intros Hall. cbn [map]. by rewrite Hvdown, Hdown.
Qed.

(** X19: a refresh of [getSurfData] always writes its entry: the data has
    exactly one spot for each spot configured for the island, in the order of
    the table, whatever the Surfline requests did; a later call is served
    that data exactly while fewer than 30 minutes have passed. *)
Theorem X19_surf_refresh_lists_every_configured_spot (h : Host) (t1 : Z) (rnd : nat -> Q)
    (island : string) (up : Surf.Upstream) (c : gmap string Surf.CacheEntry) :
  exists data,
    surf_refresh h t1 rnd island up c
    = (<[Surf.cacheKey island := Surf.mkEntry data t1]> c, Resolved data)
    /\ Surf.id <$> Surf.spots data
       = Surf.spotId <$> filter (fun spot => Surf.spotIsland spot = island) Surf.SURF_SPOTS
    /\ (forall spot, spot ∈ Surf.spots data -> Surf.island spot = island)
    /\ forall t,
         Surf.getSurfData_check t island (surf_refresh h t1 rnd island up c).1
         = if t - t1 <? 30 * 60 * 1000 then Hit data
           else FanOut (Surf.spotName
                          <$> filter (fun spot => Surf.spotIsland spot = island) Surf.SURF_SPOTS).
Proof.
  unfold surf_refresh, Surf.getSurfData_resume. cbv zeta.
  destruct (proj2 (proj2 (proj2 adapters_resolve)) h t1 rnd island (Surf.tideResp up))
    as [tides ->].
  destruct (refreshed_spots h t1 up
              (filter (fun spot => Surf.spotIsland spot = island) Surf.SURF_SPOTS))
    as (spots & -> & Hid & His & _).
  eexists. split; [reflexivity|]. cbn [Surf.spots fst]. split; [exact Hid|]. split.
  - intros spot Hspot.
    assert (Hin : Surf.island spot ∈ Surf.island <$> spots)
      by (apply list_elem_of_fmap; by exists spot).
    rewrite His in Hin. apply list_elem_of_fmap in Hin as (cfg & -> & Hcfg).
    by apply list_elem_of_filter in Hcfg as [Hcfg _].
  - intros t. unfold Surf.getSurfData_check. cbv zeta.
    rewrite lookup_insert_eq. cbn [Surf.timestamp Surf.data]. reflexivity.
Qed.



(** ** Picking a maximum with [reduce] *)

Lemma foldl_argmax {A : Type} (f : A -> Q) (l : list A) (first : A) :
  (foldl (fun best x => if Qlt_le_dec (f best) (f x) then x else best) first l = first
   \/ foldl (fun best x => if Qlt_le_dec (f best) (f x) then x else best) first l ∈ l)
  /\ (f first <= f (foldl (fun best x => if Qlt_le_dec (f best) (f x) then x else best)
                          first l))%Q
  /\ forall x, x ∈ l ->
       (f x <= f (foldl (fun best x => if Qlt_le_dec (f best) (f x) then x else best)
                        first l))%Q.
Proof.
  revert first. induction l as [|y l IH]; intros first; cbn [foldl].
  - split; [by left|]. split; [apply Qle_refl|]. intros x Hx. by apply elem_of_nil in Hx.
  - destruct (Qlt_le_dec (f first) (f y)) as [Hlt|Hle].
    + destruct (IH y) as (Hin & Hge & Hall). split; [|split].
      * right. apply elem_of_cons. destruct Hin as [->|Hin]; [by left | by right].
      * eapply Qle_trans; [apply Qlt_le_weak, Hlt | exact Hge].
      * intros x Hx. apply elem_of_cons in Hx as [->|Hx]; [exact Hge | by apply Hall].
    + destruct (IH first) as (Hin & Hge & Hall). split; [|split].
      * destruct Hin as [->|Hin]; [by left | right; apply elem_of_cons; by right].
      * exact Hge.
      * intros x Hx. apply elem_of_cons in Hx as [->|Hx]; [|by apply Hall].
        eapply Qle_trans; [exact Hle | exact Hge].
Qed.

(** X21: for a non-empty swell list [calculateDominantDirection] is the
    direction (315 when that is missing or zero) of a swell whose height is
    the largest of the list. *)
Theorem X21_dominant_direction_is_of_a_highest_swell (swells : list Surf.Swell)
    (Hswells : swells <> []) :
  exists dominant,
    dominant ∈ swells
    /\ (forall swell, swell ∈ swells ->
          (num_or (Surf.height swell) 0 <= num_or (Surf.height dominant) 0)%Q)
    /\ Surf.calculateDominantDirection (Some swells)
       = num_or (Surf.swellDirection dominant) 315.
Proof.
  destruct swells as [|first rest]; [done|]. cbn [Surf.calculateDominantDirection].
  destruct (foldl_argmax (fun swell => num_or (Surf.height swell) 0) rest first)
    as (Hin & Hge & Hall).
  eexists. split; [|split; [|reflexivity]].
  - apply elem_of_cons. destruct Hin as [->|Hin]; [by left | by right].
  - intros swell Hswell. apply elem_of_cons in Hswell as [->|Hswell];
      [exact Hge | by apply Hall].
Qed.

Lemma X21_dominant_direction_is_of_a_highest_swell_witness :
  exists dominant,
    dominant ∈ [Surf.mkSwell 2 12 300; Surf.mkSwell 5 14 320]%Q
    /\ Surf.calculateDominantDirection (Some [Surf.mkSwell 2 12 300; Surf.mkSwell 5 14 320]%Q)
       = num_or (Surf.swellDirection dominant) 315.
Proof.
  assert (H : [Surf.mkSwell 2 12 300; Surf.mkSwell 5 14 320]%Q <> []) by discriminate.
  destruct (X21_dominant_direction_is_of_a_highest_swell _ H) as (dominant & Hin & _ & Hd).
  exists dominant. split; [exact Hin | exact Hd].
Defined.

(** X26: the top surf spot of the briefing is undefined exactly when the
    island's surf data has no spots; otherwise it is one of the spots and no
    spot has a higher [calculateSurfScore]. *)
Theorem X26_briefing_top_spot (spots : list Surf.SurfSpot) :
  (Email.topSurfSpot spots = None <-> spots = [])
  /\ forall best, Email.topSurfSpot spots = Some best ->
       best ∈ spots
       /\ forall spot, spot ∈ spots ->
            (Email.calculateSurfScore spot <= Email.calculateSurfScore best)%Q.
Proof.
  destruct spots as [|first rest]; unfold Email.topSurfSpot.
  - split; [done|]. intros best Hbest. discriminate Hbest.
  - split; [split; discriminate|]. intros best Hbest.
    destruct (foldl_argmax Email.calculateSurfScore (first :: rest) first) as (Hin & _ & Hall).
    apply (inj Some) in Hbest. subst best.
    split; [|exact Hall].
    destruct Hin as [->|Hin]; [apply elem_of_cons; by left | exact Hin].
Qed.

(** ** Tides *)

(** X23: for random numbers in [0, 1) the fallback tide data is one record
    for the island with eight events alternating high, low from a high;
    every high is between 2 and 3 and every low between 0 and 1, so each
    high lies above each low. (The bounds leave room for the rounding of the
    sums 2.1 + r * 0.5 and 0.3 + r * 0.4.) *)
Theorem X23_fallback_tides (h : Host) (now : Z) (rnd : nat -> Q) (island : string)
    (Hrnd : forall i, (0 <= rnd i < 1)%Q) :
  exists tides,
    Surf.getFallbackTideData h now rnd island = [Surf.mkTideData island tides]
    /\ Surf.tideType <$> tides = ["high"; "low"; "high"; "low"; "high"; "low"; "high"; "low"]
    /\ forall tide, tide ∈ tides ->
         exists height,
           Surf.tideHeight tide = Some height
           /\ (Surf.tideType tide = "high" -> (2 <= height <= 3)%Q)
           /\ (Surf.tideType tide = "low" -> (0 <= height <= 1)%Q).
Proof.
  unfold Surf.getFallbackTideData. eexists. split; [reflexivity|]. split; [reflexivity|].
  intros tide Htide. cbn [map seq] in Htide.
  repeat (apply elem_of_cons in Htide as [->|Htide]);
    [| | | | | | | |by apply elem_of_nil in Htide];
    cbn [Surf.tideHeight Surf.tideType]; cbv [Nat.modulo Nat.divmod Nat.eqb Nat.sub fst snd];
    eexists; (split; [reflexivity|]).
  all: split; intros Htype; try discriminate Htype.
  all: pose proof (Hrnd 0%nat); pose proof (Hrnd 1%nat); pose proof (Hrnd 2%nat);
    pose proof (Hrnd 3%nat); pose proof (Hrnd 4%nat); pose proof (Hrnd 5%nat);
    pose proof (Hrnd 6%nat); pose proof (Hrnd 7%nat); lra.
Qed.

Lemma X23_fallback_tides_witness :
  exists tides,
    Surf.getFallbackTideData Sample.host0 Sample.jan04 (fun _ => 1 # 2)%Q "oahu"
    = [Surf.mkTideData "oahu" tides]
    /\ Surf.tideType <$> tides = ["high"; "low"; "high"; "low"; "high"; "low"; "high"; "low"].
Proof.
  assert (Hrnd : forall i : nat, (0 <= (fun _ : nat => 1 # 2) i < 1)%Q)
    by (intros i; split; [discriminate | reflexivity]).
  destruct (X23_fallback_tides Sample.host0 Sample.jan04 (fun _ => 1 # 2)%Q "oahu" Hrnd)
    as (tides & Hd & Htypes & _).
  exists tides. split; [exact Hd | exact Htypes].
Defined.

(** ** The sampled forecast *)


(** ** The next tide *)

(** X22: when the tide request fails, [getNextTide] on an empty cache
    returns the second event of the fallback tide data, the low tide three
    hours from now: the first event is dated now, which is not after now.
    (The host parses what it formats at these two instants.) *)
Theorem X22_next_tide_of_the_fallback (h : Host) (t0 t1 : Z) (rnd : nat -> Q)
    (island : string) (up : Surf.Upstream) (c : gmap string Surf.CacheEntry)
    (Hmiss : c !! Surf.cacheKey island = None)
    (Hstation : is_Some (Surf.station_of island))
    (Htides : is_resolved (Surf.tideResp up) = false)
    (Hnow : getTime h (toISOString h t1) = Some t1)
    (Hnext : getTime h (toISOString h (t1 + 3 * 60 * 60 * 1000))
             = Some (t1 + 3 * 60 * 60 * 1000)) :
  (Surf.getNextTide h t0 t1 rnd island up c).2
  = Resolved (Some (Surf.mkTideEvent (toISOString h (t1 + 3 * 60 * 60 * 1000)) "low"
                      (Some (0.3 + rnd 1%nat * 0.4)%Q))).
Proof.
  unfold Surf.getNextTide, Surf.getSurfData, Surf.getSurfData_check. cbv zeta.
  rewrite Hmiss. unfold Surf.getSurfData_resume. cbv zeta.
  unfold Surf.fetchTideData. destruct Hstation as [station ->].
  destruct (Surf.tideResp up) as [response|e]; [discriminate Htides|].
  cbn [bind try_catch snd]. unfold Surf.nextTideOf, Surf.getFallbackTideData.
  cbn [Surf.tideData List.find Surf.tideIsland]. rewrite String.eqb_refl.
  cbn [Surf.tides map seq List.find]. unfold Surf.isAfter at 1. cbn [Surf.time].
  change (t1 + Z.of_nat 0 * 3 * 60 * 60 * 1000) with (t1 + 0). rewrite Z.add_0_r, Hnow.
  rewrite Z.ltb_irrefl. unfold Surf.isAfter at 1. cbn [Surf.time].
  change (Z.of_nat 1 * 3 * 60 * 60 * 1000) with (3 * 60 * 60 * 1000). rewrite Hnext.
  assert (Hlt : (t1 <? t1 + 3 * 60 * 60 * 1000) = true) by (apply Z.ltb_lt; lia).
  rewrite Hlt. reflexivity.
Qed.

Lemma X22_next_tide_of_the_fallback_witness :
  (Surf.getNextTide Sample.host0 Sample.jan04 Sample.jan04 (fun _ => 1 # 2)%Q "oahu"
     Sample.surfDown ∅).2
  = Resolved (Some (Surf.mkTideEvent "2025-01-04T21:00:00.000Z" "low"
                      (Some (0.3 + (1 # 2) * 0.4)%Q))).
Proof.
  assert (Hmiss : (∅ : gmap string Surf.CacheEntry) !! Surf.cacheKey "oahu" = None)
    by (vm_compute; reflexivity).
  assert (Hstation : is_Some (Surf.station_of "oahu")) by (vm_compute; eauto).
  assert (Htides : is_resolved (Surf.tideResp Sample.surfDown) = false) by reflexivity.
  assert (Hnow : getTime Sample.host0 (toISOString Sample.host0 Sample.jan04)
                 = Some Sample.jan04) by (vm_compute; reflexivity).
  assert (Hnext : getTime Sample.host0
                    (toISOString Sample.host0 (Sample.jan04 + 3 * 60 * 60 * 1000))
                  = Some (Sample.jan04 + 3 * 60 * 60 * 1000)) by (vm_compute; reflexivity).
  rewrite (X22_next_tide_of_the_fallback Sample.host0 Sample.jan04 Sample.jan04
             (fun _ => 1 # 2)%Q "oahu" Sample.surfDown ∅ Hmiss Hstation Htides Hnow Hnext).
  vm_compute. reflexivity.
Defined.

(** ** The ranking sorts the cached array *)

(** X25: [getTopSurfSpots] for an island resolves to the ranking of the
    spots [getSurfData] gave, and it sorts the cached array itself: a later
    [getSurfData] served from the cache gives the spots in ranked order, not
    in the order of the table, with tides and timestamp unchanged. *)
Theorem X25_getTopSurfSpots_reorders_the_cached_spots (h : Host) (t0 t1 : Z)
    (rnd : nat -> Q) (island : string) (limit : Z) (up : Surf.Upstream)
    (c : gmap string Surf.CacheEntry) :
  exists data,
    (Surf.getSurfData h t0 t1 rnd island up c).2 = Resolved data
    /\ (Surf.getTopSurfSpots h t0 t1 rnd island limit up c).2
       = Resolved (Surf.rankSpots limit (Surf.spots data))
    /\ forall t later,
         Surf.getSurfData_check t island
           (Surf.getTopSurfSpots h t0 t1 rnd island limit up c).1 = Hit later ->
         Surf.spots later = sort Surf.compareSpots (Surf.spots data)
         /\ Surf.tideData later = Surf.tideData data
         /\ Surf.lastUpdated later = Surf.lastUpdated data.
Proof.
  unfold Surf.getTopSurfSpots, Surf.getSurfData, Surf.rankSpots.
  destruct (Surf.getSurfData_check t0 island c) as [v|sources] eqn:Hcheck.
  - exists v. split; [done|]. split; [done|]. cbn [fst].
    intros t later. unfold Surf.getSurfData_check in *. cbv zeta in *.
    rewrite lookup_alter_eq.
    destruct (c !! Surf.cacheKey island) as [entry|]; [|discriminate Hcheck].
    destruct (t0 - Surf.timestamp entry <? _); [|discriminate Hcheck].
    injection Hcheck as <-. cbn [fmap option_fmap option_map Surf.timestamp Surf.data].
    destruct (t - Surf.timestamp entry <? _); [|discriminate].
    intros [= <-]. done.
  - unfold Surf.getSurfData_resume. cbv zeta.
    destruct (proj2 (proj2 (proj2 adapters_resolve)) h t1 rnd island (Surf.tideResp up))
      as [tides ->].
    cbn [is_resolved fst snd]. eexists. split; [reflexivity|]. split; [reflexivity|].
    intros t later. unfold Surf.getSurfData_check. cbv zeta.
    rewrite lookup_alter_eq, lookup_insert_eq.
    cbn [fmap option_fmap option_map Surf.timestamp Surf.data].
    destruct (t - t1 <? _); [|discriminate].
    intros [= <-]. done.
Qed.

(** ** Units and grades *)

Lemma round_mono (x y : Q) : (x <= y)%Q -> round x <= round y.
Proof. intros Hxy. unfold round. apply Qfloor_resp_le. lra. Qed.

(** X27: [extractTemperature] returns a reading in F as it is; for every
    other unit the result is a whole number, the conversion keeps the order
    of two temperatures, and a temperature that is not a number stays NaN
    whatever the unit. *)
Theorem X27_extractTemperature_converts_to_fahrenheit (temp temp' : Q) (unit : string) :
  Weather.extractTemperature (Some temp) "F" = Some temp
  /\ Weather.extractTemperature None unit = None
  /\ (unit <> "F" ->
      exists degrees : Z,
        Weather.extractTemperature (Some temp) unit = Some (inject_Z degrees))
  /\ ((temp <= temp')%Q ->
      exists f f',
        Weather.extractTemperature (Some temp) unit = Some f
        /\ Weather.extractTemperature (Some temp') unit = Some f'
        /\ (f <= f')%Q).
Proof.
  unfold Weather.extractTemperature. split; [reflexivity|].
  split; [by destruct (String.eqb unit "F")|].
  destruct (String.eqb_spec unit "F") as [->|Hne].
  - split; [done|]. intros Hle. by exists temp, temp'.
  - split; [intros _; by eexists|].
    intros Hle. eexists _, _. split; [reflexivity|]. split; [reflexivity|].
    rewrite <- Zle_Qle. apply round_mono.
    assert (Hdiv : forall x : Q, (x * 9 / 5 + 32 == x * (9 # 5) + 32)%Q) by (intros x; field).
    rewrite !Hdiv. lra.
Qed.

Lemma Qle_bool_false (x y : Q) : Qle_bool x y = false -> (y < x)%Q.
Proof.
  intros H. apply Qnot_le_lt. intros Hle. apply Qle_bool_iff in Hle. congruence.
Qed.

(** X28: [assessWaveQuality] grades a wave as poor, fair, good or
    excellent; a wave without swells is poor whatever its height; with the
    same swells, a wave of greater height never gets a lower grade (grades
    numbered as [getTopSurfSpots] numbers them). *)
Theorem X28_wave_quality_grades (wave wave' : Surf.Wave) :
  Surf.assessWaveQuality wave ∈ ["poor"; "fair"; "good"; "excellent"]
  /\ (Surf.swells wave = None \/ Surf.swells wave = Some [] ->
      Surf.assessWaveQuality wave = "poor")
  /\ (Surf.swells wave = Surf.swells wave' ->
      (waveHeightOf wave <= waveHeightOf wave')%Q ->
      (Surf.qualityScore (Surf.assessWaveQuality wave)
       <= Surf.qualityScore (Surf.assessWaveQuality wave'))%Q).
Proof.
  unfold Surf.assessWaveQuality, waveHeightOf. cbv zeta.
  generalize (Qmax (num_or (Surf.surfMin wave) 0) (num_or (Surf.surfMax wave) 0)).
  generalize (Qmax (num_or (Surf.surfMin wave') 0) (num_or (Surf.surfMax wave') 0)).
  intros height' height. split; [|split].
  - destruct (negb _ || negb _); [rewrite !elem_of_cons; tauto|].
    destruct (negb _); [rewrite !elem_of_cons; tauto|].
    destruct (negb _); rewrite !elem_of_cons; tauto.
  - intros [-> | ->]; reflexivity.
  - intros <- Hle.
    destruct (Surf.swells wave) as [[|swell rest]|]; cbn [negb orb];
      [apply Qle_refl | | apply Qle_refl].
    destruct (Qle_bool 1 height) eqn:H1; destruct (Qle_bool 3 height) eqn:H3;
      destruct (Qle_bool 6 height) eqn:H6;
      destruct (Qle_bool 1 height') eqn:H1'; destruct (Qle_bool 3 height') eqn:H3';
      destruct (Qle_bool 6 height') eqn:H6'; cbn [negb];
      try (vm_compute; discriminate);
      repeat match goal with
             | H : Qle_bool _ _ = true |- _ => apply Qle_bool_iff in H
             | H : Qle_bool _ _ = false |- _ => apply Qle_bool_false in H
             end; lra.
Qed.
